(** * Shield-drug training tools: a shallow embedding and its properties

    The development embeds three pieces of the Python sources:
    - [training/utils/dataset_preparation.py]: [split_dataset];
    - [training/scripts/train_authenticity_verifier.py]:
      [create_siamese_pairs];
    - [training/train_all_models.py]: the [ModelTrainingOrchestrator]
      methods [check_prerequisites], [install_requirements], [train_model],
      [train_all_models], [generate_training_report] and [main].

    Python [int] is [Z], Python [float] is IEEE binary64 given by the
    executable specification [SpecFloat], [pathlib.Path] is a list of path
    components, a [dict] is a [gmap], a string is the UTF-8 encoding of its
    text.  Everything outside the interpreter (the clock, the random
    generator, the subprocesses, pip) is an oracle indexed by the number of
    calls made so far.  The redrawing loop of [random.sample], which the
    code does not bound, is given the number of turns it may take. *)

From Stdlib Require Import ZArith Ascii String SpecFloat.
From stdpp Require Import gmap strings list fin_maps pretty.

Local Open Scope string_scope.
Local Open Scope list_scope.
Local Open Scope Z_scope.

(** ** Exceptions and the state-and-exception monad *)

Inductive exn_class :=
| ValueError | OverflowError | KeyError | OSError | CalledProcessError
| OtherException.

Record exn := Raise { exn_cls : exn_class; exn_text : string }.

(** [str(e)] *)
Definition str_exn (e : exn) : string := exn_text e.

Inductive result (A : Type) :=
| Ok (a : A)
| Err (e : exn).
Arguments Ok {A} a.
Arguments Err {A} e.

(** ** Python floats: IEEE 754 binary64 *)

Module PyFloat.

Definition prec : Z := 53.
Definition emax : Z := 1024.

Definition float := spec_float.

Definition add : float -> float -> float := SFadd prec emax.
Definition sub : float -> float -> float := SFsub prec emax.
Definition mul : float -> float -> float := SFmul prec emax.
Definition div : float -> float -> float := SFdiv prec emax.
Definition abs : float -> float := SFabs.
(** [x > y] *)
Definition gt (x y : float) : bool := SFltb y x.
(** [x >= y] *)
Definition ge (x y : float) : bool := SFleb y x.

(** The nearest double of an integer (round to nearest, ties to even). *)
Definition nearest (n : Z) : float := binary_normalize prec emax n 0 false.

(** [float(n)] for an [int]: [OverflowError] when out of range. *)
Definition of_int (n : Z) : result float :=
  match nearest n with
  | S754_infinity _ =>
      Err (Raise OverflowError "int too large to convert to float")
  | x => Ok x
  end.

(** [int(x)] for a [float]: truncation toward zero. *)
Definition to_int (x : float) : result Z :=
  match x with
  | S754_zero _ => Ok 0
  | S754_infinity _ =>
      Err (Raise OverflowError "cannot convert float infinity to integer")
  | S754_nan =>
      Err (Raise ValueError "cannot convert float NaN to integer")
  | S754_finite s m e =>
      let v := Z.shiftl (Z.pos m) e in
      Ok (if s then - v else v)
  end.

(** [n * x] for an [int] [n] and a [float] [x]. *)
Definition int_mul (n : Z) (x : float) : result float :=
  match of_int n with
  | Ok fn => Ok (mul fn x)
  | Err e => Err e
  end.

(** The literals of the sources, as the doubles nearest to them. *)
Definition lit_1_0 : float := S754_finite false 4503599627370496 (-52).
Definition lit_1e_6 : float := S754_finite false 4722366482869645 (-72).
Definition lit_0_7 : float := S754_finite false 6305039478318694 (-53).
Definition lit_0_2 : float := S754_finite false 7205759403792794 (-55).
Definition lit_0_1 : float := S754_finite false 7205759403792794 (-56).

End PyFloat.

(** ** Python sequences: slices with optional, possibly negative bounds *)

Section Slices.
Context {A : Type}.

(** A slice bound clipped to [0, len]: a negative bound counts from the
    end. *)
Definition adjust_index (len i : Z) : Z :=
  if i <? 0 then Z.max 0 (len + i) else Z.min i len.

(** [l[start:stop]] *)
Definition py_slice (l : list A) (start stop : option Z) : list A :=
  let len := Z.of_nat (length l) in
  let lo := match start with Some i => adjust_index len i | None => 0 end in
  let hi := match stop with Some i => adjust_index len i | None => len end in
  take (Z.to_nat (hi - lo)) (drop (Z.to_nat lo) l).

(** [x[i], x[j] = x[j], x[i]] for indices in range. *)
Definition swap (x : list A) (i j : nat) : list A :=
  match x !! i, x !! j with
  | Some xi, Some xj => <[j:=xi]> (<[i:=xj]> x)
  | _, _ => x
  end.
End Slices.

(** ** The world: file system, clock, random generator, subprocesses *)

(** A [pathlib.Path], absolute, as its components below the root. *)
Definition path := list string.

(** [str(p)] *)
Definition str_path (p : path) : string :=
  String.concat "" (map (fun c => "/" +:+ c) p).

(** [repr(s)] of a string, as the text of an [OSError] or of a [KeyError]
    shows a name: between single quotes, or between double quotes when the
    string holds a single quote and no double one; the quote used, the
    backslash and the control characters are escaped.  The characters
    outside ASCII are taken to be printable ones, which [repr] keeps. *)
Definition double_quote : ascii := ascii_of_nat 34.
Definition single_quote : ascii := ascii_of_nat 39.
Definition backslash : ascii := ascii_of_nat 92.

Definition hex_digit (n : nat) : ascii :=
  if (n <? 10)%nat then ascii_of_nat (48 + n) else ascii_of_nat (87 + n).

Definition repr_char (quote a : ascii) : string :=
  let n := nat_of_ascii a in
  if Ascii.eqb a quote || Ascii.eqb a backslash
  then String backslash (String a "")
  else if (n =? 9)%nat then String backslash "t"
  else if (n =? 10)%nat then String backslash "n"
  else if (n =? 13)%nat then String backslash "r"
  else if (n <? 32)%nat || (n =? 127)%nat
  then String backslash
         (String "x" (String (hex_digit (n / 16))
                             (String (hex_digit (n `mod` 16)) "")))
  else String a "".

Fixpoint repr_chars (quote : ascii) (s : string) : string :=
  match s with
  | EmptyString => EmptyString
  | String a s' => repr_char quote a +:+ repr_chars quote s'
  end.

Fixpoint has_char (a : ascii) (s : string) : bool :=
  match s with
  | EmptyString => false
  | String b s' => Ascii.eqb a b || has_char a s'
  end.

Definition repr_str (s : string) : string :=
  let quote := if has_char single_quote s && negb (has_char double_quote s)
               then double_quote else single_quote in
  String quote (repr_chars quote s +:+ String quote "").

Inductive node :=
| Dir
| File (content : string).

Inductive level := INFO | WARNING | ERROR.

Inductive job_status := pending | running | completed | failed.

#[global] Instance job_status_eq_dec : EqDecision job_status.
Proof. solve_decision. Defined.

(** One value of the [training_status] dictionary; times are clock
    readings, [duration_seconds] is the key added by the report. *)
Record job_info := JobInfo {
  status : job_status;
  start_time : option Z;
  end_time : option Z;
  error : option string;
  duration_seconds : option Z
}.

(** What the outside does around one [subprocess.Popen]: the call itself
    raises, or the child runs: it prints [lines], then the next read raises
    [read_error] (if any) or reports the end of the stream, and the child
    leaves [returncode]. *)
Inductive behaviour :=
| PopenRaises (e : exn)
| Runs (lines : list string) (read_error : option exn) (returncode : Z).

(** [fs] is the file system apart from the file of the logging handler:
    [train_all_models.py] gives the root logger a
    [logging.FileHandler('training.log')], which opens [training.log] of the
    working directory when the module is loaded and appends every record to
    it.  The records are kept in [logged], in their order, and that file is
    not looked up in [fs]: what a statement says of [fs] is said of the
    paths whose name is not [training.log]. *)
Record world := World {
  fs : gmap path node;
  ticks : nat;                          (* readings of [datetime.now()] *)
  draws : nat;                          (* draws from the generator *)
  spawned : list (list string);         (* commands given to [Popen] *)
  logged : list (level * string);
    (* records given to the handlers of the logger: the standard output
       and, in the orchestrator, the end of [training.log] *)
  training_status : gmap string job_info;
  status_writes : list (string * job_status)
    (* every assignment to a ['status'] key, oldest first *)
}.

(** The summary [split_dataset] returns and dumps. *)
Record split_summary := SplitSummary {
  split_ratios : PyFloat.float * PyFloat.float * PyFloat.float;
  splits : list (string * list (string * Z))
}.

(** The report [generate_training_report] returns and dumps. *)
Record report := Report {
  report_timestamp : string;
  report_project_root : string;
  models_trained : Z;
  models : gmap string job_info;
  total_models : Z;
  summary_completed : Z;
  summary_failed : Z;
  summary_pending : Z
}.

(** Everything the program asks of its environment. *)
Record oracle := Oracle {
  rand : nat -> nat;               (* raw output of the k-th draw *)
  now : nat -> Z;                  (* k-th reading of the clock *)
  isoformat : Z -> string;
  strftime : Z -> string;          (* ['%Y%m%d_%H%M%S'] *)
  repr_float : PyFloat.float -> string;
  sys_executable : string;
  process : nat -> behaviour;      (* around the k-th [Popen] *)
  pip : option exn;                (* [subprocess.run] of pip: what it raises *)
  json_dumps_summary : split_summary -> string;
  json_dumps_report : report -> string
}.

Definition M (A : Type) : Type := world -> result A * world.

Definition ret {A} (a : A) : M A := fun w => (Ok a, w).

Definition raise {A} (e : exn) : M A := fun w => (Err e, w).

Definition bind {A B} (m : M A) (k : A -> M B) : M B :=
  fun w => match m w with
           | (Ok a, w') => k a w'
           | (Err e, w') => (Err e, w')
           end.

(** [try: m  except Exception as e: h e] *)
Definition catch {A} (m : M A) (h : exn -> M A) : M A :=
  fun w => match m w with
           | (Ok a, w') => (Ok a, w')
           | (Err e, w') => h e w'
           end.

(** [try: m  finally: f] *)
Definition finally {A} (m : M A) (f : M unit) : M A :=
  fun w => let '(r, w') := m w in
           match f w' with
           | (Ok _, w'') => (r, w'')
           | (Err e, w'') => (Err e, w'')
           end.

Definition lift {A} (r : result A) : M A := fun w => (r, w).

Notation "x <- m ;; k" := (bind m (fun x => k))
  (at level 100, m at next level, right associativity).
Notation "m ;; k" := (bind m (fun _ => k))
  (at level 100, right associativity).

(** [for x in l: body x] *)
Fixpoint for_each {A} (l : list A) (body : A -> M unit) : M unit :=
  match l with
  | [] => ret tt
  | x :: l' => body x ;; for_each l' body
  end.

Definition set_fs (f : gmap path node) (w : world) : world :=
  World f (ticks w) (draws w) (spawned w) (logged w) (training_status w)
        (status_writes w).

Definition set_training_status (t : gmap string job_info) (w : world) : world :=
  World (fs w) (ticks w) (draws w) (spawned w) (logged w) t (status_writes w).

(** [logger.info], [logger.warning], [logger.error]: one more record
    for the handlers. *)
Definition log (l : level) (msg : string) : M unit :=
  fun w => (Ok tt, World (fs w) (ticks w) (draws w) (spawned w)
                         (logged w ++ [(l, msg)]) (training_status w)
                         (status_writes w)).

(** [datetime.now()] *)
Definition datetime_now (E : oracle) : M Z :=
  fun w => (Ok (now E (ticks w)),
            World (fs w) (S (ticks w)) (draws w) (spawned w) (logged w)
                  (training_status w) (status_writes w)).

(** [random._randbelow(n)] for [n > 0]: the oracle stands for the
    generator, [getrandbits] and the rejection of the values that are not
    below [n] included, so that [rand E k `mod` n] is what the [k]-th call
    returns. *)
Definition randbelow (E : oracle) (n : nat) : M nat :=
  fun w => (Ok (rand E (draws w) `mod` n)%nat,
            World (fs w) (ticks w) (S (draws w)) (spawned w) (logged w)
                  (training_status w) (status_writes w)).

(** ** The [random] module *)

(** [random.shuffle(x)]: for [i] from [len(x) - 1] down to [1], swap
    [x[i]] with [x[randbelow(i + 1)]]. *)
Fixpoint shuffle_loop {A} (E : oracle) (i : nat) (x : list A) : M (list A) :=
  match i with
  | O => ret x
  | S i' => j <- randbelow E (S i) ;; shuffle_loop E i' (swap x i j)
  end.

Definition shuffle {A} (E : oracle) (x : list A) : M (list A) :=
  shuffle_loop E (length x - 1) x.

(** [random.sample(population, k)] has two ways.  A population of at most
    [setsize] items is copied to a pool: the chosen element leaves the pool,
    the last one of the pool takes its place. *)
Fixpoint sample_loop {A} (E : oracle) (k n : nat) (pool : list A)
  : M (list A) :=
  match k with
  | O => ret []
  | S k' =>
      j <- randbelow E n ;;
      match pool !! j, pool !! (n - 1)%nat with
      | Some a, Some z =>
          rest <- sample_loop E k' (n - 1)%nat (<[j:=z]> pool) ;;
          ret (a :: rest)
      | _, _ => raise (Raise OtherException "list index out of range")
      end
  end.

(** A larger population is not copied: the indices chosen are kept in a
    set, and an index that is in the set is drawn again,
    [while j in selected: j = randbelow(n)].  Nothing in the code bounds the
    turns of that loop: [fuel] is the number of turns allowed, and the
    result is [None] when they are spent with [j] still in the set. *)
Fixpoint redraw (E : oracle) (fuel n : nat) (selected : gset nat) (j : nat)
  {struct fuel} : M (option nat) :=
  if bool_decide (j ∈ selected) then
    match fuel with
    | O => ret None
    | S fuel' => j' <- randbelow E n ;; redraw E fuel' n selected j'
    end
  else ret (Some j).

Fixpoint sample_set {A} (E : oracle) (fuel k n : nat) (population : list A)
    (selected : gset nat) : M (option (list A)) :=
  match k with
  | O => ret (Some [])
  | S k' =>
      j <- randbelow E n ;;
      j <- redraw E fuel n selected j ;;
      match j with
      | None => ret None
      | Some j =>
          match population !! j with
          | Some a =>
              rest <- sample_set E fuel k' n population ({[j]} ∪ selected) ;;
              ret (cons a <$> rest)
          | None => raise (Raise OtherException "list index out of range")
          end
      end
  end.

(** [setsize = 21], and [setsize += 4 ** _ceil(_log(k * 3, 4))] when
    [k > 5]; the program samples two items, where nothing is added. *)
Definition setsize (k : nat) : nat :=
  if (5 <? k)%nat
  then (21 + 4 ^ ((Nat.log2_up (3 * k) + 1) / 2))%nat
  else 21%nat.

Definition sample {A} (E : oracle) (fuel : nat) (population : list A) (k : nat)
  : M (option (list A)) :=
  let n := length population in
  if (n <? k)%nat
  then raise (Raise ValueError "Sample larger than population or is negative")
  else if (n <=? setsize k)%nat
  then result <- sample_loop E k n population ;; ret (Some result)
  else sample_set E fuel k n population ∅.

(** [random.choice(seq)] *)
Definition choice {A} (E : oracle) (seq : list A) : M A :=
  match seq with
  | [] => raise (Raise OtherException "Cannot choose from an empty sequence")
  | _ =>
      j <- randbelow E (length seq) ;;
      match seq !! j with
      | Some a => ret a
      | None => raise (Raise OtherException "list index out of range")
      end
  end.

(** ** The file system *)

(** The error of a system call on the path [p], as [str(e)] shows it. *)
Definition ENOENT : string := "[Errno 2] No such file or directory".
Definition EEXIST : string := "[Errno 17] File exists".
Definition ENOTDIR : string := "[Errno 20] Not a directory".
Definition EISDIR : string := "[Errno 21] Is a directory".

Definition os_error (errno : string) (p : path) : exn :=
  Raise OSError (errno +:+ ": " +:+ repr_str (str_path p)).

(** There is a file at a shorter prefix of [p]. *)
Definition file_above (f : gmap path node) (p : path) : bool :=
  existsb (fun k => match f !! take k p with
                    | Some (File _) => true
                    | _ => false
                    end)
          (seq 1 (length p - 1)).

(** The error for a path whose parent is not a directory. *)
Definition no_parent (f : gmap path node) (p : path) : exn :=
  if file_above f p then os_error ENOTDIR p else os_error ENOENT p.

(** The root is a directory that is always there. *)
Definition lookup_node (f : gmap path node) (p : path) : option node :=
  match p with
  | [] => Some Dir
  | _ => f !! p
  end.

(** [p.exists()] *)
Definition path_exists (p : path) : M bool :=
  fun w => (Ok (bool_decide (is_Some (lookup_node (fs w) p))), w).

(** [p.is_dir()] *)
Definition node_is_dir (o : option node) : bool :=
  match o with
  | Some Dir => true
  | _ => false
  end.

Definition is_dir (p : path) : M bool :=
  fun w => (Ok (node_is_dir (lookup_node (fs w) p)), w).

(** [p.parent] and [p.name] *)
Definition parent (p : path) : path := take (length p - 1) p.
Definition name (p : path) : string := default "" (last p).

(** [p.mkdir(parents=True, exist_ok=True)]: every missing prefix of [p]
    becomes a directory, the shortest first.  A file in the way makes the
    call fail, with the error of the system call on [p]: [FileExistsError]
    when the file is at [p] itself, [NotADirectoryError] when it is at a
    shorter prefix; both are of the class [OSError] and name [p]. *)
Definition mkdir_error (p : path) (in_the_way : path) : exn :=
  if bool_decide (in_the_way = p) then os_error EEXIST p else os_error ENOTDIR p.

Fixpoint mkdir_from (above : path) (below : list string) : M unit :=
  match below with
  | [] => ret tt
  | c :: below' =>
      let p := above ++ [c] in
      fun w =>
        match fs w !! p with
        | Some Dir => mkdir_from p below' w
        | Some (File _) => (Err (mkdir_error (above ++ below) p), w)
        | None => mkdir_from p below' (set_fs (<[p:=Dir]> (fs w)) w)
        end
  end.

Definition mkdir_parents (p : path) : M unit := mkdir_from [] p.

(** The entries of directory [d], in the order the system lists them. *)
Definition is_child (d p : path) : bool :=
  bool_decide (length p = S (length d) /\ take (length d) p = d).

Definition iterdir (f : gmap path node) (d : path) : list path :=
  filter (fun p => is_child d p = true) (map fst (map_to_list f)).

Definition ends_with (s suffix : string) : bool :=
  let n := String.length s in
  let m := String.length suffix in
  (m <=? n)%nat && String.eqb (String.substring (n - m) m s) suffix.

(** [d.glob("*")] *)
Definition glob_all (d : path) : M (list path) :=
  fun w => (Ok (iterdir (fs w) d), w).

(** [d.glob("*" + ext)] for a suffix such as [".jpg"] *)
Definition glob_ext (d : path) (ext : string) : M (list path) :=
  fun w => (Ok (filter (fun p => ends_with (name p) ext = true)
                       (iterdir (fs w) d)), w).

(** [len(list(d.glob("**/*" + ext)))]: the entries at any depth below
    [d] whose name has the suffix. *)
Definition is_below (d p : path) : bool :=
  bool_decide (length d < length p /\ take (length d) p = d)%nat.

Definition count_rglob_ext (d : path) (ext : string) : M Z :=
  fun w => (Ok (Z.of_nat (length
              (filter (fun p => is_below d p && ends_with (name p) ext = true)
                      (map fst (map_to_list (fs w)))))), w).

(** [open(p, 'w')] followed by one [write] of the whole content: [p] must
    not be a directory and its parent must be one. *)
Definition write_file (p : path) (content : string) : M unit :=
  fun w =>
    if node_is_dir (lookup_node (fs w) p)
    then (Err (os_error EISDIR p), w)
    else if node_is_dir (lookup_node (fs w) (parent p))
    then (Ok tt, set_fs (<[p:=File content]> (fs w)) w)
    else (Err (no_parent (fs w) p), w).

(** [log_file.write(s)] on a file opened for writing: the program writes
    to a file that [write_file] has just opened, and nothing in it removes
    a file, so that the file is there; the other case is given the error of
    a file that is not. *)
Definition append_file (p : path) (s : string) : M unit :=
  fun w =>
    match fs w !! p with
    | Some (File c) => (Ok tt, set_fs (<[p:=File (c +:+ s)]> (fs w)) w)
    | _ => (Err (os_error ENOENT p), w)
    end.

(** [repr(p)] of a [pathlib.Path] *)
Definition repr_path (p : path) : string :=
  "PosixPath(" +:+ repr_str (str_path p) +:+ ")".

(** [shutil.copy2(src, dst)]: into [dst] when it is a directory; the
    source must be a file, and a different one from the target
    ([SameFileError], an [OSError], shows the source, a [Path], and the
    target, a [Path] or the string [os.path.join] made). *)
Definition copy2 (src dst : path) : M unit :=
  fun w =>
    let into := node_is_dir (lookup_node (fs w) dst) in
    let dst' := if into then dst ++ [name src] else dst in
    match lookup_node (fs w) src with
    | Some (File c) =>
        if bool_decide (src = dst')
        then (Err (Raise OSError
                     (repr_path src +:+ " and "
                      +:+ (if into then repr_str (str_path dst')
                           else repr_path dst')
                      +:+ " are the same file")), w)
        else write_file dst' c w
    | Some Dir => (Err (os_error EISDIR src), w)
    | None => (Err (no_parent (fs w) src), w)
    end.

(** ** [PharmaceuticalDatasetPreparer.split_dataset] *)

Definition data_dir (project_root : path) : path := project_root ++ ["data"].
Definition processed_dir (project_root : path) : path :=
  data_dir project_root ++ ["processed"].
Definition images_dir (project_root : path) : path :=
  data_dir project_root ++ ["pharmaceutical_images"].

(** [if abs(train_ratio + val_ratio + test_ratio - 1.0) > 1e-6: raise] *)
Definition ratios_off (train_ratio val_ratio test_ratio : PyFloat.float) : bool :=
  PyFloat.gt
    (PyFloat.abs
       (PyFloat.sub (PyFloat.add (PyFloat.add train_ratio val_ratio) test_ratio)
                    PyFloat.lit_1_0))
    PyFloat.lit_1e_6.

Definition validate_ratios (train_ratio val_ratio test_ratio : PyFloat.float)
  : M unit :=
  if ratios_off train_ratio val_ratio test_ratio
  then raise (Raise ValueError "Ratios must sum to 1.0")
  else ret tt.

(** [int(n_total * ratio)] *)
Definition split_index (n_total : Z) (ratio : PyFloat.float) : result Z :=
  match PyFloat.int_mul n_total ratio with
  | Ok x => PyFloat.to_int x
  | Err e => Err e
  end.

(** The three slices of the files of one category. *)
Definition slices {A} (image_files : list A) (n_train n_val : Z)
  : list A * list A * list A :=
  (py_slice image_files None (Some n_train),
   py_slice image_files (Some n_train) (Some (n_train + n_val)),
   py_slice image_files (Some (n_train + n_val)) None).

(** Shuffle, compute the split indices, slice. *)
Definition split_files {A} (E : oracle) (image_files : list A)
    (train_ratio val_ratio : PyFloat.float) : M (list A * list A * list A) :=
  image_files <- shuffle E image_files ;;
  let n_total := Z.of_nat (length image_files) in
  n_train <- lift (split_index n_total train_ratio) ;;
  n_val <- lift (split_index n_total val_ratio) ;;
  ret (slices image_files n_train n_val).

Definition copy_split (project_root : path) (dataset_type category_name : string)
    (split : string * list path) : M unit :=
  let '(split_name, file_list) := split in
  let target_dir :=
    processed_dir project_root ++ [split_name; dataset_type; category_name] in
  mkdir_parents target_dir ;;
  for_each file_list (fun img_file => copy2 img_file (target_dir ++ [name img_file])).

(** The body of the loop over the entries of one class directory. *)
Definition split_category (E : oracle) (project_root : path)
    (train_ratio val_ratio : PyFloat.float) (dataset_type : string)
    (category_dir : path) : M unit :=
  d <- is_dir category_dir ;;
  if negb d then ret tt else
  let category_name := name category_dir in
  jpg <- glob_ext category_dir ".jpg" ;;
  jpeg <- glob_ext category_dir ".jpeg" ;;
  png <- glob_ext category_dir ".png" ;;
  bmp <- glob_ext category_dir ".bmp" ;;
  let image_files := jpg ++ jpeg ++ png ++ bmp in
  match image_files with
  | [] => ret tt
  | _ =>
      files <- split_files E image_files train_ratio val_ratio ;;
      let '(train_files, val_files, test_files) := files in
      for_each [("train", train_files); ("val", val_files); ("test", test_files)]
               (copy_split project_root dataset_type category_name) ;;
      log INFO ("Split " +:+ category_name +:+ " (" +:+ dataset_type +:+ "): "
                +:+ pretty (length train_files) +:+ " train, "
                +:+ pretty (length val_files) +:+ " val, "
                +:+ pretty (length test_files) +:+ " test")
  end.

Definition split_type (E : oracle) (project_root : path)
    (train_ratio val_ratio : PyFloat.float) (dataset_type : string) : M unit :=
  let type_dir := images_dir project_root ++ [dataset_type] in
  e <- path_exists type_dir ;;
  if negb e then ret tt else
  category_dirs <- glob_all type_dir ;;
  for_each category_dirs
           (split_category E project_root train_ratio val_ratio dataset_type).

Definition dataset_types : list string := ["authentic"; "counterfeit"].

Definition count_split_type (project_root : path) (split dataset_type : string)
  : M (list (string * Z)) :=
  let split_dir := processed_dir project_root ++ [split; dataset_type] in
  e <- path_exists split_dir ;;
  if negb e then ret [] else
  jpg <- count_rglob_ext split_dir ".jpg" ;;
  png <- count_rglob_ext split_dir ".png" ;;
  ret [(dataset_type, jpg + png)].

Fixpoint count_split (project_root : path) (split : string)
    (types : list string) : M (list (string * Z)) :=
  match types with
  | [] => ret []
  | dataset_type :: types' =>
      c <- count_split_type project_root split dataset_type ;;
      cs <- count_split project_root split types' ;;
      ret (c ++ cs)
  end.

Fixpoint count_splits (project_root : path) (splits : list string)
  : M (list (string * list (string * Z))) :=
  match splits with
  | [] => ret []
  | split :: splits' =>
      c <- count_split project_root split dataset_types ;;
      cs <- count_splits project_root splits' ;;
      ret ((split, c) :: cs)
  end.

(** Everything after the validation. *)
Definition split_dataset_body (E : oracle) (project_root : path)
    (train_ratio val_ratio test_ratio : PyFloat.float) : M split_summary :=
  log INFO ("Splitting dataset: train=" +:+ repr_float E train_ratio
            +:+ ", val=" +:+ repr_float E val_ratio
            +:+ ", test=" +:+ repr_float E test_ratio) ;;
  let splits := ["train"; "val"; "test"] in
  for_each splits (fun split =>
    for_each dataset_types (fun dataset_type =>
      mkdir_parents (processed_dir project_root ++ [split; dataset_type]))) ;;
  for_each dataset_types (split_type E project_root train_ratio val_ratio) ;;
  counts <- count_splits project_root splits ;;
  let split_summary := SplitSummary (train_ratio, val_ratio, test_ratio) counts in
  write_file (processed_dir project_root ++ ["dataset_splits.json"])
             (json_dumps_summary E split_summary) ;;
  log INFO "Dataset splitting completed" ;;
  ret split_summary.

Definition split_dataset (E : oracle) (project_root : path)
    (train_ratio val_ratio test_ratio : PyFloat.float) : M split_summary :=
  validate_ratios train_ratio val_ratio test_ratio ;;
  split_dataset_body E project_root train_ratio val_ratio test_ratio.

(** ** [AuthenticityVerifierTrainer.create_siamese_pairs] *)

(** [for i in range(n): s = body s] on the loop's variables [s]. *)
Fixpoint for_range {S} (n : nat) (body : S -> M S) (s : S) : M S :=
  match n with
  | O => ret s
  | S n' => s' <- body s ;; for_range n' body s'
  end.

(** [range(n)] has [max(n, 0)] elements. *)
Definition range_len (n : Z) : nat := Z.to_nat n.

Definition pair_lists : Type := list (list string) * list Z.

(** [pairs.append([str(img1), str(img2)]); labels.append(label)] *)
Definition append_pair (img1 img2 : path) (label : Z) (s : pair_lists)
  : pair_lists :=
  (s.1 ++ [[str_path img1; str_path img2]], s.2 ++ [label]).

(** [for i in range(n): s = body s] with a body that may not end: the
    loop stops at the first [None]. *)
Fixpoint for_range_partial {S} (n : nat) (body : S -> M (option S)) (s : S)
  : M (option S) :=
  match n with
  | O => ret (Some s)
  | S n' =>
      r <- body s ;;
      match r with
      | Some s' => for_range_partial n' body s'
      | None => ret None
      end
  end.

(** A pair of two distinct places of one pool. *)
Definition same_pool_pair (E : oracle) (fuel : nat) (images : list path)
    (label : Z) (s : pair_lists) : M (option pair_lists) :=
  if (2 <=? length images)%nat then
    imgs <- sample E fuel images 2 ;;
    match imgs with
    | None => ret None
    | Some [img1; img2] => ret (Some (append_pair img1 img2 label s))
    | Some (_ :: _ :: _ :: _) =>
        raise (Raise ValueError "too many values to unpack (expected 2)")
    | Some imgs =>
        raise (Raise ValueError
                 ("not enough values to unpack (expected 2, got "
                  +:+ pretty (length imgs) +:+ ")"))
    end
  else ret (Some s).

(** A pair of one authentic and one counterfeit image. *)
Definition cross_pool_pair (E : oracle)
    (authentic_images counterfeit_images : list path) (s : pair_lists)
  : M pair_lists :=
  if (0 <? length authentic_images)%nat && (0 <? length counterfeit_images)%nat
  then
    img1 <- choice E authentic_images ;;
    img2 <- choice E counterfeit_images ;;
    ret (append_pair img1 img2 0 s)
  else ret s.

(** The result is [None] when a sampling has spent its [fuel]. *)
Definition create_siamese_pairs (E : oracle) (fuel : nat)
    (authentic_images counterfeit_images : list path) (num_pairs : Z)
  : M (option pair_lists) :=
  r <- for_range_partial (range_len (num_pairs / 4))
         (same_pool_pair E fuel authentic_images 1) ([], []) ;;
  match r with
  | None => ret None
  | Some s =>
      s <- for_range (range_len (num_pairs / 2))
             (cross_pool_pair E authentic_images counterfeit_images) s ;;
      r <- for_range_partial (range_len (num_pairs / 4))
             (same_pool_pair E fuel counterfeit_images 0) s ;;
      match r with
      | None => ret None
      | Some s =>
          log INFO ("Created " +:+ pretty (length s.1) +:+ " training pairs") ;;
          ret (Some s)
      end
  end.

(** ** [ModelTrainingOrchestrator] *)

Definition training_dir (project_root : path) : path := project_root ++ ["training"].
Definition scripts_dir (project_root : path) : path :=
  training_dir project_root ++ ["scripts"].
Definition configs_dir (project_root : path) : path :=
  training_dir project_root ++ ["configs"].
Definition models_dir (project_root : path) : path := project_root ++ ["models"].

Definition fresh_job : job_info := JobInfo pending None None None None.

(** The dictionary [__init__] builds. *)
Definition initial_training_status : gmap string job_info :=
  <["drug_classifier" := fresh_job]>
    (<["authenticity_verifier" := fresh_job]>
       (<["pill_detector" := fresh_job]> ∅)).

(** [ModelTrainingOrchestrator(project_root)]: a new dictionary, with no
    assignment to it yet. *)
Definition init : M unit :=
  fun w => (Ok tt, World (fs w) (ticks w) (draws w) (spawned w) (logged w)
                         initial_training_status []).

Definition with_status (s : job_status) (j : job_info) : job_info :=
  JobInfo s (start_time j) (end_time j) (error j) (duration_seconds j).
Definition with_start_time (t : Z) (j : job_info) : job_info :=
  JobInfo (status j) (Some t) (end_time j) (error j) (duration_seconds j).
Definition with_end_time (t : Z) (j : job_info) : job_info :=
  JobInfo (status j) (start_time j) (Some t) (error j) (duration_seconds j).
Definition with_error (e : string) (j : job_info) : job_info :=
  JobInfo (status j) (start_time j) (end_time j) (Some e) (duration_seconds j).
Definition with_duration (d : Z) (j : job_info) : job_info :=
  JobInfo (status j) (start_time j) (end_time j) (error j) (Some d).

(** [self.training_status[model_name][key] = value]: a [KeyError] when the
    model has no entry. *)
Definition set_key (model_name : string) (f : job_info -> job_info) : M unit :=
  fun w =>
    match training_status w !! model_name with
    | Some j => (Ok tt, set_training_status
                          (<[model_name := f j]> (training_status w)) w)
    | None => (Err (Raise KeyError (repr_str model_name)), w)
    end.

(** [self.training_status[model_name]['status'] = s], which is also
    recorded in [status_writes]. *)
Definition set_status (model_name : string) (s : job_status) : M unit :=
  fun w =>
    match training_status w !! model_name with
    | Some j =>
        (Ok tt, World (fs w) (ticks w) (draws w) (spawned w) (logged w)
                      (<[model_name := with_status s j]> (training_status w))
                      (status_writes w ++ [(model_name, s)]))
    | None => (Err (Raise KeyError (repr_str model_name)), w)
    end.

(** *** [check_prerequisites] *)

(** [for p in ps: if not p.exists(): logger.error(...); return False] *)
Fixpoint require_all (what : string) (ps : list path) : M bool :=
  match ps with
  | [] => ret true
  | p :: ps' =>
      e <- path_exists p ;;
      if negb e then log ERROR (what +:+ str_path p) ;; ret false
      else require_all what ps'
  end.

Definition required_dirs (project_root : path) : list path :=
  [scripts_dir project_root; configs_dir project_root; data_dir project_root].

Definition required_scripts : list string :=
  ["train_drug_classifier.py"; "train_authenticity_verifier.py";
   "train_pill_detector.py"].

Definition required_configs : list string :=
  ["drug_classifier_config.json"; "authenticity_config.json";
   "pill_detection_config.json"].

(** [self.scripts_dir / script] and [self.configs_dir / config] for the
    required names. *)
Definition script_paths (project_root : path) : list path :=
  map (fun script => scripts_dir project_root ++ [script]) required_scripts.

Definition config_paths (project_root : path) : list path :=
  map (fun config => configs_dir project_root ++ [config]) required_configs.

Definition data_dirs (project_root : path) : list path :=
  [data_dir project_root ++ ["pharmaceutical_images"; "authentic"];
   data_dir project_root ++ ["pharmaceutical_images"; "counterfeit"]].

Definition warn_missing_data (d : path) : M unit :=
  e <- path_exists d ;;
  if negb e then
    log WARNING ("Data directory missing: " +:+ str_path d) ;;
    log WARNING "Training may fail without proper data setup"
  else ret tt.

Definition check_prerequisites (project_root : path) : M bool :=
  log INFO "Checking training prerequisites..." ;;
  ok <- require_all "Required directory missing: " (required_dirs project_root) ;;
  if negb ok then ret false else
  ok <- require_all "Required training script missing: "
          (script_paths project_root) ;;
  if negb ok then ret false else
  ok <- require_all "Required config file missing: "
          (config_paths project_root) ;;
  if negb ok then ret false else
  for_each (data_dirs project_root) warn_missing_data ;;
  log INFO "✅ Prerequisites check completed" ;;
  ret true.

(** *** [install_requirements] *)

Definition install_requirements (E : oracle) (project_root : path) : M bool :=
  e <- path_exists (training_dir project_root ++ ["requirements.txt"]) ;;
  if negb e then log ERROR "requirements.txt not found" ;; ret false else
  log INFO "Installing training requirements..." ;;
  match pip E with
  | None => log INFO "✅ Requirements installed successfully" ;; ret true
  | Some e =>
      match exn_cls e with
      | CalledProcessError =>
          log ERROR ("Failed to install requirements: " +:+ str_exn e) ;;
          ret false
      | _ => raise e
      end
  end.

(** *** [train_model] *)

(** [str.strip()] removes the characters [str.isspace()] accepts from both
    ends.  A string holds the UTF-8 encoding of its text.  The white space
    of one byte is U+0009 to U+000D and U+001C to U+0020; *)
Definition is_space (a : ascii) : bool :=
  let n := nat_of_ascii a in
  ((9 <=? n) && (n <=? 13) || (28 <=? n) && (n <=? 32))%nat.

(** of two bytes, U+0085 ([C2 85]) and U+00A0 ([C2 A0]); *)
Definition is_space2 (a b : ascii) : bool :=
  let m := nat_of_ascii a in
  let n := nat_of_ascii b in
  ((m =? 194) && ((n =? 133) || (n =? 160)))%nat.

(** of three bytes, U+1680 ([E1 9A 80]), U+2000 to U+200A ([E2 80 80] to
    [E2 80 8A]), U+2028, U+2029 and U+202F ([E2 80 A8], [E2 80 A9],
    [E2 80 AF]), U+205F ([E2 81 9F]) and U+3000 ([E3 80 80]). *)
Definition is_space3 (a b c : ascii) : bool :=
  let l := nat_of_ascii a in
  let m := nat_of_ascii b in
  let n := nat_of_ascii c in
  ((l =? 225) && (m =? 154) && (n =? 128)
   || (l =? 226) && (m =? 128)
      && ((128 <=? n) && (n <=? 138) || (n =? 168) || (n =? 169) || (n =? 175))
   || (l =? 226) && (m =? 129) && (n =? 159)
   || (l =? 227) && (m =? 128) && (n =? 128))%nat.

(** The string without the white space it starts with, the tests of two
    and of three bytes being given. *)
Fixpoint strip_start (space2 : ascii -> ascii -> bool)
    (space3 : ascii -> ascii -> ascii -> bool) (s : string) : string :=
  match s with
  | EmptyString => EmptyString
  | String a s1 =>
      if is_space a then strip_start space2 space3 s1 else
      match s1 with
      | EmptyString => s
      | String b s2 =>
          if space2 a b then strip_start space2 space3 s2 else
          match s2 with
          | EmptyString => s
          | String c s3 =>
              if space3 a b c then strip_start space2 space3 s3 else s
          end
      end
  end.

Definition lstrip (s : string) : string := strip_start is_space2 is_space3 s.

(** From the end the bytes of a character come last byte first. *)
Definition rstrip (s : string) : string :=
  String.rev (strip_start (fun b a => is_space2 a b)
                          (fun c b a => is_space3 a b c) (String.rev s)).

Definition strip (s : string) : string := rstrip (lstrip s).

(** [subprocess.Popen(cmd, ...)]: the command is recorded, the oracle says
    what happens. *)
Definition popen (E : oracle) (cmd : list string) : M behaviour :=
  fun w =>
    let b := process E (length (spawned w)) in
    let w' := World (fs w) (ticks w) (draws w) (spawned w ++ [cmd]) (logged w)
                    (training_status w) (status_writes w) in
    match b with
    | PopenRaises e => (Err e, w')
    | _ => (Ok b, w')
    end.

(** [for line in iter(process.stdout.readline, '')]: the empty string ends
    the iteration, so inside the loop [if line:] always holds; after the
    given lines the next read raises when the oracle says so. *)
Fixpoint stream (E : oracle) (model_name : string) (log_file_path : path)
    (lines : list string) (read_error : option exn) : M unit :=
  match lines with
  | [] => match read_error with
          | Some e => raise e
          | None => ret tt
          end
  | line :: lines' =>
      if String.eqb line "" then ret tt else
      let line := strip line in
      log INFO ("[" +:+ model_name +:+ "] " +:+ line) ;;
      t <- datetime_now E ;;
      append_file log_file_path (isoformat E t +:+ " - " +:+ line +:+ "\n") ;;
      stream E model_name log_file_path lines' read_error
  end.

(** The statements of the [try] block. *)
Definition run_training (E : oracle) (project_root : path)
    (model_name script_name config_name : string) : M bool :=
  let script_path := scripts_dir project_root ++ [script_name] in
  let config_path := configs_dir project_root ++ [config_name] in
  let output_dir := models_dir project_root ++ [model_name] in
  mkdir_parents output_dir ;;
  let cmd := [sys_executable E; str_path script_path;
              "--config"; str_path config_path;
              "--data"; str_path (data_dir project_root);
              "--output"; str_path output_dir] in
  log INFO ("Executing: " +:+ String.concat " " cmd) ;;
  b <- popen E cmd ;;
  match b with
  | PopenRaises e => raise e
  | Runs lines read_error returncode =>
      let log_file_path := output_dir ++ [model_name +:+ "_training.log"] in
      write_file log_file_path "" ;;
      stream E model_name log_file_path lines read_error ;;
      if returncode =? 0 then
        set_status model_name completed ;;
        log INFO ("✅ " +:+ model_name +:+ " training completed successfully") ;;
        ret true
      else
        set_status model_name failed ;;
        set_key model_name
          (with_error ("Process exited with code " +:+ pretty returncode)) ;;
        log ERROR ("❌ " +:+ model_name +:+ " training failed with exit code "
                   +:+ pretty returncode) ;;
        ret false
  end.

(** The [except Exception as e] clause. *)
Definition on_exception (model_name : string) (e : exn) : M bool :=
  set_status model_name failed ;;
  set_key model_name (with_error (str_exn e)) ;;
  log ERROR ("❌ " +:+ model_name +:+ " training failed: " +:+ str_exn e) ;;
  ret false.

Definition train_model (E : oracle) (project_root : path)
    (model_name script_name config_name : string) : M bool :=
  log INFO ("Starting training for " +:+ model_name +:+ "...") ;;
  set_status model_name running ;;
  t <- datetime_now E ;;
  set_key model_name (with_start_time t) ;;
  finally
    (catch (run_training E project_root model_name script_name config_name)
           (on_exception model_name))
    (t <- datetime_now E ;; set_key model_name (with_end_time t)).

(** *** [train_all_models] *)

Definition model_configs : gmap string (string * string) :=
  <["drug_classifier" := ("train_drug_classifier.py", "drug_classifier_config.json")]>
    (<["authenticity_verifier" :=
         ("train_authenticity_verifier.py", "authenticity_config.json")]>
       (<["pill_detector" := ("train_pill_detector.py", "pill_detection_config.json")]>
          ∅)).

Definition default_models : list string :=
  ["drug_classifier"; "authenticity_verifier"; "pill_detector"].

(** The loop over [models_to_train], on the two result lists. *)
Fixpoint train_loop (E : oracle) (project_root : path)
    (models_to_train successful_models failed_models : list string)
  : M (list string * list string) :=
  match models_to_train with
  | [] => ret (successful_models, failed_models)
  | model_name :: rest =>
      match model_configs !! model_name with
      | None =>
          log ERROR ("Unknown model: " +:+ model_name) ;;
          train_loop E project_root rest successful_models
                     (failed_models ++ [model_name])
      | Some (script_name, config_name) =>
          success <- train_model E project_root model_name script_name config_name ;;
          if success : bool then
            train_loop E project_root rest (successful_models ++ [model_name])
                       failed_models
          else
            log ERROR ("Training failed for " +:+ model_name
                       +:+ ", continuing with next model...") ;;
            train_loop E project_root rest successful_models
                       (failed_models ++ [model_name])
      end
  end.

Definition train_all_models (E : oracle) (project_root : path)
    (models_to_train : option (list string)) : M (list string * list string) :=
  train_loop E project_root (default default_models models_to_train) [] [].

(** *** [generate_training_report] *)

(** [len([m for m in self.training_status.values() if m['status'] == s])] *)
Definition count_status (s : job_status) (t : gmap string job_info) : Z :=
  Z.of_nat (length (filter (fun kv => status kv.2 = s) (map_to_list t))).

(** [duration_seconds] is set when both times are. *)
Definition add_duration (j : job_info) : job_info :=
  match start_time j, end_time j with
  | Some t0, Some t1 => with_duration (t1 - t0) j
  | _, _ => j
  end.

(** The report holds the status dictionary itself, so the durations added
    after the report was built are in what is dumped and returned. *)
Definition generate_training_report (E : oracle) (project_root : path)
  : M report :=
  t <- datetime_now E ;;
  fun w =>
    let ts := training_status w in
    let ts' := add_duration <$> ts in
    let r := Report (isoformat E t) (str_path project_root)
                    (count_status completed ts) ts'
                    (Z.of_nat (size ts)) (count_status completed ts)
                    (count_status failed ts) (count_status pending ts) in
    (t' <- datetime_now E ;;
     let report_path :=
       training_dir project_root
         ++ ["training_report_" +:+ strftime E t' +:+ ".json"] in
     write_file report_path (json_dumps_report E r) ;;
     log INFO ("Training report saved to: " +:+ str_path report_path) ;;
     ret r) (set_training_status ts' w).

(** *** [main] *)

Record args := Args {
  arg_models : option (list string);   (* [--models] *)
  skip_requirements : bool;            (* [--skip-requirements] *)
  arg_project_root : path              (* [--project-root] *)
}.

Definition choices : list string :=
  ["drug_classifier"; "authenticity_verifier"; "pill_detector"].

(** What [parse_args] rejects: [--models] with no name or with a name that
    is not one of the choices. *)
Definition args_ok (a : args) : bool :=
  match arg_models a with
  | None => true
  | Some [] => false
  | Some ms => forallb (fun m => bool_decide (m ∈ choices)) ms
  end.

(** [if failed_models: sys.exit(1)] *)
Definition exit_status (failed_models : list string) : Z :=
  match failed_models with
  | [] => 0
  | _ => 1
  end.

(** From the first log record to the requirements: [true] when the
    training may start, [false] when [sys.exit(1)] was called. *)
Definition prepare (E : oracle) (a : args) : M bool :=
  log INFO "🚀 Starting Professional Drug Analysis Model Training" ;;
  log INFO ("Project root: " +:+ str_path (arg_project_root a)) ;;
  init ;;
  ok <- check_prerequisites (arg_project_root a) ;;
  if negb ok then
    log ERROR "Prerequisites check failed. Please fix the issues and try again." ;;
    ret false
  else
  if skip_requirements a then ret true else
  ok <- install_requirements E (arg_project_root a) ;;
  if negb ok then log ERROR "Failed to install requirements" ;; ret false
  else ret true.

(** The result is the status [sys.exit] is called with, [0] at the end
    ([2] is the status of a usage error of [argparse]). *)
Definition main_body (E : oracle) (a : args) : M Z :=
  if negb (args_ok a) then ret 2 else
  ready <- prepare E a ;;
  if negb ready then ret 1 else
  lists <- train_all_models E (arg_project_root a) (arg_models a) ;;
  generate_training_report E (arg_project_root a) ;;
  ret (exit_status lists.2).

(** The exit status of the process: an exception nobody catches ends it with
    status 1. *)
Definition main (E : oracle) (a : args) (w : world) : Z * world :=
  match main_body E a w with
  | (Ok code, w') => (code, w')
  | (Err _, w') => (1, w')
  end.

(** ** [PharmaceuticalDatasetPreparer.validate_dataset_structure] *)

(** [for x in l: s = body s x] on the loop's variables [s]. *)
Fixpoint for_fold {S A} (body : S -> A -> M S) (l : list A) (s : S) : M S :=
  match l with
  | [] => ret s
  | x :: l' => s' <- body s x ;; for_fold body l' s'
  end.

(** [stats[dataset_type]]: the total and the count of each category. *)
Record type_stats := TypeStats {
  type_total : Z;
  type_categories : gmap string Z
}.

Record dataset_stats := DatasetStats {
  authentic_stats : type_stats;
  counterfeit_stats : type_stats;
  total_images : Z;
  issues : list string
}.

(** [len(image_files)] after the four [glob] calls. *)
Definition count_images (category_dir : path) : M Z :=
  jpg <- glob_ext category_dir ".jpg" ;;
  jpeg <- glob_ext category_dir ".jpeg" ;;
  png <- glob_ext category_dir ".png" ;;
  bmp <- glob_ext category_dir ".bmp" ;;
  ret (Z.of_nat (length (jpg ++ jpeg ++ png ++ bmp))).

(** The body of the loop over the entries of one class directory, on the
    statistics of the class and the list of issues. *)
Definition validate_category (dataset_type : string)
    (acc : type_stats * list string) (category_dir : path)
  : M (type_stats * list string) :=
  d <- is_dir category_dir ;;
  if negb d then ret acc else
  let category_name := name category_dir in
  count <- count_images category_dir ;;
  let stats := TypeStats (type_total acc.1 + count)
                         (<[category_name := count]> (type_categories acc.1)) in
  if count <? 10
  then ret (stats, acc.2 ++ ["Low image count for " +:+ dataset_type +:+ "/"
                             +:+ category_name +:+ ": " +:+ pretty count])
  else ret (stats, acc.2).

Definition validate_type (project_root : path) (dataset_type : string)
    (issues : list string) : M (type_stats * list string) :=
  let type_dir := images_dir project_root ++ [dataset_type] in
  e <- path_exists type_dir ;;
  if negb e
  then ret (TypeStats 0 ∅, issues ++ ["Missing " +:+ dataset_type +:+ " directory"])
  else
    category_dirs <- glob_all type_dir ;;
    for_fold (validate_category dataset_type) category_dirs (TypeStats 0 ∅, issues).

(** [json_dumps] renders the statistics for the report file. *)
Definition validate_dataset_structure (json_dumps : dataset_stats -> string)
    (project_root : path) : M dataset_stats :=
  log INFO "Validating dataset structure..." ;;
  a <- validate_type project_root "authentic" [] ;;
  c <- validate_type project_root "counterfeit" a.2 ;;
  let stats := DatasetStats a.1 c.1 (type_total a.1 + type_total c.1) c.2 in
  log INFO "Dataset Statistics:" ;;
  log INFO ("  Authentic images: " +:+ pretty (type_total a.1)) ;;
  log INFO ("  Counterfeit images: " +:+ pretty (type_total c.1)) ;;
  log INFO ("  Total images: " +:+ pretty (total_images stats)) ;;
  (match issues stats with
   | [] => ret tt
   | _ =>
       log WARNING ("Found " +:+ pretty (length (issues stats)) +:+ " issues:") ;;
       for_each (issues stats) (fun issue => log WARNING ("  - " +:+ issue))
   end) ;;
  write_file (data_dir project_root ++ ["validation_report.json"])
             (json_dumps stats) ;;
  ret stats.

(** ** [PharmaceuticalTrainingSetup.setup_directories] *)

Definition setup_directories_list (project_root : path) : list path :=
  [training_dir project_root;
   training_dir project_root ++ ["scripts"];
   training_dir project_root ++ ["configs"];
   training_dir project_root ++ ["notebooks"];
   models_dir project_root;
   models_dir project_root ++ ["drug_classifier"];
   models_dir project_root ++ ["authenticity_verifier"];
   models_dir project_root ++ ["pill_detector"];
   models_dir project_root ++ ["text_detector"];
   data_dir project_root;
   data_dir project_root ++ ["raw"];
   data_dir project_root ++ ["processed"];
   data_dir project_root ++ ["annotations"];
   data_dir project_root ++ ["pharmaceutical_images"; "authentic"];
   data_dir project_root ++ ["pharmaceutical_images"; "counterfeit"];
   data_dir project_root ++ ["pharmaceutical_images"; "validation"]].

Definition setup_directories (project_root : path) : M unit :=
  for_each (setup_directories_list project_root)
           (fun directory =>
              mkdir_parents directory ;;
              log INFO ("Created directory: " +:+ str_path directory)).

(** ** Definitions used by the statements *)

(** A float that is not below zero: a zero of either sign, a positive
    number, plus infinity (and, vacuously, NaN). *)
Definition not_negative (x : PyFloat.float) : Prop :=
  match x with
  | S754_finite true _ _ | S754_infinity true => False
  | _ => True
  end.

Definition zero : PyFloat.float := S754_zero false.

(** The world after [n] more draws from the generator. *)
Definition add_draws (n : nat) (w : world) : world :=
  World (fs w) (ticks w) (draws w + n) (spawned w) (logged w)
        (training_status w) (status_writes w).

(** An oracle and a world to run the definitions on. *)
Definition demo_oracle : oracle :=
  Oracle (fun k => (7 * k + 3)%nat) (fun k => 1000 + Z.of_nat k)
         (fun t => "T" +:+ pretty t) (fun t => pretty t) (fun _ => "<float>")
         "/usr/bin/python3"
         (fun k => Runs ["epoch 1"; "epoch 2"] None (Z.of_nat k))
         None (fun _ => "{}") (fun _ => "{}").

Definition empty_world : world := World ∅ 0 0 [] [] ∅ [].

(** A generator whose first draws are 17, 17, 39 and 24: of twenty-two
    indices it gives 17 three times, then 2. *)
Definition stuttering_oracle : oracle :=
  Oracle (fun k => match k with
                   | 0 | 1 => 17
                   | 2 => 39
                   | _ => 24
                   end%nat)
         (now demo_oracle) (isoformat demo_oracle) (strftime demo_oracle)
         (repr_float demo_oracle) (sys_executable demo_oracle)
         (process demo_oracle) (pip demo_oracle)
         (json_dumps_summary demo_oracle) (json_dumps_report demo_oracle).

Definition ten_files : list path :=
  map (fun k => ["data"; "img" +:+ pretty k +:+ ".jpg"]) (seq 0 10).

(** [0.5] and [-0.2] *)
Definition lit_0_5 : PyFloat.float := S754_finite false 4503599627370496 (-53).
Definition lit_minus_0_2 : PyFloat.float := SFopp PyFloat.lit_0_2.

(** [0.05] *)
Definition lit_0_05 : PyFloat.float := S754_finite false 7205759403792794 (-57).

(** The number of pairs each of the three loops of [create_siamese_pairs]
    appends. *)
Definition same_pool_pairs (images : list path) (num_pairs : Z) : nat :=
  if (2 <=? length images)%nat then range_len (num_pairs / 4) else 0%nat.

Definition cross_pairs (authentic_images counterfeit_images : list path)
    (num_pairs : Z) : nat :=
  if (0 <? length authentic_images)%nat && (0 <? length counterfeit_images)%nat
  then range_len (num_pairs / 2) else 0%nat.

Definition three_files : list path := [["a.jpg"]; ["b.jpg"]; ["c.jpg"]].

(** Twenty-two images: one more than [random.sample] copies to a pool. *)
Definition many_files : list path :=
  map (fun k => ["img" +:+ pretty k +:+ ".jpg"]) (seq 0 22).

(** The generator does not give the same one of [n] indices at a draw and
    at each of the [fuel + 1] draws that follow it. *)
Definition varies (E : oracle) (n fuel : nat) : Prop :=
  forall d, exists i, (1 <= i <= S fuel)%nat
                      /\ (rand E (d + i) `mod` n <> rand E d `mod` n)%nat.

(** Sampling two images of the pool comes to an end: the pool is small
    enough to be copied, or a second index comes within [fuel] turns of
    [while j in selected]. *)
Definition sampling_ends {A} (E : oracle) (fuel : nat) (pool : list A) : Prop :=
  (length pool <= 21)%nat \/ varies E (length pool) fuel.

(** The lists [s'] are the lists [s] with [n] more pairs, each of them a
    [P], and [n] more labels [label]. *)
Definition grown (P : list string -> Prop) (label : Z) (n : nat)
    (s s' : pair_lists) : Prop :=
  exists new, s'.1 = s.1 ++ new /\ length new = n
              /\ Forall P new
              /\ s'.2 = s.2 ++ replicate n label.

(** The world with more records in the log. *)
Definition add_log (l : list (level * string)) (w : world) : world :=
  World (fs w) (ticks w) (draws w) (spawned w) (logged w ++ l)
        (training_status w) (status_writes w).

(** The part of the world that belongs to the orchestrator object. *)
Definition orch (w : world) : gmap string job_info * list (string * job_status) :=
  (training_status w, status_writes w).

Definition is_terminal (s : job_status) : bool :=
  match s with
  | completed | failed => true
  | pending | running => false
  end.

(** Every model of the registry has an entry in the status dictionary. *)
Definition registry_ok (w : world) : Prop :=
  forall model_name, is_Some (model_configs !! model_name) ->
                     is_Some (training_status w !! model_name).

(** [pending], then [running], then [completed] or [failed]. *)
Definition rank (s : job_status) : nat :=
  match s with
  | pending => 0
  | running => 1
  | completed | failed => 2
  end.

(** No status of the list is followed by one of a lower rank. *)
Fixpoint one_directional (l : list job_status) : bool :=
  match l with
  | [] => true
  | s :: l' => forallb (fun s' => rank s <=? rank s')%nat l' && one_directional l'
  end.

(** The statuses assigned to one job, oldest first. *)
Definition job_writes (model_name : string) (writes : list (string * job_status))
  : list job_status :=
  map snd (filter (fun x => x.1 = model_name) writes).

(** No prefix of [above ++ below] longer than [above] is a file, so that
    [mkdir_from above below] can make the directories. *)
Fixpoint creatable (f : gmap path node) (above : path) (below : list string) : bool :=
  match below with
  | [] => true
  | c :: below' =>
      match f !! (above ++ [c]) with
      | Some (File _) => false
      | _ => creatable f (above ++ [c]) below'
      end
  end.

(** The lines the loop over [iter(readline, '')] sees: those before the
    first empty one. *)
Fixpoint lines_read (lines : list string) : list string :=
  match lines with
  | [] => []
  | line :: lines' =>
      if String.eqb line "" then [] else line :: lines_read lines'
  end.

(** The exception that ends the loop: the read error, unless an empty line
    ended the loop before. *)
Definition stream_error (lines : list string) (read_error : option exn)
  : option exn :=
  if forallb (fun line => negb (String.eqb line "")) lines
  then read_error else None.

(** The entries written for [lines], the first one at clock reading [k]. *)
Fixpoint log_entries (E : oracle) (k : nat) (lines : list string) : string :=
  match lines with
  | [] => ""
  | line :: lines' =>
      (isoformat E (now E k) +:+ " - " +:+ strip line +:+ "\n")
      +:+ log_entries E (S k) lines'
  end.

Definition output_dir (project_root : path) (model_name : string) : path :=
  models_dir project_root ++ [model_name].

Definition log_file_path (project_root : path) (model_name : string) : path :=
  output_dir project_root model_name ++ [model_name +:+ "_training.log"].

(** The items [check_prerequisites] requires, each with the text of its
    diagnostic, in the order of the checks. *)
Definition required_items (project_root : path) : list (string * path) :=
  map (pair "Required directory missing: ") (required_dirs project_root)
  ++ map (pair "Required training script missing: ") (script_paths project_root)
  ++ map (pair "Required config file missing: ") (config_paths project_root).

Definition missing (f : gmap path node) (p : path) : bool :=
  negb (bool_decide (is_Some (lookup_node f p))).

Definition first_missing (f : gmap path node) (items : list (string * path))
  : option (string * path) :=
  List.find (fun item => missing f item.2) items.

Definition data_warnings (f : gmap path node) (project_root : path)
  : list (level * string) :=
  flat_map (fun d => if missing f d
                     then [(WARNING, "Data directory missing: " +:+ str_path d);
                           (WARNING, "Training may fail without proper data setup")]
                     else [])
           (data_dirs project_root).

(** A project directory with the scripts and the configurations, with and
    without the data directory. *)
Definition project : path := ["srv"; "shield-drug"].

Definition tools_fs : gmap path node :=
  list_to_map
    ([(["srv"], Dir); (project, Dir);
      (training_dir project, Dir);
      (scripts_dir project, Dir); (configs_dir project, Dir)]
     ++ map (fun script => (script, File "")) (script_paths project)
     ++ map (fun config => (config, File "{}")) (config_paths project)).

Definition ready_fs : gmap path node := <[data_dir project := Dir]> tools_fs.

Definition ready_world : world :=
  World ready_fs 0 0 [] [] initial_training_status [].


(** The same, with a log file left by an earlier run. *)
Definition rerun_world : world :=
  World (<[log_file_path project "drug_classifier" := File "old entry\n"]>
           (<[output_dir project "drug_classifier" := Dir]>
              (<[models_dir project := Dir]> ready_fs)))
        0 0 [] [] initial_training_status [].

(** The world at the entry of the [try] block of [train_model], for a model
    whose entry was [j]. *)
Definition before_try (E : oracle) (model_name : string) (j : job_info)
    (w : world) : world :=
  World (fs w) (S (ticks w)) (draws w) (spawned w)
        (logged w ++ [(INFO, "Starting training for " +:+ model_name +:+ "...")])
        (<[model_name := with_start_time (now E (ticks w)) (with_status running j)]>
           (training_status w))
        (status_writes w ++ [(model_name, running)]).

(** What [train_model] returns for a result of its [try] block. *)
Definition verdict (r : result bool) : bool :=
  match r with
  | Ok b => b
  | Err _ => false
  end.

(** What happened to one requested name: [None] when the registry does not
    know it, [Some b] when [train_model] returned [b]. *)
Definition successes (outcomes : list (string * option bool)) : list string :=
  map fst (filter (fun x => x.2 = Some true) outcomes).

Definition failures (outcomes : list (string * option bool)) : list string :=
  map fst (filter (fun x => x.2 <> Some true) outcomes).

Definition writes_of (x : string * option bool) : list (string * job_status) :=
  match x.2 with
  | None => []
  | Some b => [(x.1, running); (x.1, if b then completed else failed)]
  end.



(** The entry of a job that ran to its end. *)
Definition finished (w : world) (model_name : string) : Prop :=
  exists j, training_status w !! model_name = Some j
            /\ is_terminal (status j) = true /\ is_Some (end_time j).

(** ** Relations between the world before and after a computation *)

(** Whatever [m] returns or raises, the worlds before and after are
    related by [R]. *)
Definition respects {A} (R : world -> world -> Prop) (m : M A) : Prop :=
  forall w, R w (m w).2.

(** Every entry of the file system at a path in [P] is still there,
    unchanged. *)
Definition keeps (P : path -> Prop) (w w' : world) : Prop :=
  forall q n, P q -> fs w !! q = Some n -> fs w' !! q = Some n.

(** The path [q] is not [d] nor below [d]. *)
Definition outside (d q : path) : Prop := ~ d `prefix_of` q.

Definition same_fs (w w' : world) : Prop := fs w' = fs w.

Definition same_spawned (w w' : world) : Prop := spawned w' = spawned w.

(** The clock was not read less often. *)
Definition later (w w' : world) : Prop := (ticks w <= ticks w')%nat.

(** A clock that does not go back. *)
Definition clock_monotone (E : oracle) : Prop :=
  forall a b, (a <= b)%nat -> now E a <= now E b.

(** ** The statistics of the validation, by lists *)

(** The entries of a class directory that are directories. *)
Definition category_dirs (f : gmap path node) (type_dir : path) : list path :=
  filter (fun d => node_is_dir (lookup_node f d) = true) (iterdir f type_dir).

Definition glob_count (f : gmap path node) (d : path) (ext : string) : nat :=
  length (filter (fun p => ends_with (name p) ext = true) (iterdir f d)).

Definition image_count (f : gmap path node) (d : path) : Z :=
  Z.of_nat (glob_count f d ".jpg" + glob_count f d ".jpeg"
            + glob_count f d ".png" + glob_count f d ".bmp").

Definition category_counts (f : gmap path node) (type_dir : path)
  : list (string * Z) :=
  map (fun d => (name d, image_count f d)) (category_dirs f type_dir).

Definition sum_counts (counts : list (string * Z)) : Z :=
  foldr (fun c total => c.2 + total) 0 counts.

Definition low_count_issue (dataset_type : string) (c : string * Z) : string :=
  "Low image count for " +:+ dataset_type +:+ "/" +:+ c.1 +:+ ": " +:+ pretty c.2.

Definition type_issues (f : gmap path node) (project_root : path)
    (dataset_type : string) : list string :=
  if missing f (images_dir project_root ++ [dataset_type])
  then ["Missing " +:+ dataset_type +:+ " directory"]
  else map (low_count_issue dataset_type)
           (filter (fun c => c.2 < 10)
                   (category_counts f (images_dir project_root ++ [dataset_type]))).

Definition type_counts (f : gmap path node) (project_root : path)
    (dataset_type : string) : list (string * Z) :=
  if missing f (images_dir project_root ++ [dataset_type])
  then []
  else category_counts f (images_dir project_root ++ [dataset_type]).

(** ** The pairs of the sampler *)

(** Two images at different places of one pool. *)
Definition distinct_pair (pool : list path) (p : list string) : Prop :=
  exists i j a b, i <> j /\ pool !! i = Some a /\ pool !! j = Some b
                  /\ p = [str_path a; str_path b].

(** An image of the first pool and an image of the second. *)
Definition cross_pair (pool1 pool2 : list path) (p : list string) : Prop :=
  exists a b, a ∈ pool1 /\ b ∈ pool2 /\ p = [str_path a; str_path b].

(** [stats[dataset_type]["categories"]] after the assignments for the
    given counts, in their order. *)
Definition counts_map (counts : list (string * Z)) : gmap string Z :=
  foldl (fun m c => <[c.1 := c.2]> m) ∅ counts.

(** A project with three images of one authentic category. *)
Definition paracetamol_dir : path :=
  images_dir project ++ ["authentic"; "paracetamol"].

Definition gallery_fs : gmap path node :=
  list_to_map
    [(["srv"], Dir); (project, Dir); (data_dir project, Dir);
     (images_dir project, Dir); (images_dir project ++ ["authentic"], Dir);
     (paracetamol_dir, Dir);
     (paracetamol_dir ++ ["a.jpg"], File "image a");
     (paracetamol_dir ++ ["b.png"], File "image b");
     (paracetamol_dir ++ ["c.jpeg"], File "image c");
     (paracetamol_dir ++ ["notes.txt"], File "not an image")].

Definition gallery_world : world := World gallery_fs 0 0 [] [] ∅ [].

(** ** One training job *)

(** The command line of the training script of a model. *)
Definition training_command (E : oracle) (project_root : path)
    (model_name script_name config_name : string) : list string :=
  [sys_executable E; str_path (scripts_dir project_root ++ [script_name]);
   "--config"; str_path (configs_dir project_root ++ [config_name]);
   "--data"; str_path (data_dir project_root);
   "--output"; str_path (output_dir project_root model_name)].

(** The entries of the other jobs are the same. *)
Definition other_jobs_kept (model_name : string) (w w' : world) : Prop :=
  forall other, other <> model_name ->
                training_status w' !! other = training_status w !! other.

(** At most one process was started, with the command [cmd]. *)
Definition started_at_most (cmd : list string) (w w' : world) : Prop :=
  spawned w' = spawned w \/ spawned w' = spawned w ++ [cmd].

(** A step that starts no process, does not turn the clock back and leaves
    the other jobs alone. *)
Definition quiet (model_name : string) (w w' : world) : Prop :=
  same_spawned w w' /\ later w w' /\ other_jobs_kept model_name w w'.

(** The same, but for at most one process started with [cmd]. *)
Definition job_step (model_name : string) (cmd : list string) (w w' : world)
  : Prop :=
  started_at_most cmd w w' /\ later w w' /\ other_jobs_kept model_name w w'.

(** A path that is not the file of the logging handler, [training.log] of
    the working directory, wherever that directory is. *)
Definition not_handler_log (q : path) : Prop := name q <> "training.log".

(** Every path but [p]. *)
Definition apart_from (p : path) (q : path) : Prop := q <> p.
(** ** The report after a training session *)

(** The models with an entry whose status is [s]. *)
Definition has_status (t : gmap string job_info) (s : job_status) (n : string)
  : Prop :=
  exists j, t !! n = Some j /\ status j = s.
(** ** The meaning of a label *)

(** Label 1 is for two authentic images at different places of the list;
    label 0 for an authentic and a counterfeit image, or for two
    counterfeit images at different places of their list. *)
Definition labelled (authentic_images counterfeit_images : list path)
    (p : list string) (label : Z) : Prop :=
  (label = 1 /\ distinct_pair authentic_images p)
  \/ (label = 0 /\ (cross_pair authentic_images counterfeit_images p
                   \/ distinct_pair counterfeit_images p)).
(** ** Directories *)

Definition is_directory (f : gmap path node) (d : path) : Prop :=
  node_is_dir (lookup_node f d) = true.

Definition anywhere (q : path) : Prop := True.
(** ** Where the images of a category go *)

(** [image_files] of a category: the entries with one of the four suffixes,
    suffix by suffix. *)
Definition category_images (f : gmap path node) (category_dir : path)
  : list path :=
  filter (fun p => ends_with (name p) ".jpg" = true) (iterdir f category_dir)
  ++ filter (fun p => ends_with (name p) ".jpeg" = true) (iterdir f category_dir)
  ++ filter (fun p => ends_with (name p) ".png" = true) (iterdir f category_dir)
  ++ filter (fun p => ends_with (name p) ".bmp" = true) (iterdir f category_dir).

Definition split_names : list string := ["train"; "val"; "test"].

(** [self.processed_dir / split_name / dataset_type / category_name /
    img_file.name] *)
Definition split_target (project_root : path) (split dataset_type : string)
    (category_dir img_file : path) : path :=
  processed_dir project_root
  ++ [split; dataset_type; name category_dir; name img_file].

(** No directory sits where the copy of an image would go. *)
Definition copies_unobstructed (project_root : path) (f : gmap path node)
  : Prop :=
  forall split dataset_type category x,
    ~ is_directory f (processed_dir project_root
                      ++ [split; dataset_type; category; x]).

(** Every directory of [w'] was one in [w] or is at depth [k] at most. *)
Definition new_dirs_short (k : nat) (w w' : world) : Prop :=
  forall q, is_directory (fs w') q -> is_directory (fs w) q \/ (length q <= k)%nat.
(** ** A training session *)

(** A path that is not the log file of one of the models [ms]. *)
Definition not_a_log (project_root : path) (ms : list string) (q : path) : Prop :=
  forall m, m ∈ ms -> q <> log_file_path project_root m.

(** The entries of the models outside [ms] are the same. *)
Definition unrequested_kept (ms : list string) (w w' : world) : Prop :=
  forall other, other ∉ ms ->
                training_status w' !! other = training_status w !! other.

(** At most [k] processes were started. *)
Definition started_within (k : nat) (w w' : world) : Prop :=
  (length (spawned w') <= length (spawned w) + k)%nat.
(** What every step of [split_dataset] respects: what is outside the
    [processed] tree stays, and the new directories are not deeper than the
    category directories of the splits. *)
Definition splitting (project_root : path) (w w' : world) : Prop :=
  keeps (outside (processed_dir project_root)) w w'
  /\ new_dirs_short (length (processed_dir project_root) + 3) w w'.

(** The paths of the copies of the images of one category. *)
Definition category_copy (project_root : path) (dataset_type : string)
    (category_dir : path) (q : path) : Prop :=
  exists split x,
    q = processed_dir project_root ++ [split; dataset_type; name category_dir; x].
(** ** [PharmaceuticalTrainingSetup]: dependencies, configurations, [main] *)

Definition requirements : list string :=
  ["tensorflow>=2.13.0"; "tensorflow-hub>=0.14.0"; "opencv-python>=4.8.0";
   "pillow>=10.0.0"; "numpy>=1.24.0"; "pandas>=2.0.0"; "matplotlib>=3.7.0";
   "seaborn>=0.12.0"; "scikit-learn>=1.3.0"; "ultralytics>=8.0.0";
   "albumentations>=1.3.0"; "tensorboard>=2.13.0"; "wandb>=0.15.0";
   "huggingface-hub>=0.16.0"; "transformers>=4.30.0"; "datasets>=2.13.0";
   "tensorflowjs>=4.0.0"].

(** [pip_run requirement] is what [subprocess.run([..., "pip", "install",
    requirement], check=True)] raises, if anything; only
    [CalledProcessError] is caught. *)
Definition install_dependencies (pip_run : string -> option exn) : M unit :=
  log INFO "Installing training dependencies..." ;;
  for_each requirements
           (fun requirement =>
              match pip_run requirement with
              | None => log INFO ("Installed: " +:+ requirement)
              | Some e =>
                  match exn_cls e with
                  | CalledProcessError =>
                      log ERROR ("Failed to install " +:+ requirement +:+ ": "
                                 +:+ str_exn e)
                  | _ => raise e
                  end
              end).

(** The file names of [configs], in their order. *)
Definition config_files : list string :=
  ["drug_classifier_config.json"; "authenticity_config.json";
   "pill_detection_config.json"].

(** [json_dump filename] is the text [json.dump] writes for the dictionary
    that goes to [filename]. *)
Definition create_training_configs (json_dump : string -> string)
    (project_root : path) : M unit :=
  for_each config_files
           (fun filename =>
              let config_path := training_dir project_root ++ ["configs"; filename] in
              write_file config_path (json_dump filename) ;;
              log INFO ("Created config: " +:+ str_path config_path)).

Definition setup_main (pip_run : string -> option exn)
    (json_dump : string -> string) (project_root : path) : M unit :=
  log INFO "Setting up Pharmaceutical AI Training Environment..." ;;
  setup_directories project_root ;;
  install_dependencies pip_run ;;
  create_training_configs json_dump project_root ;;
  log INFO "âœ… Training environment setup complete!" ;;
  log INFO "Next steps:" ;;
  log INFO "1. Add training data to data/pharmaceutical_images/" ;;
  log INFO "2. Run training scripts in training/scripts/" ;;
  log INFO "3. Monitor training with tensorboard --logdir models/".

(** Every directory of [w] is one in [w']. *)
Definition dirs_kept (w w' : world) : Prop :=
  forall d, is_directory (fs w) d -> is_directory (fs w') d.
(** ** [AuthenticityVerifierTrainer.load_image_pairs] *)

(** One of the two loops: the [*.jpg] and [*.png] entries of the
    directories of a class directory. *)
Definition load_class (class_dir : path) : M (list path) :=
  drug_dirs <- glob_all class_dir ;;
  for_fold (fun images drug_dir =>
              d <- is_dir drug_dir ;;
              if d : bool then
                jpg <- glob_ext drug_dir ".jpg" ;;
                png <- glob_ext drug_dir ".png" ;;
                ret (images ++ (jpg ++ png))
              else ret images)
           drug_dirs [].

Definition load_image_pairs (data_dir : path) : M (list path * list path) :=
  let authentic_dir := data_dir ++ ["pharmaceutical_images"; "authentic"] in
  let counterfeit_dir := data_dir ++ ["pharmaceutical_images"; "counterfeit"] in
  authentic_images <- load_class authentic_dir ;;
  counterfeit_images <- load_class counterfeit_dir ;;
  log INFO ("Found " +:+ pretty (length authentic_images) +:+ " authentic images") ;;
  log INFO ("Found " +:+ pretty (length counterfeit_images)
            +:+ " counterfeit images") ;;
  ret (authentic_images, counterfeit_images).

(** An image of a category of the class, with the suffix [.jpg] or
    [.png]. *)
Definition loadable (f : gmap path node) (project_root : path)
    (dataset_type : string) (img_file : path) : Prop :=
  exists category_dir,
    category_dir ∈ category_dirs f (images_dir project_root ++ [dataset_type])
    /\ img_file ∈ category_images f category_dir
    /\ (ends_with (name img_file) ".jpg" = true
        \/ ends_with (name img_file) ".png" = true).
(** Every step from [above] down to [above ++ below] is a directory. *)
Fixpoint made (f : gmap path node) (above : path) (below : list string) : Prop :=
  match below with
  | [] => True
  | c :: below' => f !! (above ++ [c]) = Some Dir /\ made f (above ++ [c]) below'
  end.
(** ** The summary of the splits *)

(** [len(list(d.glob("**/*" + ext)))] in the file system [f]. *)
Definition rglob_count (f : gmap path node) (d : path) (ext : string) : Z :=
  Z.of_nat (length (filter (fun p => is_below d p && ends_with (name p) ext = true)
                           (map fst (map_to_list f)))).

Definition split_count (f : gmap path node) (project_root : path)
    (split dataset_type : string) : Z :=
  rglob_count f (processed_dir project_root ++ [split; dataset_type]) ".jpg"
  + rglob_count f (processed_dir project_root ++ [split; dataset_type]) ".png".

(** An entry for each split, with an entry for each class. *)
Definition summary_of (f : gmap path node) (project_root : path)
  : list (string * list (string * Z)) :=
  map (fun split =>
         (split,
          map (fun dataset_type =>
                 (dataset_type, split_count f project_root split dataset_type))
              dataset_types))
      split_names.
(** ** [PharmaceuticalDatasetPreparer.download_sample_pharmaceutical_dataset] *)

(** [p.mkdir(exist_ok=True)]: the parent must be a directory. *)
Definition mkdir_exist_ok (p : path) : M unit :=
  fun w =>
    match lookup_node (fs w) p with
    | Some Dir => (Ok tt, w)
    | Some (File _) => (Err (os_error EEXIST p), w)
    | None =>
        if node_is_dir (lookup_node (fs w) (parent p))
        then (Ok tt, set_fs (<[p := Dir]> (fs w)) w)
        else (Err (no_parent (fs w) p), w)
    end.

Definition drug_categories : list string :=
  ["paracetamol"; "ibuprofen"; "amoxicillin"; "omeprazole";
   "metformin"; "lisinopril"; "amlodipine"; "simvastatin"].

Definition info_file (project_root : path) (dataset_type category : string)
  : path :=
  images_dir project_root ++ [dataset_type] ++ [category] ++ ["dataset_info.json"].

(** The body of the two loops over the categories; [info dataset_type
    category] is the text [json.dump] writes for the placeholder. *)
Definition placeholder (info : string -> string -> string)
    (project_root : path) (dataset_type category : string) : M unit :=
  let category_dir := images_dir project_root ++ [dataset_type] ++ [category] in
  mkdir_exist_ok category_dir ;;
  write_file (category_dir ++ ["dataset_info.json"]) (info dataset_type category).

Definition download_sample_pharmaceutical_dataset
    (info : string -> string -> string) (project_root : path) : M unit :=
  log INFO "Downloading sample pharmaceutical datasets..." ;;
  mkdir_parents (images_dir project_root ++ ["authentic"]) ;;
  log WARNING "Sample URLs are placeholders. Please use legitimate pharmaceutical datasets:" ;;
  log INFO "1. NIH Pill Image Recognition Challenge" ;;
  log INFO "2. FDA Orange Book Database" ;;
  log INFO "3. Academic pharmaceutical research datasets" ;;
  log INFO "4. Licensed commercial pharmaceutical image databases" ;;
  for_each drug_categories (placeholder info project_root "authentic") ;;
  mkdir_parents (images_dir project_root ++ ["counterfeit"]) ;;
  for_each drug_categories (placeholder info project_root "counterfeit").

(** A path that is not the information file of a placeholder. *)
Definition not_an_info_file (project_root : path) (q : path) : Prop :=
  forall dataset_type category,
    q <> info_file project_root dataset_type category.

(** The directory of a category of a class, and its information file. *)
Definition placeholder_of (project_root : path) (dataset_type category : string)
    (q : path) : Prop :=
  q = images_dir project_root ++ [dataset_type] ++ [category]
  \/ q = info_file project_root dataset_type category.

(** * Properties *)

(** ** The monad *)

Lemma bind_ok {A B} (m : M A) (k : A -> M B) w a w' :
  m w = (Ok a, w') -> bind m k w = k a w'.
Proof. unfold bind. by intros ->. Qed.

Lemma bind_err {A B} (m : M A) (k : A -> M B) w e w' :
  m w = (Err e, w') -> bind m k w = (Err e, w').
Proof. unfold bind. by intros ->. Qed.

(** ** Slices and swaps *)

Lemma py_slice_prefix {A} (l : list A) (n : Z) :
  0 <= n -> py_slice l None (Some n) = take (Z.to_nat n) l.
Proof.
  intros Hn. unfold py_slice, adjust_index.
  destruct (Z.ltb_spec n 0) as [|_]; [lia|].
  change (Z.to_nat 0) with 0%nat. rewrite drop_0, Z.sub_0_r.
  destruct (Z.le_ge_cases n (Z.of_nat (length l))).
  - by rewrite Z.min_l.
  - rewrite Z.min_r, Nat2Z.id by done. rewrite !take_ge; [done|lia..].
Qed.

Lemma py_slice_middle {A} (l : list A) (n k : Z) :
  0 <= n -> 0 <= k ->
  py_slice l (Some n) (Some (n + k)) = take (Z.to_nat k) (drop (Z.to_nat n) l).
Proof.
  intros Hn Hk. unfold py_slice, adjust_index.
  destruct (Z.ltb_spec n 0) as [|_]; [lia|].
  destruct (Z.ltb_spec (n + k) 0) as [|_]; [lia|].
  set (len := Z.of_nat (length l)).
  destruct (Z.le_ge_cases n len) as [H1|H1].
  - rewrite (Z.min_l n) by done.
    destruct (Z.le_ge_cases (n + k) len).
    + rewrite Z.min_l by done. f_equal. lia.
    + rewrite Z.min_r by done.
      rewrite !take_ge; [done|rewrite length_drop; lia..].
  - rewrite !Z.min_r by lia. rewrite Z.sub_diag. unfold len.
    rewrite Nat2Z.id. rewrite !drop_ge; [|lia..].
    by rewrite !take_nil.
Qed.

Lemma py_slice_suffix {A} (l : list A) (n : Z) :
  0 <= n -> py_slice l (Some n) None = drop (Z.to_nat n) l.
Proof.
  intros Hn. unfold py_slice, adjust_index.
  destruct (Z.ltb_spec n 0) as [|_]; [lia|].
  set (len := Z.of_nat (length l)).
  destruct (Z.le_ge_cases n len) as [H1|H1].
  - rewrite Z.min_l by done. apply take_ge. rewrite length_drop. lia.
  - rewrite Z.min_r, Z.sub_diag by done. unfold len. rewrite Nat2Z.id.
    rewrite !drop_ge; [|lia..]. done.
Qed.

(** With indices that are not negative the three slices are consecutive
    segments. *)
Lemma slices_segments {A} (l : list A) (n_train n_val : Z) :
  0 <= n_train -> 0 <= n_val ->
  slices l n_train n_val =
    (take (Z.to_nat n_train) l,
     take (Z.to_nat n_val) (drop (Z.to_nat n_train) l),
     drop (Z.to_nat n_train + Z.to_nat n_val) l).
Proof.
  intros. unfold slices.
  rewrite py_slice_prefix, py_slice_middle, py_slice_suffix by lia.
  by rewrite Z2Nat.inj_add.
Qed.

Lemma segments_app {A} (l : list A) (a b : nat) :
  take a l ++ take b (drop a l) ++ drop (a + b) l = l.
Proof.
  rewrite app_assoc, take_take_drop. apply take_drop.
Qed.

Lemma swap_length {A} (x : list A) i j : length (swap x i j) = length x.
Proof.
  unfold swap. destruct (x !! i), (x !! j); try done.
  by rewrite !length_insert.
Qed.

Lemma swap_lookup {A} (x : list A) (i j k : nat) :
  (i < length x)%nat -> (j < length x)%nat ->
  swap x i j !! k =
    x !! (if decide (k = i) then j else if decide (k = j) then i else k).
Proof.
  intros Hi Hj. unfold swap.
  destruct (lookup_lt_is_Some_2 x i Hi) as [xi Hxi].
  destruct (lookup_lt_is_Some_2 x j Hj) as [xj Hxj].
  rewrite Hxi, Hxj.
  destruct (decide (k = j)) as [->|Hkj].
  - rewrite list_lookup_insert_eq by (by rewrite length_insert).
    destruct (decide (j = i)) as [->|]; congruence.
  - rewrite list_lookup_insert_ne by done.
    destruct (decide (k = i)) as [->|Hki].
    + by rewrite list_lookup_insert_eq.
    + by rewrite list_lookup_insert_ne.
Qed.

Lemma swap_Permutation {A} (x : list A) i j : swap x i j ≡ₚ x.
Proof.
  destruct (decide (i < length x)%nat) as [Hi|Hi]; last first.
  { unfold swap. rewrite (lookup_ge_None_2 x i) by lia. done. }
  destruct (decide (j < length x)%nat) as [Hj|Hj]; last first.
  { unfold swap. rewrite (lookup_ge_None_2 x j) by lia.
    by destruct (x !! i). }
  apply Permutation_inj. split; [apply swap_length|].
  exists (fun k => if decide (k = i) then j else if decide (k = j) then i else k).
  split.
  - intros a b. repeat case_decide; intros; subst; congruence.
  - intros k. by apply swap_lookup.
Qed.

(** ** [random.shuffle] returns a permutation *)

Lemma shuffle_loop_spec {A} (E : oracle) (i : nat) (x : list A) (w : world) :
  exists x', shuffle_loop E i x w = (Ok x', add_draws i w) /\ x' ≡ₚ x.
Proof.
  revert x w. induction i as [|i IH]; intros x w.
  - exists x. split; [|done]. simpl. unfold ret, add_draws.
    destruct w; simpl. by rewrite Nat.add_0_r.
  - simpl. unfold bind, randbelow.
    destruct (IH (swap x (S i) (rand E (draws w) `mod` S (S i))%nat)
                 (World (fs w) (ticks w) (S (draws w)) (spawned w) (logged w)
                        (training_status w) (status_writes w)))
      as (x' & Hx' & Hperm).
    exists x'. split.
    + rewrite Hx'. unfold add_draws. simpl. do 2 f_equal. lia.
    + by rewrite Hperm, swap_Permutation.
Qed.

Lemma shuffle_spec {A} (E : oracle) (x : list A) (w : world) :
  exists x', shuffle E x w = (Ok x', add_draws (length x - 1) w) /\ x' ≡ₚ x.
Proof. apply shuffle_loop_spec. Qed.

(** ** Split indices of ratios that are not negative *)

Lemma binary_round_aux_sign mx ex lx :
  not_negative (binary_round_aux PyFloat.prec PyFloat.emax false mx ex lx).
Proof.
  unfold binary_round_aux.
  destruct (shr_fexp _ _ mx ex lx) as [mrs' e'].
  destruct (shr_fexp _ _ _ e' loc_Exact) as [mrs'' e''].
  destruct (shr_m mrs''); simpl; [done| |done].
  by destruct (_ <=? _).
Qed.

Lemma nearest_sign (n : Z) : 0 <= n -> not_negative (PyFloat.nearest n).
Proof.
  intros Hn. unfold PyFloat.nearest, binary_normalize.
  destruct n as [|m|m]; [done| |lia].
  unfold binary_round. destruct (shl_align _ _ _).
  apply binary_round_aux_sign.
Qed.

Lemma mul_sign (x y : PyFloat.float) :
  not_negative x -> not_negative y -> not_negative (PyFloat.mul x y).
Proof.
  unfold PyFloat.mul, SFmul.
  destruct x as [[]|[]| |[] mx ex], y as [[]|[]| |[] my ey]; simpl; try done.
  intros _ _. apply binary_round_aux_sign.
Qed.

Lemma to_int_sign (x : PyFloat.float) (k : Z) :
  not_negative x -> PyFloat.to_int x = Ok k -> 0 <= k.
Proof.
  destruct x as [s|s| |[] m e]; simpl; try done.
  - intros _ [= <-]. done.
  - intros _ [= <-]. apply Z.shiftl_nonneg. lia.
Qed.

Lemma ge_zero_sign (r : PyFloat.float) :
  PyFloat.ge r zero = true -> not_negative r.
Proof. by destruct r as [[]|[]| |[] m e]. Qed.

(** For a ratio [r >= 0] the index [int(n * r)], when it is computed, is
    not negative. *)
Lemma split_index_nonneg (n : Z) (r : PyFloat.float) (k : Z) :
  0 <= n -> PyFloat.ge r zero = true -> split_index n r = Ok k -> 0 <= k.
Proof.
  intros Hn Hr. unfold split_index, PyFloat.int_mul, PyFloat.of_int.
  pose proof (nearest_sign n Hn) as Hs.
  destruct (PyFloat.nearest n) as [s|s| |s m e] eqn:Hx; try done.
  all: intros Hk; eapply to_int_sign; [|exact Hk].
  all: apply mul_sign; [done|by apply ge_zero_sign].
Qed.

(** ** [split_files]: the three splits of one category *)

(** What [split_files] computes when both indices are computed and are not
    negative. *)
Lemma split_files_spec {A} (E : oracle) (image_files : list A)
    (train_ratio val_ratio : PyFloat.float) (w : world) (n_train n_val : Z) :
  split_index (Z.of_nat (length image_files)) train_ratio = Ok n_train ->
  split_index (Z.of_nat (length image_files)) val_ratio = Ok n_val ->
  0 <= n_train -> 0 <= n_val ->
  exists shuffled,
    shuffle E image_files w = (Ok shuffled, add_draws (length image_files - 1) w)
    /\ shuffled ≡ₚ image_files
    /\ split_files E image_files train_ratio val_ratio w =
         (Ok (take (Z.to_nat n_train) shuffled,
              take (Z.to_nat n_val) (drop (Z.to_nat n_train) shuffled),
              drop (Z.to_nat n_train + Z.to_nat n_val) shuffled),
          add_draws (length image_files - 1) w).
Proof.
  intros Htrain Hval Hn_train Hn_val.
  destruct (shuffle_spec E image_files w) as (shuffled & Hsh & Hperm).
  exists shuffled. split; [done|]. split; [done|].
  unfold split_files. rewrite (bind_ok _ _ _ _ _ Hsh).
  rewrite (Permutation_length Hperm), Htrain, Hval.
  unfold bind, lift, ret. by rewrite slices_segments.
Qed.

(** C1, as amended: for every category and every pair of train and
    validation ratios whose indices [n_train = int(n * train_ratio)] and
    [n_val = int(n * val_ratio)] are computed and are not negative,
    [split_files] returns the first [n_train] shuffled items as the train
    split, the next [n_val] as the validation split and all the remaining
    ones as the test split; the shuffled list is a permutation of the
    category, the three splits put back together are the shuffled list, so
    the three counts add up to [n], and no item of a duplicate-free category
    is in two splits. *)
Theorem split_files_partition {A} (E : oracle) (image_files : list A)
    (train_ratio val_ratio : PyFloat.float) (w : world) (n_train n_val : Z) :
  split_index (Z.of_nat (length image_files)) train_ratio = Ok n_train ->
  split_index (Z.of_nat (length image_files)) val_ratio = Ok n_val ->
  0 <= n_train -> 0 <= n_val ->
  exists shuffled train_files val_files test_files w',
    shuffle E image_files w = (Ok shuffled, w')
    /\ shuffled ≡ₚ image_files
    /\ split_files E image_files train_ratio val_ratio w =
         (Ok (train_files, val_files, test_files), w')
    /\ train_files = take (Z.to_nat n_train) shuffled
    /\ val_files = take (Z.to_nat n_val) (drop (Z.to_nat n_train) shuffled)
    /\ test_files = drop (Z.to_nat n_train + Z.to_nat n_val) shuffled
    /\ train_files ++ val_files ++ test_files = shuffled
    /\ (length train_files + length val_files + length test_files
        = length image_files)%nat
    /\ (NoDup image_files -> NoDup (train_files ++ val_files ++ test_files)).
Proof.
  intros Htrain Hval Hn_train Hn_val.
  destruct (split_files_spec E image_files train_ratio val_ratio w
              n_train n_val Htrain Hval Hn_train Hn_val)
    as (shuffled & Hsh & Hperm & Hsplit).
  eexists shuffled, _, _, _, _.
  repeat split; [exact Hsh|exact Hperm|exact Hsplit|..].
  - apply segments_app.
  - rewrite <- (Permutation_length Hperm).
    rewrite <- (segments_app shuffled (Z.to_nat n_train) (Z.to_nat n_val)) at 4.
    by rewrite !length_app, Nat.add_assoc.
  - intros Hnodup. rewrite segments_app. by rewrite Hperm.
Qed.

(** The indices of a category of ten items under the default ratios. *)
Lemma default_indices_of_ten :
  split_index 10 PyFloat.lit_0_7 = Ok 7 /\ split_index 10 PyFloat.lit_0_2 = Ok 2.
Proof. split; vm_compute; reflexivity. Qed.

(** Ten items with the ratios [(0.7, 0.2, 0.1)]: 7, 2 and 1. *)
Lemma split_files_ten_default {A} (E : oracle) (image_files : list A) (w : world) :
  length image_files = 10%nat ->
  exists train_files val_files test_files w',
    split_files E image_files PyFloat.lit_0_7 PyFloat.lit_0_2 w =
      (Ok (train_files, val_files, test_files), w')
    /\ length train_files = 7%nat /\ length val_files = 2%nat
    /\ length test_files = 1%nat.
Proof.
  intros Hlen. destruct default_indices_of_ten as [H7 H2].
  destruct (split_files_spec E image_files PyFloat.lit_0_7 PyFloat.lit_0_2 w 7 2)
    as (shuffled & _ & Hperm & Hsplit); [by rewrite Hlen..|lia|lia|].
  eexists _, _, _, _. split; [exact Hsplit|].
  apply Permutation_length in Hperm.
  rewrite length_take, length_take, !length_drop, Hperm, Hlen.
  repeat split; reflexivity.
Qed.

Lemma split_files_partition_witness :
  exists train_files val_files test_files w',
    split_files demo_oracle ten_files PyFloat.lit_0_7 PyFloat.lit_0_2 empty_world =
      (Ok (train_files, val_files, test_files), w')
    /\ (length train_files, length val_files, length test_files)
       = (7%nat, 2%nat, 1%nat)
    /\ NoDup (train_files ++ val_files ++ test_files).
Proof.
  destruct (split_files_partition demo_oracle ten_files PyFloat.lit_0_7
              PyFloat.lit_0_2 empty_world 7 2)
    as (shuffled & tr & va & te & w' & _ & Hperm & Hsplit & -> & -> & -> & _ & _ & Hnodup).
  - vm_compute; reflexivity.
  - vm_compute; reflexivity.
  - lia.
  - lia.
  - exists (take (Z.to_nat 7) shuffled),
      (take (Z.to_nat 2) (drop (Z.to_nat 7) shuffled)),
      (drop (Z.to_nat 7 + Z.to_nat 2) shuffled), w'.
    split; [exact Hsplit|]. split.
    + apply Permutation_length in Hperm.
      rewrite length_take, length_take, !length_drop, Hperm. reflexivity.
    + apply Hnodup. apply (bool_decide_unpack _). vm_compute. exact I.
Defined.

(** C1 as stated fails: the triple [(0.5, -0.2, 0.7)] passes the validation,
    and of ten items five go to train, none to validation and seven to
    test: twelve in all, two of them in both train and test. *)
Lemma split_files_negative_ratio_overlap :
  ratios_off lit_0_5 lit_minus_0_2 PyFloat.lit_0_7 = false
  /\ length ten_files = 10%nat
  /\ NoDup ten_files
  /\ exists train_files val_files test_files w',
       split_files demo_oracle ten_files lit_0_5 lit_minus_0_2 empty_world =
         (Ok (train_files, val_files, test_files), w')
       /\ (length train_files + length val_files + length test_files)%nat = 12%nat
       /\ exists f, f ∈ train_files /\ f ∈ test_files.
Proof.
  split; [vm_compute; reflexivity|]. split; [reflexivity|]. split.
  { apply (bool_decide_unpack _). vm_compute. exact I. }
  eexists _, _, _, _. split; [vm_compute; reflexivity|].
  split; [reflexivity|].
  eexists. split.
  - apply list_elem_of_lookup. exists 3%nat. reflexivity.
  - apply list_elem_of_lookup. exists 0%nat. reflexivity.
Qed.

(** ** [split_dataset]: the validation comes first *)

Lemma ratios_off_example :
  ratios_off PyFloat.lit_0_7 PyFloat.lit_0_2 lit_0_05 = true
  /\ ratios_off PyFloat.lit_0_7 PyFloat.lit_0_2 PyFloat.lit_0_1 = false.
Proof. split; vm_compute; reflexivity. Qed.

(** C2: when [abs(train_ratio + val_ratio + test_ratio - 1.0) > 1e-6],
    [split_dataset] raises the [ValueError] of the validation and leaves the
    world as it was (no directory made, no file copied, nothing logged);
    otherwise the validation passes and the call goes on with the rest of
    the function. *)
Theorem split_dataset_validation (E : oracle) (project_root : path)
    (train_ratio val_ratio test_ratio : PyFloat.float) (w : world) :
  if ratios_off train_ratio val_ratio test_ratio
  then split_dataset E project_root train_ratio val_ratio test_ratio w
       = (Err (Raise ValueError "Ratios must sum to 1.0"), w)
  else validate_ratios train_ratio val_ratio test_ratio w = (Ok tt, w)
       /\ split_dataset E project_root train_ratio val_ratio test_ratio w
          = split_dataset_body E project_root train_ratio val_ratio test_ratio w.
Proof.
  unfold split_dataset, validate_ratios.
  destruct (ratios_off train_ratio val_ratio test_ratio); [done|].
  split; done.
Qed.

(** ** [create_siamese_pairs] *)

Lemma add_draws_add (n m : nat) (w : world) :
  add_draws m (add_draws n w) = add_draws (n + m) w.
Proof. unfold add_draws. simpl. f_equal. lia. Qed.

Lemma add_draws_0 (w : world) : add_draws 0 w = w.
Proof. destruct w. unfold add_draws. simpl. f_equal. lia. Qed.

Lemma randbelow_spec (E : oracle) (n : nat) (w : world) :
  randbelow E n w = (Ok (rand E (draws w) `mod` n)%nat, add_draws 1 w).
Proof. unfold randbelow, add_draws. do 3 f_equal. lia. Qed.

Lemma sample_loop_spec {A} (E : oracle) (k n : nat) (pool : list A) (w : world) :
  (k <= n)%nat -> (n <= length pool)%nat ->
  exists l, sample_loop E k n pool w = (Ok l, add_draws k w) /\ length l = k.
Proof.
  revert n pool w. induction k as [|k IH]; intros n pool w Hk Hn.
  - exists []. by rewrite add_draws_0.
  - simpl. rewrite (bind_ok _ _ _ _ _ (randbelow_spec E n w)).
    set (j := (rand E (draws w) `mod` n)%nat).
    assert (j < n)%nat as Hj by (apply Nat.mod_upper_bound; lia).
    destruct (lookup_lt_is_Some_2 pool j) as [a ->]; [lia|].
    destruct (lookup_lt_is_Some_2 pool (n - 1)) as [z ->]; [lia|].
    destruct (IH (n - 1)%nat (<[j:=z]> pool) (add_draws 1 w)) as (l & Hl & Hlen);
      [lia|rewrite length_insert; lia|].
    exists (a :: l). rewrite (bind_ok _ _ _ _ _ Hl).
    unfold ret. rewrite add_draws_add. simpl. by rewrite Hlen.
Qed.

(** Two items by the pool come from two places of the population. *)
Lemma sample_loop_two {A} (E : oracle) (pool : list A) (w : world) :
  (2 <= length pool)%nat ->
  exists i j a b,
    i <> j /\ pool !! i = Some a /\ pool !! j = Some b
    /\ sample_loop E 2 (length pool) pool w = (Ok [a; b], add_draws 2 w).
Proof.
  intros Hlen.
  set (n := length pool) in *.
  set (j1 := (rand E (draws w) `mod` n)%nat).
  set (j2 := (rand E (draws (add_draws 1 w)) `mod` (n - 1))%nat).
  assert (j1 < n)%nat as Hj1 by (apply Nat.mod_upper_bound; lia).
  assert (j2 < n - 1)%nat as Hj2 by (apply Nat.mod_upper_bound; lia).
  destruct (lookup_lt_is_Some_2 pool j1 Hj1) as [a Ha].
  destruct (lookup_lt_is_Some_2 pool (n - 1)%nat ltac:(lia)) as [z Hz].
  set (pool' := <[j1 := z]> pool).
  assert (length pool' = n) as Hlen' by apply length_insert.
  destruct (lookup_lt_is_Some_2 pool' j2 ltac:(lia)) as [b Hb].
  destruct (lookup_lt_is_Some_2 pool' (n - 1 - 1)%nat ltac:(lia)) as [z' Hz'].
  assert (sample_loop E 1 (n - 1) pool' (add_draws 1 w)
          = (Ok [b], add_draws 2 w)) as Hinner.
  { cbn [sample_loop]. rewrite (bind_ok _ _ _ _ _ (randbelow_spec _ _ _)).
    fold j2. rewrite Hb, Hz'. unfold bind, ret.
    by rewrite add_draws_add. }
  assert (sample_loop E 2 n pool w = (Ok [a; b], add_draws 2 w)) as Houter.
  { change (sample_loop E 2 n pool)
      with (j <- randbelow E n ;;
            match pool !! j, pool !! (n - 1)%nat with
            | Some a, Some z =>
                rest <- sample_loop E 1 (n - 1)%nat (<[j:=z]> pool) ;;
                ret (a :: rest)
            | _, _ => raise (Raise OtherException "list index out of range")
            end).
    rewrite (bind_ok _ _ _ _ _ (randbelow_spec _ _ _)). fold j1.
    rewrite Ha, Hz. fold pool'. by rewrite (bind_ok _ _ _ _ _ Hinner). }
  destruct (decide (j2 = j1)) as [Heq|Hne].
  - exists j1, (n - 1)%nat, a, b. split_and!; [lia|done| |done].
    unfold pool' in Hb. rewrite Heq, list_lookup_insert_eq in Hb by lia.
    by rewrite Hz, Hb.
  - exists j1, j2, a, b. split_and!; [done|done| |done].
    unfold pool' in Hb. by rewrite list_lookup_insert_ne in Hb.
Qed.

Lemma redraw_eq (E : oracle) (fuel n : nat) (selected : gset nat) (j : nat) :
  redraw E fuel n selected j
  = if bool_decide (j ∈ selected) then
      match fuel with
      | O => ret None
      | S fuel' => j' <- randbelow E n ;; redraw E fuel' n selected j'
      end
    else ret (Some j).
Proof. by destruct fuel. Qed.

(** The index [while j in selected] ends with is not in the set. *)
Lemma redraw_fresh (E : oracle) (fuel n : nat) (selected : gset nat) (j : nat)
    (w : world) :
  (0 < n)%nat -> (j < n)%nat ->
  exists r w', redraw E fuel n selected j w = (Ok r, w')
               /\ forall j', r = Some j' -> (j' < n)%nat /\ j' ∉ selected.
Proof.
  intros Hn. revert j w. induction fuel as [|fuel IH]; intros j w Hj;
    rewrite redraw_eq; case_bool_decide as Hin.
  - exists None, w. by split.
  - exists (Some j), w. split; [done|]. by intros j' [= <-].
  - rewrite (bind_ok _ _ _ _ _ (randbelow_spec E n w)).
    apply IH. apply Nat.mod_upper_bound. lia.
  - exists (Some j), w. split; [done|]. by intros j' [= <-].
Qed.

(** The loop ends when the index is new or a new one comes within [fuel]
    draws. *)
Lemma redraw_ends (E : oracle) (fuel n j1 : nat) (selected : gset nat)
    (j : nat) (w : world) :
  (forall x, x ∈ selected -> x = j1) ->
  j <> j1
  \/ (exists i, (i < fuel)%nat /\ (rand E (draws w + i) `mod` n)%nat <> j1) ->
  exists j' w', redraw E fuel n selected j w = (Ok (Some j'), w').
Proof.
  intros Hsel. revert j w. induction fuel as [|fuel IH]; intros j w Hfresh;
    rewrite redraw_eq; case_bool_decide as Hin; try (by exists j, w).
  - destruct Hfresh as [Hne|(i & Hi & _)]; [|lia]. destruct Hne. by apply Hsel.
  - rewrite (bind_ok _ _ _ _ _ (randbelow_spec E n w)).
    apply IH. destruct Hfresh as [Hne|(i & Hi & Hneq)].
    { destruct Hne. by apply Hsel. }
    destruct i as [|i].
    + left. by rewrite Nat.add_0_r in Hneq.
    + right. exists i. split; [lia|].
      unfold add_draws. simpl.
      by replace (draws w + 1 + i)%nat with (draws w + S i)%nat by lia.
Qed.

(** Two items by the set of indices: when the sampling ends, they come from
    two places of the population; it ends when the generator [varies]. *)
Lemma sample_set_two {A} (E : oracle) (fuel : nat) (population : list A)
    (w : world) :
  (0 < length population)%nat ->
  exists r w',
    sample_set E fuel 2 (length population) population ∅ w = (Ok r, w')
    /\ (varies E (length population) fuel -> is_Some r)
    /\ forall l, r = Some l ->
         exists i j a b, i <> j /\ population !! i = Some a
                         /\ population !! j = Some b /\ l = [a; b].
Proof.
  intros Hn. set (n := length population) in *.
  set (j1 := (rand E (draws w) `mod` n)%nat).
  assert (j1 < n)%nat as Hj1 by (apply Nat.mod_upper_bound; lia).
  destruct (lookup_lt_is_Some_2 population j1 Hj1) as [a Ha].
  set (w1 := add_draws 1 w).
  set (j := (rand E (draws w1) `mod` n)%nat).
  assert (j < n)%nat as Hj by (apply Nat.mod_upper_bound; lia).
  set (selected := ({[j1]} ∪ ∅ : gset nat)).
  destruct (redraw_fresh E fuel n selected j (add_draws 1 w1) Hn Hj)
    as (r2 & w2 & Hredraw & Hfresh).
  assert (sample_set E fuel 2 n population ∅ w
          = match r2 with
            | Some j2 =>
                match population !! j2 with
                | Some b => (Ok (Some [a; b]), w2)
                | None => (Err (Raise OtherException "list index out of range"), w2)
                end
            | None => (Ok None, w2)
            end) as Hrun.
  { cbn [sample_set]. unfold bind, ret, raise.
    rewrite (randbelow_spec E n w). cbv beta iota. fold j1 w1.
    rewrite redraw_eq, bool_decide_eq_false_2 by apply not_elem_of_empty.
    unfold ret. cbv beta iota. rewrite Ha.
    rewrite (randbelow_spec E n w1). cbv beta iota. fold j selected.
    rewrite Hredraw. cbv beta iota.
    destruct r2 as [j2|]; [|done].
    by destruct (population !! j2). }
  rewrite Hrun. destruct r2 as [j2|].
  - destruct (Hfresh j2 eq_refl) as [Hj2 Hnew].
    destruct (lookup_lt_is_Some_2 population j2 Hj2) as [b Hb]. rewrite Hb.
    eexists _, _. split; [reflexivity|]. split; [by eexists|].
    intros l [= <-]. exists j1, j2, a, b. split_and!; try done.
    intros <-. apply Hnew. by apply elem_of_union_l, elem_of_singleton_2.
  - eexists _, _. split; [reflexivity|]. split; [|done].
    intros Hvaries. exfalso.
    destruct (redraw_ends E fuel n j1 selected j (add_draws 1 w1))
      as (j' & w' & Hends).
    { intros x [Hx|Hx]%elem_of_union; [by apply elem_of_singleton in Hx|].
      by apply elem_of_empty in Hx. }
    { destruct (Hvaries (draws w)) as (i & Hi & Hneq). fold j1 in Hneq.
      destruct (decide (i = 1%nat)) as [->|Hi1].
      - left. unfold j, w1, add_draws. simpl. done.
      - right. exists (i - 2)%nat. split; [lia|].
        unfold w1, add_draws. simpl.
        by replace (draws w + 1 + 1 + (i - 2))%nat with (draws w + i)%nat by lia. }
    congruence.
Qed.

Lemma sample_two {A} (E : oracle) (fuel : nat) (pool : list A) (w : world) :
  (2 <= length pool)%nat ->
  exists r w',
    sample E fuel pool 2 w = (Ok r, w')
    /\ (sampling_ends E fuel pool -> is_Some r)
    /\ forall l, r = Some l ->
         exists i j a b, i <> j /\ pool !! i = Some a /\ pool !! j = Some b
                         /\ l = [a; b].
Proof.
  intros Hlen. unfold sample.
  rewrite (proj2 (Nat.ltb_ge _ _)) by lia.
  change (setsize 2) with 21%nat.
  destruct (Nat.leb_spec (length pool) 21) as [Hsmall|Hlarge].
  - destruct (sample_loop_two E pool w Hlen) as (i & j & a & b & Hij & Ha & Hb & Hrun).
    rewrite (bind_ok _ _ _ _ _ Hrun).
    eexists _, _. split; [reflexivity|]. split; [by eexists|].
    intros l [= <-]. by exists i, j, a, b.
  - destruct (sample_set_two E fuel pool w ltac:(lia))
      as (r & w' & Hrun & Hends & Hpair).
    exists r, w'. split; [done|]. split; [|done].
    intros [Hsmall|Hvaries]; [lia|by apply Hends].
Qed.

Lemma choice_spec {A} (E : oracle) (seq : list A) (w : world) :
  seq <> [] -> exists a, choice E seq w = (Ok a, add_draws 1 w) /\ a ∈ seq.
Proof.
  intros Hne. unfold choice. destruct seq as [|x seq']; [done|].
  rewrite (bind_ok _ _ _ _ _ (randbelow_spec E _ w)).
  set (j := (rand E (draws w) `mod` _)%nat).
  assert (j < length (x :: seq'))%nat as Hj
    by (apply Nat.mod_upper_bound; done).
  destruct (lookup_lt_is_Some_2 _ j Hj) as [a Ha].
  exists a. rewrite Ha. split; [done|]. by eapply list_elem_of_lookup_2.
Qed.

Lemma grown_refl P label s : grown P label 0 s s.
Proof. exists []. by rewrite !app_nil_r. Qed.

Lemma grown_trans P label n m s1 s2 s3 :
  grown P label n s1 s2 -> grown P label m s2 s3 -> grown P label (n + m) s1 s3.
Proof.
  intros (new1 & H1 & Hl1 & Hf1 & Hb1) (new2 & H2 & Hl2 & Hf2 & Hb2).
  exists (new1 ++ new2). repeat split.
  - by rewrite H2, H1, app_assoc.
  - rewrite length_app. lia.
  - by apply Forall_app.
  - by rewrite Hb2, Hb1, replicate_add, app_assoc.
Qed.

Lemma append_pair_grown (P : list string -> Prop) img1 img2 label s :
  P [str_path img1; str_path img2] ->
  grown P label 1 s (append_pair img1 img2 label s).
Proof.
  intros HP. exists [[str_path img1; str_path img2]]. repeat split.
  by repeat constructor.
Qed.

Lemma same_pool_pair_spec (E : oracle) (fuel : nat) (images : list path)
    (label : Z) (s : pair_lists) (w : world) :
  if (2 <=? length images)%nat
  then exists r w',
         same_pool_pair E fuel images label s w = (Ok r, w')
         /\ (sampling_ends E fuel images -> is_Some r)
         /\ forall s', r = Some s' -> grown (distinct_pair images) label 1 s s'
  else same_pool_pair E fuel images label s w = (Ok (Some s), w).
Proof.
  unfold same_pool_pair. destruct (Nat.leb_spec 2 (length images)); [|done].
  destruct (sample_two E fuel images w) as (r & w' & Hrun & Hends & Hpair);
    [done|].
  rewrite (bind_ok _ _ _ _ _ Hrun). destruct r as [l|].
  - destruct (Hpair l eq_refl) as (i & j & a & b & Hij & Ha & Hb & ->).
    eexists _, _. split; [reflexivity|]. split; [by eexists|].
    intros s' [= <-]. apply append_pair_grown. by exists i, j, a, b.
  - eexists _, _. split; [reflexivity|]. split; [|done].
    intros He. by destruct (Hends He).
Qed.

Lemma cross_pool_pair_spec (E : oracle)
    (authentic_images counterfeit_images : list path)
    (s : pair_lists) (w : world) :
  if (0 <? length authentic_images)%nat && (0 <? length counterfeit_images)%nat
  then exists s', cross_pool_pair E authentic_images counterfeit_images s w
                  = (Ok s', add_draws 2 w)
                  /\ grown (cross_pair authentic_images counterfeit_images)
                           0 1 s s'
  else cross_pool_pair E authentic_images counterfeit_images s w = (Ok s, w).
Proof.
  unfold cross_pool_pair.
  destruct (Nat.ltb_spec 0 (length authentic_images)) as [Ha|]; [|done].
  destruct (Nat.ltb_spec 0 (length counterfeit_images)) as [Hc|]; [|done].
  simpl.
  destruct (choice_spec E authentic_images w) as (img1 & H1 & Hin1).
  { intros ->. simpl in Ha. lia. }
  rewrite (bind_ok _ _ _ _ _ H1).
  destruct (choice_spec E counterfeit_images (add_draws 1 w)) as (img2 & H2 & Hin2).
  { intros ->. simpl in Hc. lia. }
  rewrite (bind_ok _ _ _ _ _ H2). rewrite add_draws_add.
  eexists. split; [done|]. apply append_pair_grown. by exists img1, img2.
Qed.

(** A loop whose body appends one pair at each turn appends [n] pairs; a
    loop whose body does nothing does nothing. *)
Lemma for_range_grows (body : pair_lists -> M pair_lists) P (label : Z) (d : nat) :
  (forall s w, exists s', body s w = (Ok s', add_draws d w)
                          /\ grown P label 1 s s') ->
  forall n s w, exists s',
    for_range n body s w = (Ok s', add_draws (n * d) w) /\ grown P label n s s'.
Proof.
  intros Hbody n. induction n as [|n IH]; intros s w.
  - exists s. simpl. rewrite add_draws_0. split; [done|apply grown_refl].
  - destruct (Hbody s w) as (s1 & H1 & Hg1).
    destruct (IH s1 (add_draws d w)) as (s2 & H2 & Hg2).
    exists s2. simpl for_range. rewrite (bind_ok _ _ _ _ _ H1), H2, add_draws_add.
    split; [done|]. by apply (grown_trans P label 1 n s s1 s2).
Qed.

Lemma for_range_idle {S} (body : S -> M S) :
  (forall s w, body s w = (Ok s, w)) ->
  forall n s w, for_range n body s w = (Ok s, w).
Proof.
  intros Hbody n. induction n as [|n IH]; intros s w; [done|].
  simpl. by rewrite (bind_ok _ _ _ _ _ (Hbody s w)).
Qed.

(** The same for a body that may not end: the loop raises nothing, it ends
    when every turn does, and then [n] pairs have been appended. *)
Lemma for_range_partial_grows (body : pair_lists -> M (option pair_lists))
    (ends : Prop) P (label : Z) :
  (forall s w, exists r w',
      body s w = (Ok r, w') /\ (ends -> is_Some r)
      /\ forall s', r = Some s' -> grown P label 1 s s') ->
  forall n s w, exists r w',
    for_range_partial n body s w = (Ok r, w') /\ (ends -> is_Some r)
    /\ forall s', r = Some s' -> grown P label n s s'.
Proof.
  intros Hbody n. induction n as [|n IH]; intros s w.
  - exists (Some s), w. split; [done|]. split; [by eexists|].
    intros s' [= <-]. apply grown_refl.
  - destruct (Hbody s w) as (r1 & w1 & H1 & He1 & Hg1).
    cbn [for_range_partial]. rewrite (bind_ok _ _ _ _ _ H1).
    destruct r1 as [s1|].
    + destruct (IH s1 w1) as (r2 & w2 & H2 & He2 & Hg2).
      exists r2, w2. split; [done|]. split; [done|].
      intros s' Hs'. apply (grown_trans P label 1 n s s1 s'); auto.
    + exists None, w1. by split.
Qed.

Lemma for_range_partial_idle {S} (body : S -> M (option S)) :
  (forall s w, body s w = (Ok (Some s), w)) ->
  forall n s w, for_range_partial n body s w = (Ok (Some s), w).
Proof.
  intros Hbody n. induction n as [|n IH]; intros s w; [done|].
  cbn [for_range_partial]. by rewrite (bind_ok _ _ _ _ _ (Hbody s w)).
Qed.

Lemma same_pool_loop_spec (E : oracle) (fuel : nat) (images : list path)
    (label : Z) (num_pairs : Z) (s : pair_lists) (w : world) :
  exists r w',
    for_range_partial (range_len (num_pairs / 4))
                      (same_pool_pair E fuel images label) s w
    = (Ok r, w')
    /\ (sampling_ends E fuel images -> is_Some r)
    /\ forall s', r = Some s' ->
         grown (distinct_pair images) label (same_pool_pairs images num_pairs)
               s s'.
Proof.
  unfold same_pool_pairs. destruct (2 <=? length images)%nat eqn:Hlen.
  - apply for_range_partial_grows. intros s0 w0.
    pose proof (same_pool_pair_spec E fuel images label s0 w0) as H.
    by rewrite Hlen in H.
  - exists (Some s), w. split; [|split; [by eexists|]].
    + apply for_range_partial_idle. intros s0 w0.
      pose proof (same_pool_pair_spec E fuel images label s0 w0) as H.
      by rewrite Hlen in H.
    + intros s' [= <-]. apply grown_refl.
Qed.

Lemma cross_pool_loop_spec (E : oracle)
    (authentic_images counterfeit_images : list path) (num_pairs : Z)
    (s : pair_lists) (w : world) :
  exists s' d,
    for_range (range_len (num_pairs / 2))
              (cross_pool_pair E authentic_images counterfeit_images) s w
    = (Ok s', add_draws d w)
    /\ grown (cross_pair authentic_images counterfeit_images) 0
             (cross_pairs authentic_images counterfeit_images num_pairs) s s'.
Proof.
  unfold cross_pairs.
  destruct ((0 <? length authentic_images)%nat && (0 <? length counterfeit_images)%nat)
    eqn:Hlen.
  - destruct (for_range_grows
                (cross_pool_pair E authentic_images counterfeit_images)
                (cross_pair authentic_images counterfeit_images) 0 2)
      with (n := range_len (num_pairs / 2)) (s := s) (w := w) as (s' & Hs' & Hg).
    { intros s0 w0.
      pose proof (cross_pool_pair_spec E authentic_images counterfeit_images s0 w0) as H.
      by rewrite Hlen in H. }
    by exists s', (range_len (num_pairs / 2) * 2)%nat.
  - exists s, 0%nat. rewrite add_draws_0. split; [|apply grown_refl].
    apply for_range_idle. intros s0 w0.
    pose proof (cross_pool_pair_spec E authentic_images counterfeit_images s0 w0) as H.
    by rewrite Hlen in H.
Qed.

(** The three loops one after the other: nothing is raised; the result is
    there when both samplings end; it is made of the pairs of the first
    loop, of the second and of the third, with their labels. *)
Lemma create_siamese_pairs_run (E : oracle) (fuel : nat)
    (authentic_images counterfeit_images : list path) (num_pairs : Z) (w : world) :
  exists r w',
    create_siamese_pairs E fuel authentic_images counterfeit_images num_pairs w
    = (Ok r, w')
    /\ (sampling_ends E fuel authentic_images ->
        sampling_ends E fuel counterfeit_images -> is_Some r)
    /\ forall pairs labels, r = Some (pairs, labels) ->
         exists new1 new2 new3,
           pairs = new1 ++ new2 ++ new3
           /\ labels = replicate (length new1) 1 ++ replicate (length new2) 0
                       ++ replicate (length new3) 0
           /\ length new1 = same_pool_pairs authentic_images num_pairs
           /\ length new2
              = cross_pairs authentic_images counterfeit_images num_pairs
           /\ length new3 = same_pool_pairs counterfeit_images num_pairs
           /\ Forall (distinct_pair authentic_images) new1
           /\ Forall (cross_pair authentic_images counterfeit_images) new2
           /\ Forall (distinct_pair counterfeit_images) new3.
Proof.
  unfold create_siamese_pairs.
  destruct (same_pool_loop_spec E fuel authentic_images 1 num_pairs ([], []) w)
    as (r1 & w1 & H1 & He1 & Hg1).
  rewrite (bind_ok _ _ _ _ _ H1). destruct r1 as [s1|].
  2: { exists None, w1. split; [done|]. split; [|done].
       intros Ha _. by destruct (He1 Ha). }
  destruct (Hg1 s1 eq_refl) as (new1 & Hp1 & Hl1 & Hf1 & Hb1).
  destruct (cross_pool_loop_spec E authentic_images counterfeit_images num_pairs
              s1 w1)
    as (s2 & d2 & H2 & new2 & Hp2 & Hl2 & Hf2 & Hb2).
  rewrite (bind_ok _ _ _ _ _ H2).
  destruct (same_pool_loop_spec E fuel counterfeit_images 0 num_pairs s2
              (add_draws d2 w1))
    as (r3 & w3 & H3 & He3 & Hg3).
  rewrite (bind_ok _ _ _ _ _ H3). destruct r3 as [s3|].
  2: { exists None, w3. split; [done|]. split; [|done].
       intros _ Hc. by destruct (He3 Hc). }
  destruct (Hg3 s3 eq_refl) as (new3 & Hp3 & Hl3 & Hf3 & Hb3).
  eexists (Some s3), _. split; [reflexivity|]. split; [by eexists|].
  intros pairs labels [= ->]. simpl in *.
  exists new1, new2, new3. split_and!; try done.
  - by rewrite Hp3, Hp2, Hp1, <- app_assoc.
  - by rewrite Hb3, Hb2, Hb1, Hl1, Hl2, Hl3, <- app_assoc.
Qed.

Lemma pair_budget (num_pairs : Z) :
  Z.of_nat (range_len (num_pairs / 4) + range_len (num_pairs / 2)
            + range_len (num_pairs / 4)) <= Z.max 0 num_pairs.
Proof.
  unfold range_len.
  pose proof (Z.div_mod num_pairs 4 ltac:(lia)).
  pose proof (Z.mod_pos_bound num_pairs 4 ltac:(lia)).
  pose proof (Z.div_mod num_pairs 2 ltac:(lia)).
  pose proof (Z.mod_pos_bound num_pairs 2 ltac:(lia)).
  lia.
Qed.

Lemma same_pool_pairs_le images num_pairs :
  (same_pool_pairs images num_pairs <= range_len (num_pairs / 4))%nat.
Proof. unfold same_pool_pairs. destruct (_ <=? _)%nat; lia. Qed.

Lemma cross_pairs_le authentic_images counterfeit_images num_pairs :
  (cross_pairs authentic_images counterfeit_images num_pairs
   <= range_len (num_pairs / 2))%nat.
Proof. unfold cross_pairs. destruct (_ && _); lia. Qed.

Lemma distinct_pair_length pool p : distinct_pair pool p -> length p = 2%nat.
Proof. by intros (i & j & a & b & _ & _ & _ & ->). Qed.

Lemma cross_pair_length pool1 pool2 p : cross_pair pool1 pool2 p -> length p = 2%nat.
Proof. by intros (a & b & _ & _ & ->). Qed.

(** The demonstration generator gives a new one of twenty-two indices at
    every draw. *)
Lemma demo_oracle_varies (fuel : nat) : varies demo_oracle 22 fuel.
Proof.
  intros d. exists 1%nat. split; [lia|].
  change ((7 * (d + 1) + 3) `mod` 22 <> (7 * d + 3) `mod` 22)%nat.
  intros Heq.
  pose proof (Nat.div_mod_eq (7 * (d + 1) + 3) 22) as H1.
  pose proof (Nat.div_mod_eq (7 * d + 3) 22) as H2.
  rewrite Heq in H1. lia.
Qed.

(** C5, as amended: [create_siamese_pairs] raises nothing, and it returns
    when each of the two samplings ends: always for a pool of at most 21
    images, which [random.sample] copies, and for a larger pool when the
    generator gives a new index within the turns allowed to
    [while j in selected].  What it returns is pairs of two strings and
    as many labels, at most [max(numPairs, 0)] of them; the labels are
    [numPairs // 4] ones when the authentic pool has two items or more (none
    otherwise), then [numPairs // 2] zeros when neither pool is empty (none
    otherwise), then [numPairs // 4] zeros when the counterfeit pool has two
    items or more (none otherwise), a negative quotient counting for zero;
    so every label is 0 or 1, and with an empty counterfeit pool there are
    only ones, [max(numPairs // 4, 0)] of them when the authentic pool has
    two items or more. *)
Theorem create_siamese_pairs_counts (E : oracle) (fuel : nat)
    (authentic_images counterfeit_images : list path) (num_pairs : Z) (w : world) :
  exists r w',
    create_siamese_pairs E fuel authentic_images counterfeit_images num_pairs w
    = (Ok r, w')
    /\ (sampling_ends E fuel authentic_images ->
        sampling_ends E fuel counterfeit_images ->
        exists pairs labels, r = Some (pairs, labels))
    /\ forall pairs labels, r = Some (pairs, labels) ->
         length pairs = length labels
         /\ Z.of_nat (length pairs) <= Z.max 0 num_pairs
         /\ Forall (fun p => length p = 2%nat) pairs
         /\ Forall (fun label => label = 0 \/ label = 1) labels
         /\ labels =
              replicate (same_pool_pairs authentic_images num_pairs) 1
              ++ replicate (cross_pairs authentic_images counterfeit_images
                                        num_pairs) 0
              ++ replicate (same_pool_pairs counterfeit_images num_pairs) 0
         /\ (counterfeit_images = [] ->
             labels = replicate (same_pool_pairs authentic_images num_pairs) 1
             /\ ((2 <= length authentic_images)%nat ->
                 Z.of_nat (length pairs) = Z.max 0 (num_pairs / 4))).
Proof.
  destruct (create_siamese_pairs_run E fuel authentic_images counterfeit_images
              num_pairs w) as (r & w' & Hrun & Hends & Hres).
  exists r, w'. split; [exact Hrun|]. split.
  { intros Ha Hc. destruct (Hends Ha Hc) as [[pairs labels] ->].
    by exists pairs, labels. }
  intros pairs labels Hr.
  destruct (Hres pairs labels Hr)
    as (new1 & new2 & new3 & Hpairs & Hlabels0 & Hl1 & Hl2 & Hl3 & Hf1 & Hf2 & Hf3).
  assert (labels =
            replicate (same_pool_pairs authentic_images num_pairs) 1
            ++ replicate (cross_pairs authentic_images counterfeit_images num_pairs) 0
            ++ replicate (same_pool_pairs counterfeit_images num_pairs) 0)
    as Hlabels by (by rewrite Hlabels0, Hl1, Hl2, Hl3).
  assert (length pairs =
            (same_pool_pairs authentic_images num_pairs
             + cross_pairs authentic_images counterfeit_images num_pairs
             + same_pool_pairs counterfeit_images num_pairs)%nat) as Hlen
    by (rewrite Hpairs, !length_app; lia).
  split_and!.
  - rewrite Hlen, Hlabels, !length_app, !length_replicate. lia.
  - pose proof (pair_budget num_pairs).
    pose proof (same_pool_pairs_le authentic_images num_pairs).
    pose proof (same_pool_pairs_le counterfeit_images num_pairs).
    pose proof (cross_pairs_le authentic_images counterfeit_images num_pairs).
    lia.
  - rewrite Hpairs. repeat apply Forall_app_2.
    + eapply Forall_impl; [exact Hf1|]. intros p. apply distinct_pair_length.
    + eapply Forall_impl; [exact Hf2|]. intros p. apply cross_pair_length.
    + eapply Forall_impl; [exact Hf3|]. intros p. apply distinct_pair_length.
  - rewrite Hlabels. repeat apply Forall_app_2; apply Forall_replicate; auto.
  - exact Hlabels.
  - intros ->. split.
    + rewrite Hlabels. unfold cross_pairs, same_pool_pairs at 2 3.
      simpl. rewrite andb_false_r. simpl. by rewrite app_nil_r.
    + intros Hpool. rewrite Hlen. unfold cross_pairs, same_pool_pairs.
      rewrite (proj2 (Nat.leb_le _ _) Hpool).
      change (0 <? length (@nil path))%nat with false.
      change (2 <=? length (@nil path))%nat with false.
      rewrite andb_false_r. unfold range_len. lia.
Qed.

Lemma create_siamese_pairs_counts_witness :
  sampling_ends demo_oracle 0 many_files
  /\ sampling_ends demo_oracle 0 (@nil path)
  /\ exists pairs w',
       create_siamese_pairs demo_oracle 0 many_files [] 10 empty_world
       = (Ok (Some (pairs, [1; 1])), w')
       /\ length pairs = 2%nat.
Proof.
  assert (sampling_ends demo_oracle 0 many_files) as Ha
    by (right; apply demo_oracle_varies).
  assert (sampling_ends demo_oracle 0 (@nil path)) as Hc
    by (left; simpl; lia).
  split; [exact Ha|]. split; [exact Hc|].
  destruct (create_siamese_pairs_counts demo_oracle 0 many_files [] 10 empty_world)
    as (r & w' & Hrun & Hends & Hres).
  destruct (Hends Ha Hc) as (pairs & labels & ->).
  destruct (Hres pairs labels eq_refl) as (Hlen & _ & _ & _ & _ & Hempty).
  destruct (Hempty eq_refl) as [Hlabels _].
  exists pairs, w'. rewrite Hlen, Hrun, Hlabels. split; reflexivity.
Defined.

(** C5 as stated fails for a negative [numPairs]: no pair is produced, and
    zero is neither at most [-1] nor equal to [-1 // 4 = -1]. *)
Lemma create_siamese_pairs_negative :
  (2 <= length three_files)%nat
  /\ -1 / 4 = -1
  /\ exists w',
       create_siamese_pairs demo_oracle 0 three_files [] (-1) empty_world
       = (Ok (Some ([], [])), w')
       /\ ~ (Z.of_nat (length (@nil (list string))) <= -1)
       /\ Z.of_nat (length (@nil (list string))) <> -1 / 4.
Proof.
  split; [simpl; lia|]. split; [reflexivity|].
  eexists. split; [vm_compute; reflexivity|]. split; [simpl; lia|].
  by vm_compute.
Qed.

(** The two ways of [random.sample] on the draws 17, 17, 39, 24: of
    twenty-two images the second index is drawn three times, the call makes
    four draws and returns the images 17 and 2, and with one turn allowed
    instead of two it has not returned; of twenty-one images the pool gives
    the image 17 and the one that took its place, the last one. *)
Example sample_draws_again :
  sample stuttering_oracle 2 many_files 2 empty_world
  = (Ok (Some [["img17.jpg"]; ["img2.jpg"]]), add_draws 4 empty_world)
  /\ (sample stuttering_oracle 1 many_files 2 empty_world).1 = Ok None
  /\ sample stuttering_oracle 2 (take 21 many_files) 2 empty_world
     = (Ok (Some [["img17.jpg"]; ["img20.jpg"]]), add_draws 2 empty_world).
Proof. split_and!; vm_compute; reflexivity. Qed.

(** ** The orchestrator's dictionary is touched by assignments only *)

Lemma set_fs_id (w : world) : set_fs (fs w) w = w.
Proof. by destruct w. Qed.

Lemma mkdir_from_orch (above : path) (below : list string) (w : world) :
  orch (mkdir_from above below w).2 = orch w.
Proof.
  revert above w. induction below as [|c below IH]; intros above w; [done|].
  simpl. destruct (fs w !! (above ++ [c])) as [[|content]|]; [apply IH|done|].
  by rewrite IH.
Qed.

Lemma write_file_orch (p : path) (content : string) (w : world) :
  orch (write_file p content w).2 = orch w.
Proof. unfold write_file. by repeat case_match. Qed.

Lemma append_file_orch (p : path) (s : string) (w : world) :
  orch (append_file p s w).2 = orch w.
Proof. unfold append_file. by repeat case_match. Qed.

Lemma stream_orch (E : oracle) (model_name : string) (p : path)
    (lines : list string) (read_error : option exn) (w : world) :
  orch (stream E model_name p lines read_error w).2 = orch w.
Proof.
  revert w. induction lines as [|line lines IH]; intros w.
  - simpl. by destruct read_error.
  - simpl. destruct (String.eqb line ""); [done|].
    unfold bind at 1. simpl. unfold bind at 1. simpl. unfold bind at 1.
    match goal with |- context [append_file ?p ?s ?w0] =>
      pose proof (append_file_orch p s w0) as Ha;
      destruct (append_file p s w0) as [[[]|e] w1] end.
    + by rewrite IH.
    + done.
Qed.

Lemma set_status_spec (model_name : string) (s : job_status) (w : world)
    (j : job_info) :
  training_status w !! model_name = Some j ->
  set_status model_name s w =
    (Ok tt, World (fs w) (ticks w) (draws w) (spawned w) (logged w)
                  (<[model_name := with_status s j]> (training_status w))
                  (status_writes w ++ [(model_name, s)])).
Proof. unfold set_status. by intros ->. Qed.

Lemma set_key_spec (model_name : string) (f : job_info -> job_info) (w : world)
    (j : job_info) :
  training_status w !! model_name = Some j ->
  set_key model_name f w =
    (Ok tt, set_training_status (<[model_name := f j]> (training_status w)) w).
Proof. unfold set_key. by intros ->. Qed.

Ltac orch_solve := unfold orch in *; simpl in *; congruence.

Lemma mkdir_from_spawned (above : path) (below : list string) (w : world) :
  spawned (mkdir_from above below w).2 = spawned w.
Proof.
  revert above w. induction below as [|c below IH]; intros above w; [done|].
  simpl. destruct (fs w !! (above ++ [c])) as [[|content]|]; [apply IH|done|].
  by rewrite IH.
Qed.

(** The [try] block either raises and leaves the dictionary alone, or ends
    with the return code of the child and one assignment to the status. *)
Lemma run_training_orch (E : oracle) (project_root : path)
    (model_name script_name config_name : string) (w : world) (j : job_info) :
  training_status w !! model_name = Some j ->
  exists r w',
    run_training E project_root model_name script_name config_name w = (r, w')
    /\ match r with
       | Err e => orch w' = orch w
       | Ok b =>
           exists lines read_error returncode,
             process E (length (spawned w)) = Runs lines read_error returncode
             /\ b = (returncode =? 0)
             /\ orch w' =
                  (<[model_name :=
                       if b then with_status completed j
                       else with_error ("Process exited with code "
                                        +:+ pretty returncode)
                                       (with_status failed j)]>
                     (training_status w),
                   status_writes w
                   ++ [(model_name, if b then completed else failed)])
       end.
Proof.
  intros Hj. unfold run_training.
  unfold bind at 1.
  pose proof (mkdir_from_orch [] (models_dir project_root ++ [model_name]) w) as Hmk.
  pose proof (mkdir_from_spawned [] (models_dir project_root ++ [model_name]) w) as Hsp.
  unfold mkdir_parents.
  destruct (mkdir_from [] (models_dir project_root ++ [model_name]) w)
    as [[[]|e] w2]; [|by eexists _, _].
  unfold bind at 1. simpl. unfold bind at 1. unfold popen. simpl.
  simpl in Hsp. rewrite Hsp.
  destruct (process E (length (spawned w))) as [e|lines read_error returncode];
    [eexists _, _; split; [done|orch_solve]|].
  unfold bind at 1.
  match goal with |- context [write_file ?p ?s ?w0] =>
    pose proof (write_file_orch p s w0) as Hwr;
    destruct (write_file p s w0) as [[[]|e] w3] end;
    [|eexists _, _; split; [done|orch_solve]].
  unfold bind at 1.
  match goal with |- context [stream ?E ?n ?p ?l ?re ?w0] =>
    pose proof (stream_orch E n p l re w0) as Hst;
    destruct (stream E n p l re w0) as [[[]|e] w4] end;
    [|eexists _, _; split; [done|orch_solve]].
  assert (orch w4 = orch w) as Hw4 by orch_solve.
  assert (training_status w4 !! model_name = Some j) as Hj4 by orch_solve.
  destruct (returncode =? 0) eqn:Hrc.
  - rewrite (bind_ok _ _ _ _ _ (set_status_spec _ _ _ _ Hj4)).
    eexists _, _. split; [done|]. exists lines, read_error, returncode.
    rewrite Hrc. split; [done|]. split; [done|]. orch_solve.
  - rewrite (bind_ok _ _ _ _ _ (set_status_spec _ _ _ _ Hj4)).
    erewrite bind_ok; last first.
    { apply set_key_spec. simpl. apply lookup_insert_eq. }
    eexists _, _. split; [done|]. exists lines, read_error, returncode.
    rewrite Hrc. split; [done|]. split; [done|].
    unfold orch in *. simpl in *. rewrite insert_insert_eq. congruence.
Qed.

Lemma train_model_enter (E : oracle) (project_root : path)
    (model_name script_name config_name : string) (w : world) (j : job_info) :
  training_status w !! model_name = Some j ->
  train_model E project_root model_name script_name config_name w =
    finally
      (catch (run_training E project_root model_name script_name config_name)
             (on_exception model_name))
      (t <- datetime_now E ;; set_key model_name (with_end_time t))
      (before_try E model_name j w).
Proof.
  intros Hj. unfold train_model.
  unfold bind at 1. simpl.
  erewrite bind_ok; last first.
  { apply set_status_spec. simpl. exact Hj. }
  unfold bind at 1. simpl.
  erewrite bind_ok; last first.
  { apply set_key_spec. simpl. apply lookup_insert_eq. }
  unfold set_training_status, before_try. simpl.
  by rewrite insert_insert_eq.
Qed.

Lemma train_model_cases (E : oracle) (project_root : path)
    (model_name script_name config_name : string) (w : world) (j : job_info) :
  training_status w !! model_name = Some j ->
  exists r w2 w' j',
    run_training E project_root model_name script_name config_name
                 (before_try E model_name j w) = (r, w2)
    /\ train_model E project_root model_name script_name config_name w
       = (Ok (verdict r), w')
    /\ fs w' = fs w2
    /\ orch w' = (<[model_name := j']> (training_status w),
                  status_writes w ++ [(model_name, running); (model_name, status j')])
    /\ status j' = (if verdict r then completed else failed)
    /\ start_time j' = Some (now E (ticks w))
    /\ end_time j' = Some (now E (ticks w2))
    /\ match r with
       | Err e => error j' = Some (str_exn e)
       | Ok b =>
           exists lines read_error returncode,
             process E (length (spawned w)) = Runs lines read_error returncode
             /\ b = (returncode =? 0)
             /\ error j' = if b then error j
                           else Some ("Process exited with code " +:+ pretty returncode)
       end.
Proof.
  intros Hj. rewrite (train_model_enter _ _ _ _ _ _ _ Hj).
  set (j1 := with_start_time (now E (ticks w)) (with_status running j)).
  assert (training_status (before_try E model_name j w) !! model_name = Some j1)
    as Hj1 by apply lookup_insert_eq.
  destruct (run_training_orch E project_root model_name script_name config_name
              _ _ Hj1) as (r & w2 & Hrun & Hr).
  exists r, w2. unfold finally, catch. rewrite Hrun.
  destruct r as [b|e].
  - destruct Hr as (lines & read_error & returncode & Hproc & Hb & Horch).
    set (j2 := if b then with_status completed j1
               else with_error ("Process exited with code " +:+ pretty returncode)
                               (with_status failed j1)) in *.
    assert (training_status w2 !! model_name = Some j2) as Hj2.
    { unfold orch in Horch. injection Horch as -> _. apply lookup_insert_eq. }
    unfold bind at 1. simpl.
    erewrite set_key_spec; last (simpl; exact Hj2).
    eexists _, (with_end_time (now E (ticks w2)) j2).
    split; [done|]. split; [done|]. split; [done|].
    unfold orch in *. simpl in *. injection Horch as -> ->.
    rewrite !insert_insert_eq, <- !app_assoc. simpl.
    split; [by destruct b|]. split; [by destruct b|]. split; [by destruct b|].
    split; [done|]. exists lines, read_error, returncode. by destruct b.
  - unfold on_exception.
    assert (training_status w2 !! model_name = Some j1) as Hj2 by orch_solve.
    rewrite (bind_ok _ _ _ _ _ (set_status_spec _ _ _ _ Hj2)).
    erewrite bind_ok; last first.
    { apply set_key_spec. simpl. apply lookup_insert_eq. }
    unfold bind at 1. simpl. unfold bind at 1. simpl.
    erewrite set_key_spec; last (simpl; apply lookup_insert_eq).
    eexists _, (with_end_time (now E (ticks w2))
                  (with_error (str_exn e) (with_status failed j1))).
    split; [done|]. split; [done|]. split; [done|].
    unfold orch in *. simpl in *. injection Hr as -> ->.
    rewrite !insert_insert_eq, <- !app_assoc. done.
Qed.

(** ** The loop of [train_all_models] *)

(** What [train_model] does to the dictionary and to its history. *)
Lemma train_model_step (E : oracle) (project_root : path)
    (model_name script_name config_name : string) (w : world) :
  is_Some (training_status w !! model_name) ->
  exists b w' j',
    train_model E project_root model_name script_name config_name w = (Ok b, w')
    /\ training_status w' = <[model_name := j']> (training_status w)
    /\ status_writes w' =
         status_writes w
         ++ [(model_name, running); (model_name, if b then completed else failed)]
    /\ status j' = (if b then completed else failed)
    /\ is_Some (end_time j').
Proof.
  intros [j Hj].
  destruct (train_model_cases E project_root model_name script_name config_name
              w j Hj)
    as (r & w2 & w' & j' & _ & Hrun & _ & Horch & Hst & _ & Hend & _).
  exists (verdict r), w', j'. unfold orch in Horch. injection Horch as Hts Hwr.
  rewrite Hst in Hwr. by rewrite Hend.
Qed.

Lemma finished_insert (w w' : world) (model_name n : string) (j' : job_info) :
  training_status w' = <[model_name := j']> (training_status w) ->
  is_terminal (status j') = true -> is_Some (end_time j') ->
  finished w n \/ n = model_name -> finished w' n.
Proof.
  intros Hts Hterm Hend Hn. unfold finished. rewrite Hts.
  destruct (decide (n = model_name)) as [->|Hne].
  - exists j'. by rewrite lookup_insert_eq.
  - rewrite lookup_insert_ne by done. by destruct Hn.
Qed.

Lemma registry_ok_insert (w w' : world) (model_name : string) (j' : job_info) :
  training_status w' = <[model_name := j']> (training_status w) ->
  registry_ok w -> registry_ok w'.
Proof.
  intros Hts Hok n Hn. rewrite Hts.
  destruct (decide (model_name = n)) as [->|Hne].
  - by rewrite lookup_insert_eq.
  - rewrite lookup_insert_ne by done. by apply Hok.
Qed.

Lemma successes_cons n (o : option bool) l :
  successes ((n, o) :: l) =
    match o with Some true => n :: successes l | _ => successes l end.
Proof.
  unfold successes. rewrite filter_cons. simpl.
  destruct o as [[]|]; by case_decide.
Qed.

Lemma failures_cons n (o : option bool) l :
  failures ((n, o) :: l) =
    match o with Some true => failures l | _ => n :: failures l end.
Proof.
  unfold failures. rewrite filter_cons. simpl.
  destruct o as [[]|]; by case_decide.
Qed.

Lemma train_loop_spec (E : oracle) (project_root : path)
    (models_to_train successful_models failed_models : list string) (w : world) :
  registry_ok w ->
  exists outcomes w',
    train_loop E project_root models_to_train successful_models failed_models w
    = (Ok (successful_models ++ successes outcomes,
           failed_models ++ failures outcomes), w')
    /\ map fst outcomes = models_to_train
    /\ Forall (fun x => x.2 = None <-> model_configs !! x.1 = None) outcomes
    /\ status_writes w' = status_writes w ++ concat (map writes_of outcomes)
    /\ registry_ok w'
    /\ (forall n, finished w n -> finished w' n)
    /\ (forall n, n ∈ models_to_train -> is_Some (model_configs !! n) ->
                  finished w' n).
Proof.
  revert successful_models failed_models w.
  induction models_to_train as [|model_name rest IH];
    intros successful_models failed_models w Hok.
  - exists [], w. simpl. rewrite !app_nil_r.
    split_and!; try done. intros n Hn. by apply elem_of_nil in Hn.
  - simpl. destruct (model_configs !! model_name) as [[script_name config_name]|]
      eqn:Hcfg.
    + destruct (train_model_step E project_root model_name script_name config_name w)
        as (b & w1 & j' & Hrun & Hts & Hwr & Hst & Hend).
      { apply Hok. by rewrite Hcfg. }
      assert (is_terminal (status j') = true) as Hterm
        by (rewrite Hst; by destruct b).
      pose proof (registry_ok_insert _ _ _ _ Hts Hok) as Hok1.
      rewrite (bind_ok _ _ _ _ _ Hrun). destruct b.
      * destruct (IH (successful_models ++ [model_name]) failed_models w1 Hok1)
          as (outcomes & w' & Hloop & Hnames & Hknown & Hwrites & Hok' & Hkeep & Hfin).
        exists ((model_name, Some true) :: outcomes), w'.
        split_and!.
        -- by rewrite Hloop, successes_cons, failures_cons, <- app_assoc.
        -- simpl. by rewrite Hnames.
        -- constructor; [|done]. simpl. rewrite Hcfg. split; discriminate.
        -- rewrite Hwrites, Hwr. simpl. by rewrite <- app_assoc.
        -- done.
        -- intros n Hn. apply Hkeep. eapply finished_insert; eauto.
        -- intros n Hn Hcn. apply elem_of_cons in Hn as [->|Hn]; [|by apply Hfin].
           apply Hkeep. eapply finished_insert; eauto.
      * unfold bind at 1. simpl.
        match goal with |- context [train_loop _ _ _ _ _ ?w0] =>
          destruct (IH successful_models (failed_models ++ [model_name]) w0)
            as (outcomes & w' & Hloop & Hnames & Hknown & Hwrites & Hok' & Hkeep & Hfin)
        end.
        { intros n Hn. simpl. by apply Hok1. }
        exists ((model_name, Some false) :: outcomes), w'.
        split_and!.
        -- by rewrite Hloop, successes_cons, failures_cons, <- app_assoc.
        -- simpl. by rewrite Hnames.
        -- constructor; [|done]. simpl. rewrite Hcfg. split; discriminate.
        -- rewrite Hwrites. simpl. rewrite Hwr. by rewrite <- app_assoc.
        -- done.
        -- intros n Hn. apply Hkeep. unfold finished. simpl.
           eapply (finished_insert w w1); eauto.
        -- intros n Hn Hcn. apply elem_of_cons in Hn as [->|Hn]; [|by apply Hfin].
           apply Hkeep. unfold finished. simpl.
           eapply (finished_insert w w1); eauto.
    + unfold bind at 1. simpl.
      match goal with |- context [train_loop _ _ _ _ _ ?w0] =>
        destruct (IH successful_models (failed_models ++ [model_name]) w0)
          as (outcomes & w' & Hloop & Hnames & Hknown & Hwrites & Hok' & Hkeep & Hfin)
      end.
      { intros n Hn. simpl. by apply Hok. }
      exists ((model_name, None) :: outcomes), w'.
      split_and!.
      * by rewrite Hloop, successes_cons, failures_cons, <- app_assoc.
      * simpl. by rewrite Hnames.
      * constructor; [|done]. simpl. by rewrite Hcfg.
      * by rewrite Hwrites.
      * done.
      * intros n Hn. by apply Hkeep.
      * intros n Hn Hcn. apply elem_of_cons in Hn as [->|Hn]; [|by apply Hfin].
        rewrite Hcfg in Hcn. by destruct Hcn.
Qed.


Lemma unknown_in_failures (outcomes : list (string * option bool)) (n : string) :
  Forall (fun x => x.2 = None <-> model_configs !! x.1 = None) outcomes ->
  n ∈ map fst outcomes -> model_configs !! n = None ->
  n ∈ failures outcomes /\ n ∉ successes outcomes.
Proof.
  intros Hknown Hn Hcfg. induction outcomes as [|[m o] l IH]; simpl in *.
  { by apply elem_of_nil in Hn. }
  apply Forall_cons in Hknown as [Hm Hl]. simpl in Hm.
  rewrite successes_cons, failures_cons.
  destruct (decide (n = m)) as [->|Hne].
  - apply Hm in Hcfg as ->. split; [by left|].
    destruct (decide (m ∈ map fst l)) as [Hin|Hnotin]; [by apply IH|].
    intros Hs. apply Hnotin. unfold successes in Hs.
    apply list_elem_of_fmap in Hs as ([m' o'] & -> & Hs).
    apply list_elem_of_filter in Hs as [_ Hs].
    apply list_elem_of_fmap. by exists (m', o').
  - apply elem_of_cons in Hn as [?|Hn]; [done|].
    destruct (IH Hl Hn) as [Hf Hs].
    destruct o as [[]|];
      (split; [first [done|by right]|first [done|by apply not_elem_of_cons]]).
Qed.

Lemma writes_of_known (outcomes : list (string * option bool)) (n : string)
    (s : job_status) :
  Forall (fun x => x.2 = None <-> model_configs !! x.1 = None) outcomes ->
  (n, s) ∈ concat (map writes_of outcomes) -> is_Some (model_configs !! n).
Proof.
  intros Hknown Hin. induction outcomes as [|[m o] l IH]; simpl in *.
  { by apply elem_of_nil in Hin. }
  apply Forall_cons in Hknown as [Hm Hl]. simpl in Hm.
  apply elem_of_app in Hin as [Hin|Hin]; [|by apply IH].
  unfold writes_of in Hin. simpl in Hin. destruct o as [b|].
  - assert (n = m) as ->.
    { apply elem_of_cons in Hin as [[= ->]|Hin]; [done|].
      apply elem_of_cons in Hin as [[= ->]|Hin]; [done|].
      by apply elem_of_nil in Hin. }
    destruct (model_configs !! m) eqn:Hcfg; [done|].
    destruct Hm as [_ Hm]. by specialize (Hm eq_refl).
  - by apply elem_of_nil in Hin.
Qed.

Lemma job_writes_app n l1 l2 :
  job_writes n (l1 ++ l2) = job_writes n l1 ++ job_writes n l2.
Proof. unfold job_writes. by rewrite filter_app, map_app. Qed.

Lemma job_writes_absent (outcomes : list (string * option bool)) (n : string) :
  n ∉ map fst outcomes -> job_writes n (concat (map writes_of outcomes)) = [].
Proof.
  induction outcomes as [|[m o] l IH]; [done|]. simpl.
  intros Hn. apply not_elem_of_cons in Hn as [Hne Hn].
  rewrite job_writes_app, (IH Hn), app_nil_r.
  unfold writes_of, job_writes. simpl. destruct o; [|done].
  rewrite !filter_cons. simpl. repeat case_decide; done.
Qed.

Lemma job_writes_once (outcomes : list (string * option bool)) (n : string) :
  NoDup (map fst outcomes) ->
  job_writes n (concat (map writes_of outcomes)) = []
  \/ job_writes n (concat (map writes_of outcomes)) = [running; completed]
  \/ job_writes n (concat (map writes_of outcomes)) = [running; failed].
Proof.
  induction outcomes as [|[m o] l IH]; [by left|]. simpl.
  intros [Hm Hl]%NoDup_cons. rewrite job_writes_app.
  destruct (decide (n = m)) as [->|Hne].
  - rewrite (job_writes_absent l m Hm), app_nil_r.
    unfold writes_of, job_writes. simpl. destruct o as [[]|]; [| |by left].
    + right; left. rewrite !filter_cons. simpl. by repeat case_decide.
    + right; right. rewrite !filter_cons. simpl. by repeat case_decide.
  - replace (job_writes n (writes_of (m, o))) with (@nil job_status); [by apply IH|].
    unfold writes_of, job_writes. simpl. destruct o; [|done].
    rewrite !filter_cons. simpl. repeat case_decide; done.
Qed.

(** ** [check_prerequisites] *)

Lemma log_spec (l : level) (msg : string) (w : world) :
  log l msg w = (Ok tt, add_log [(l, msg)] w).
Proof. done. Qed.

Lemma add_log_add_log (l1 l2 : list (level * string)) (w : world) :
  add_log l2 (add_log l1 w) = add_log (l1 ++ l2) w.
Proof. unfold add_log. simpl. by rewrite app_assoc. Qed.

Lemma add_log_nil (w : world) : add_log [] w = w.
Proof. destruct w. unfold add_log. simpl. by rewrite app_nil_r. Qed.

Lemma path_exists_spec (p : path) (w : world) :
  path_exists p w = (Ok (negb (missing (fs w) p)), w).
Proof. unfold path_exists, missing. by rewrite negb_involutive. Qed.

Lemma find_app_first {A : Type} (f : A -> bool) (l1 l2 : list A) :
  List.find f (l1 ++ l2) =
    match List.find f l1 with
    | Some x => Some x
    | None => List.find f l2
    end.
Proof. induction l1 as [|x l1 IH]; [done|]. simpl. by destruct (f x). Qed.

Lemma find_tagged (f : gmap path node) (what : string) (l : list path) :
  first_missing f (map (pair what) l) =
    option_map (pair what) (List.find (missing f) l).
Proof.
  unfold first_missing. induction l as [|x l IH]; [done|].
  simpl. by destruct (missing f x).
Qed.

Lemma require_all_spec (what : string) (ps : list path) (w : world) :
  require_all what ps w =
    match List.find (missing (fs w)) ps with
    | Some p => (Ok false, add_log [(ERROR, what +:+ str_path p)] w)
    | None => (Ok true, w)
    end.
Proof.
  induction ps as [|p ps IH]; [done|].
  simpl. rewrite (bind_ok _ _ _ _ _ (path_exists_spec p w)).
  rewrite negb_involutive. destruct (missing (fs w) p); [|done].
  by rewrite (bind_ok _ _ _ _ _ (log_spec _ _ _)).
Qed.

Lemma warn_missing_data_spec (d : path) (w : world) :
  warn_missing_data d w =
    (Ok tt,
     add_log (if missing (fs w) d
              then [(WARNING, "Data directory missing: " +:+ str_path d);
                    (WARNING, "Training may fail without proper data setup")]
              else []) w).
Proof.
  unfold warn_missing_data. rewrite (bind_ok _ _ _ _ _ (path_exists_spec d w)).
  rewrite negb_involutive. destruct (missing (fs w) d).
  - rewrite (bind_ok _ _ _ _ _ (log_spec _ _ _)), log_spec.
    by rewrite add_log_add_log.
  - by rewrite add_log_nil.
Qed.

Lemma warn_all_spec (ds : list path) (w : world) :
  for_each ds warn_missing_data w =
    (Ok tt,
     add_log (flat_map
                (fun d => if missing (fs w) d
                          then [(WARNING, "Data directory missing: " +:+ str_path d);
                                (WARNING, "Training may fail without proper data setup")]
                          else []) ds) w).
Proof.
  revert w. induction ds as [|d ds IH]; intros w.
  - simpl. by rewrite add_log_nil.
  - simpl. rewrite (bind_ok _ _ _ _ _ (warn_missing_data_spec d w)).
    rewrite IH. by rewrite add_log_add_log.
Qed.

(** C6, as amended: [check_prerequisites] stops at the first missing item
    among the required directories (scripts, configs and the data
    directory), the three scripts and the three configuration files, in this
    order: it logs one error, for that item, and returns false.  When none
    of them is missing it returns true, and logs two warnings for each
    missing subdirectory of the images ([authentic], [counterfeit]).
    Nothing but the log changes. *)
Theorem check_prerequisites_spec (project_root : path) (w : world) :
  check_prerequisites project_root w =
    match first_missing (fs w) (required_items project_root) with
    | Some (what, p) =>
        (Ok false,
         add_log [(INFO, "Checking training prerequisites...");
                  (ERROR, what +:+ str_path p)] w)
    | None =>
        (Ok true,
         add_log ([(INFO, "Checking training prerequisites...")]
                  ++ data_warnings (fs w) project_root
                  ++ [(INFO, "✅ Prerequisites check completed")]) w)
    end.
Proof.
  unfold check_prerequisites, required_items.
  rewrite (bind_ok _ _ _ _ _ (log_spec _ _ _)).
  unfold first_missing. rewrite !find_app_first.
  fold (first_missing (fs w)
          (map (pair "Required directory missing: ") (required_dirs project_root))).
  fold (first_missing (fs w)
          (map (pair "Required training script missing: ")
               (script_paths project_root))).
  fold (first_missing (fs w)
          (map (pair "Required config file missing: ")
               (config_paths project_root))).
  rewrite !find_tagged.
  unfold bind at 1. rewrite require_all_spec. simpl (fs _).
  destruct (List.find (missing (fs w)) (required_dirs project_root)) as [p|].
  { cbn [option_map negb]. unfold ret. by rewrite add_log_add_log. }
  cbn [negb]. unfold bind at 1. rewrite require_all_spec. simpl (fs _).
  destruct (List.find (missing (fs w)) (script_paths project_root)) as [p|].
  { cbn [option_map negb]. unfold ret. by rewrite add_log_add_log. }
  cbn [negb]. unfold bind at 1. rewrite require_all_spec. simpl (fs _).
  destruct (List.find (missing (fs w)) (config_paths project_root)) as [p|].
  { cbn [option_map negb]. unfold ret. by rewrite add_log_add_log. }
  cbn [negb]. unfold bind at 1. rewrite warn_all_spec.
  rewrite (bind_ok _ _ _ _ _ (log_spec _ _ _)).
  unfold ret, data_warnings. cbn [option_map]. simpl (fs _).
  by rewrite !add_log_add_log.
Qed.

(** C6 as stated fails on the data directory: with every script and
    configuration file in place and only [data] absent the check returns
    false, with an error; and with nothing in place there is one error, for
    the scripts directory, not one per missing item. *)
Lemma check_prerequisites_data_dir_required :
  forallb (fun p => negb (missing tools_fs p))
          ([scripts_dir project; configs_dir project]
           ++ script_paths project ++ config_paths project) = true
  /\ missing tools_fs (data_dir project) = true
  /\ (check_prerequisites project (World tools_fs 0 0 [] [] ∅ [])).1 = Ok false
  /\ logged (check_prerequisites project (World tools_fs 0 0 [] [] ∅ [])).2 =
       [(INFO, "Checking training prerequisites...");
        (ERROR, "Required directory missing: /srv/shield-drug/data")]
  /\ (check_prerequisites project empty_world).1 = Ok false
  /\ logged (check_prerequisites project empty_world).2 =
       [(INFO, "Checking training prerequisites...");
        (ERROR, "Required directory missing: /srv/shield-drug/training/scripts")].
Proof. split_and!; vm_compute; reflexivity. Qed.

(** ** [prepare] and [main] *)

Lemma registry_ok_initial (w : world) :
  training_status w = initial_training_status -> registry_ok w.
Proof.
  intros Hts n [cfg Hn]. rewrite Hts.
  unfold model_configs in Hn. unfold initial_training_status.
  repeat (rewrite lookup_insert in Hn; rewrite lookup_insert;
          case_decide; [by eauto|]).
  by rewrite lookup_empty in Hn.
Qed.


(** [check_prerequisites] returns, and only adds records to the log. *)
Lemma check_prerequisites_run (project_root : path) (w : world) :
  exists ok records,
    check_prerequisites project_root w = (Ok ok, add_log records w).
Proof.
  unfold check_prerequisites.
  rewrite (bind_ok _ _ _ _ _ (log_spec _ _ _)).
  unfold bind at 1. rewrite require_all_spec.
  destruct (List.find _ _) as [p|].
  { cbn [negb]. unfold ret. rewrite add_log_add_log. by eexists _, _. }
  cbn [negb]. unfold bind at 1. rewrite require_all_spec.
  destruct (List.find _ _) as [p|].
  { cbn [negb]. unfold ret. rewrite add_log_add_log. by eexists _, _. }
  cbn [negb]. unfold bind at 1. rewrite require_all_spec.
  destruct (List.find _ _) as [p|].
  { cbn [negb]. unfold ret. rewrite add_log_add_log. by eexists _, _. }
  cbn [negb]. unfold bind at 1. rewrite warn_all_spec.
  rewrite (bind_ok _ _ _ _ _ (log_spec _ _ _)).
  unfold ret. rewrite !add_log_add_log. by eexists _, _.
Qed.


(** ** The orchestration loop: results, history, final statuses *)

(** C10: for a model that has an entry, [train_model] returns (it does not
    raise, whatever the child and the file system do), and then the entry
    has an end time and the status [completed] or [failed]; hence after
    [train_all_models] every requested model of the registry has such an
    entry, and none is left [running]. *)
Theorem train_model_always_ends (E : oracle) (project_root : path) :
  (forall (model_name script_name config_name : string) (w : world),
      is_Some (training_status w !! model_name) ->
      exists b w',
        train_model E project_root model_name script_name config_name w
        = (Ok b, w')
        /\ finished w' model_name)
  /\ (forall (models_to_train : option (list string)) (w : world),
         registry_ok w ->
         exists lists w',
           train_all_models E project_root models_to_train w = (Ok lists, w')
           /\ forall n, n ∈ default default_models models_to_train ->
                        is_Some (model_configs !! n) ->
                        finished w' n
                        /\ exists j, training_status w' !! n = Some j
                                     /\ status j <> running).
Proof.
  split.
  - intros model_name script_name config_name w Hj.
    destruct (train_model_step E project_root model_name script_name config_name
                w Hj) as (b & w' & j' & Hrun & Hts & _ & Hst & Hend).
    exists b, w'. split; [done|]. exists j'. rewrite Hts, lookup_insert_eq.
    split; [done|]. split; [|done]. rewrite Hst. by destruct b.
  - intros models_to_train w Hok. unfold train_all_models.
    destruct (train_loop_spec E project_root
                (default default_models models_to_train) [] [] w Hok)
      as (outcomes & w' & Hloop & _ & _ & _ & _ & _ & Hfin).
    eexists _, w'. split; [exact Hloop|].
    intros n Hn Hcfg. pose proof (Hfin n Hn Hcfg) as Hf. split; [done|].
    destruct Hf as (j & Hj & Hterm & _). exists j. split; [done|].
    by destruct (status j).
Qed.

Lemma train_model_always_ends_witness :
  exists lists w',
    train_all_models demo_oracle project None ready_world = (Ok lists, w')
    /\ finished w' "pill_detector".
Proof.
  destruct (train_model_always_ends demo_oracle project) as [_ Hall].
  destruct (Hall None ready_world) as (lists & w' & Hrun & Hfin).
  - by apply registry_ok_initial.
  - exists lists, w'. split; [exact Hrun|]. apply Hfin.
    + apply (bool_decide_unpack _). vm_compute. exact I.
    + vm_compute. eauto.
Defined.

(** A computation that ends well, in terms of its two projections. *)
Lemma run_ok {A} (m : M A) (w : world) (d : A) :
  (match (m w).1 with Ok _ => true | Err _ => false end) = true ->
  m w = (Ok (match (m w).1 with Ok a => a | Err _ => d end), (m w).2).
Proof. by destruct (m w) as [[a|e] w']. Qed.





(** C9: a requested name that the registry does not know costs one error
    record and nothing else: the loop goes on with the next names from the
    same world, with the name added to the failed list; so the name is in
    the failed list returned, it is not in the successful one, and no status
    was ever assigned for it ([train_model] was not entered for it). *)
Theorem unknown_model_is_skipped (E : oracle) (project_root : path)
    (model_name : string) (rest successful_models failed_models : list string)
    (w : world) :
  model_configs !! model_name = None ->
  train_loop E project_root (model_name :: rest) successful_models failed_models w
  = train_loop E project_root rest successful_models
               (failed_models ++ [model_name])
               (add_log [(ERROR, "Unknown model: " +:+ model_name)] w)
  /\ (registry_ok w ->
      exists successful_models' failed_models' new w',
        train_loop E project_root (model_name :: rest)
                   successful_models failed_models w
        = (Ok (successful_models ++ successful_models',
               failed_models ++ failed_models'), w')
        /\ model_name ∈ failed_models'
        /\ (model_name ∉ successful_models')
        /\ status_writes w' = status_writes w ++ new
        /\ forall s, ~ ((model_name, s) ∈ new)).
Proof.
  intros Hcfg. split.
  - simpl. by rewrite Hcfg.
  - intros Hok.
    destruct (train_loop_spec E project_root (model_name :: rest)
                successful_models failed_models w Hok)
      as (outcomes & w' & Hloop & Hnames & Hknown & Hwrites & _).
    exists (successes outcomes), (failures outcomes),
      (concat (map writes_of outcomes)), w'.
    split; [done|].
    destruct (unknown_in_failures outcomes model_name Hknown) as [Hf Hs];
      [rewrite Hnames; by left|done|].
    split_and!; try done.
    intros s Hin. apply (writes_of_known _ _ _ Hknown) in Hin.
    rewrite Hcfg in Hin. by destruct Hin.
Qed.

Lemma unknown_model_is_skipped_witness :
  exists successful_models failed_models w',
    train_loop demo_oracle project ["no_such_model"; "pill_detector"] [] []
               ready_world
    = (Ok (successful_models, failed_models), w')
    /\ "no_such_model" ∈ failed_models
    /\ "no_such_model" ∉ successful_models.
Proof.
  destruct (unknown_model_is_skipped demo_oracle project "no_such_model"
              ["pill_detector"] [] [] ready_world) as [_ Hrun].
  - vm_compute; reflexivity.
  - destruct Hrun as (s & f & new & w' & Hrun & Hf & Hs & _).
    + apply registry_ok_initial. reflexivity.
    + rewrite !app_nil_l in Hrun. exists s, f, w'.
      split; [exact Hrun|]. split; [exact Hf|exact Hs].
Defined.

(** C7, as amended: on an orchestrator whose jobs are all [pending], for
    every sequence of requested names without a repetition, the statuses
    assigned to a job by the loop are none at all, or [running] then
    [completed], or [running] then [failed]; so the history of every job,
    from [pending] on, never goes back. *)
Theorem status_history_one_directional (E : oracle) (project_root : path)
    (models_to_train : list string) (w : world) :
  NoDup models_to_train ->
  training_status w = initial_training_status ->
  exists lists new w',
    train_all_models E project_root (Some models_to_train) w = (Ok lists, w')
    /\ status_writes w' = status_writes w ++ new
    /\ forall n,
        (job_writes n new = []
         \/ job_writes n new = [running; completed]
         \/ job_writes n new = [running; failed])
        /\ one_directional (pending :: job_writes n new) = true.
Proof.
  intros Hnodup Hinit. unfold train_all_models. simpl.
  destruct (train_loop_spec E project_root models_to_train [] [] w)
    as (outcomes & w' & Hloop & Hnames & _ & Hwrites & _);
    [by apply registry_ok_initial|].
  eexists _, (concat (map writes_of outcomes)), w'.
  split; [exact Hloop|]. split; [done|].
  intros n. rewrite <- Hnames in Hnodup.
  destruct (job_writes_once outcomes n Hnodup) as [H|[H|H]]; rewrite H; auto.
Qed.

Lemma status_history_one_directional_witness :
  exists lists new w',
    train_all_models demo_oracle project
                     (Some ["pill_detector"; "no_such_model"; "drug_classifier"])
                     ready_world = (Ok lists, w')
    /\ status_writes w' = new
    /\ one_directional (pending :: job_writes "drug_classifier" new) = true.
Proof.
  destruct (status_history_one_directional demo_oracle project
              ["pill_detector"; "no_such_model"; "drug_classifier"] ready_world)
    as (lists & new & w' & Hrun & Hwrites & Hnew).
  - apply (bool_decide_unpack _). vm_compute. exact I.
  - reflexivity.
  - exists lists, new, w'. split; [exact Hrun|]. split; [exact Hwrites|].
    apply Hnew.
Defined.

(** C7 as stated fails when a name is requested twice: the job is set back
    to [running] after it was [completed]. *)
Lemma rerun_goes_back_to_running :
  (train_all_models demo_oracle project
                    (Some ["drug_classifier"; "drug_classifier"]) ready_world).1
  = Ok (["drug_classifier"], ["drug_classifier"])
  /\ status_writes
       (train_all_models demo_oracle project
                         (Some ["drug_classifier"; "drug_classifier"])
                         ready_world).2
     = [("drug_classifier", running); ("drug_classifier", completed);
        ("drug_classifier", running); ("drug_classifier", failed)]
  /\ one_directional
       (pending :: job_writes "drug_classifier"
          (status_writes
             (train_all_models demo_oracle project
                               (Some ["drug_classifier"; "drug_classifier"])
                               ready_world).2))
     = false.
Proof. split_and!; vm_compute; reflexivity. Qed.

(** ** The file system during one run *)

Lemma string_app_nil_r (s : string) : s +:+ "" = s.
Proof.
  induction s as [|a s IH]; [done|].
  change (String a s +:+ "") with (String a (s +:+ "")). by rewrite IH.
Qed.

Lemma string_app_assoc (s1 s2 s3 : string) :
  (s1 +:+ s2) +:+ s3 = s1 +:+ (s2 +:+ s3).
Proof.
  induction s1 as [|a s1 IH]; [done|].
  change (String a ((s1 +:+ s2) +:+ s3) = String a (s1 +:+ (s2 +:+ s3))).
  by rewrite IH.
Qed.

Lemma parent_snoc (p : path) (c : string) : parent (p ++ [c]) = p.
Proof.
  unfold parent. rewrite length_app. simpl.
  replace (length p + 1 - 1)%nat with (length p) by lia.
  by rewrite take_app_length.
Qed.

Lemma creatable_insert (f : gmap path node) (q : path) (n : node)
    (above : path) (below : list string) :
  (length q <= length above)%nat ->
  creatable (<[q:=n]> f) above below = creatable f above below.
Proof.
  revert above. induction below as [|c below IH]; intros above Hq; [done|].
  simpl. rewrite lookup_insert_ne.
  - rewrite IH; [done|]. rewrite length_app. simpl. lia.
  - intros ->. rewrite length_app in Hq. simpl in Hq. lia.
Qed.

(** When no prefix is a file, the directories are made, the target is a
    directory, and no longer path is touched. *)
Lemma mkdir_from_ok (above : path) (below : list string) (w : world) :
  creatable (fs w) above below = true ->
  node_is_dir (lookup_node (fs w) above) = true ->
  exists f,
    mkdir_from above below w = (Ok tt, set_fs f w)
    /\ node_is_dir (lookup_node f (above ++ below)) = true
    /\ forall q, (length (above ++ below) < length q)%nat -> f !! q = fs w !! q.
Proof.
  revert above w. induction below as [|c below IH]; intros above w Hcr Hdir.
  - exists (fs w). rewrite set_fs_id, app_nil_r. done.
  - simpl in Hcr. simpl.
    assert (forall f, lookup_node f (above ++ [c]) = f !! (above ++ [c])) as Hnode
      by (intros f; by destruct above).
    replace (above ++ c :: below) with ((above ++ [c]) ++ below)
      by (by rewrite <- app_assoc).
    destruct (fs w !! (above ++ [c])) as [[|content]|] eqn:Hp; [|done|].
    + apply (IH (above ++ [c]) w Hcr). by rewrite Hnode, Hp.
    + destruct (IH (above ++ [c]) (set_fs (<[above ++ [c]:=Dir]> (fs w)) w))
        as (f & Hrun & Hf & Hframe).
      * simpl. by rewrite creatable_insert.
      * simpl. by rewrite Hnode, lookup_insert_eq.
      * exists f. split; [by rewrite Hrun|]. split; [done|].
        intros q Hq. rewrite (Hframe q Hq). simpl.
        apply lookup_insert_ne. intros <-. rewrite length_app in Hq. lia.
Qed.

Lemma stream_error_cons (line : string) (lines : list string)
    (read_error : option exn) :
  stream_error (line :: lines) read_error =
    if String.eqb line "" then None else stream_error lines read_error.
Proof. unfold stream_error. simpl. by destruct (String.eqb line ""). Qed.

(** The loop appends one entry for each line it sees and ends with the read
    error, if there is one. *)
Lemma stream_spec (E : oracle) (model_name : string) (p : path)
    (lines : list string) (read_error : option exn) (w : world) (c : string) :
  fs w !! p = Some (File c) ->
  exists w',
    stream E model_name p lines read_error w
    = (match stream_error lines read_error with
       | Some e => Err e
       | None => Ok tt
       end, w')
    /\ fs w' !! p = Some (File (c +:+ log_entries E (ticks w) (lines_read lines))).
Proof.
  revert w c. induction lines as [|line lines IH]; intros w c Hp.
  - exists w. simpl. rewrite string_app_nil_r. split; [|done].
    unfold stream_error. simpl. by destruct read_error.
  - simpl. rewrite stream_error_cons.
    destruct (String.eqb line "").
    + exists w. by rewrite string_app_nil_r.
    + unfold bind at 1. simpl. unfold bind at 1. simpl. unfold bind at 1.
      unfold append_file at 1. simpl. rewrite Hp.
      match goal with |- context [stream _ _ _ _ _ ?w0] =>
        destruct (IH w0 (c +:+ isoformat E (now E (ticks w)) +:+ " - "
                         +:+ strip line +:+ "\n")) as (w' & Hrun & Hfile)
      end.
      { simpl. apply lookup_insert_eq. }
      exists w'. split; [exact Hrun|]. rewrite Hfile. simpl.
      by rewrite !string_app_assoc.
Qed.

Lemma popen_spec (E : oracle) (cmd : list string) (w : world) :
  popen E cmd w =
    (match process E (length (spawned w)) with
     | PopenRaises e => Err e
     | b => Ok b
     end,
     World (fs w) (ticks w) (draws w) (spawned w ++ [cmd]) (logged w)
           (training_status w) (status_writes w)).
Proof. unfold popen. by destruct (process E (length (spawned w))). Qed.

Lemma write_file_ok (p : path) (content : string) (w : world) :
  node_is_dir (lookup_node (fs w) p) = false ->
  node_is_dir (lookup_node (fs w) (parent p)) = true ->
  write_file p content w = (Ok tt, set_fs (<[p:=File content]> (fs w)) w).
Proof. unfold write_file. by intros -> ->. Qed.

(** What the [try] block does when the output directory can be made and
    the log file can be opened. *)
Lemma run_training_result (E : oracle) (project_root : path)
    (model_name script_name config_name : string) (w : world) (j : job_info) :
  training_status w !! model_name = Some j ->
  creatable (fs w) [] (output_dir project_root model_name) = true ->
  node_is_dir (fs w !! log_file_path project_root model_name) = false ->
  exists r w',
    run_training E project_root model_name script_name config_name w = (r, w')
    /\ match process E (length (spawned w)) with
       | PopenRaises e => r = Err e
       | Runs lines read_error returncode =>
           r = match stream_error lines read_error with
               | Some e => Err e
               | None => Ok (returncode =? 0)
               end
           /\ fs w' !! log_file_path project_root model_name
              = Some (File (log_entries E (ticks w) (lines_read lines)))
       end.
Proof.
  intros Hj Hcr Hlog. unfold run_training.
  destruct (mkdir_from_ok [] (output_dir project_root model_name) w Hcr eq_refl)
    as (f & Hmk & Hdir & Hframe).
  unfold mkdir_parents. fold (output_dir project_root model_name).
  rewrite (bind_ok _ _ _ _ _ Hmk).
  rewrite (bind_ok _ _ _ _ _ (log_spec _ _ _)).
  unfold bind at 1. rewrite popen_spec.
  change (spawned (add_log _ (set_fs f w))) with (spawned w).
  destruct (process E (length (spawned w))) as [e|lines read_error returncode];
    [by eexists _, _|].
  fold (log_file_path project_root model_name).
  assert (lookup_node f (log_file_path project_root model_name)
          = fs w !! log_file_path project_root model_name) as Hnode.
  { unfold log_file_path.
    destruct (output_dir project_root model_name); simpl; apply Hframe;
      simpl; rewrite ?length_app; simpl; lia. }
  erewrite bind_ok; last first.
  { apply write_file_ok.
    - cbn [fs add_log set_fs]. by rewrite Hnode.
    - cbn [fs add_log set_fs]. unfold log_file_path. by rewrite parent_snoc. }
  unfold bind at 1.
  match goal with |- context [stream ?E ?n ?p ?l ?re ?w0] =>
    destruct (stream_spec E n p l re w0 "") as (w5 & Hst & Hfile);
      [cbn [fs add_log set_fs]; apply lookup_insert_eq|];
    pose proof (stream_orch E n p l re w0) as Horch
  end.
  rewrite Hst in Horch. rewrite Hst. cbn [ticks add_log set_fs] in Hfile.
  change ("" +:+ ?x) with x in Hfile.
  destruct (stream_error lines read_error) as [e|]; [by eexists _, w5|].
  assert (training_status w5 !! model_name = Some j) as Hj5 by orch_solve.
  destruct (returncode =? 0).
  - rewrite (bind_ok _ _ _ _ _ (set_status_spec _ _ _ _ Hj5)).
    eexists _, _. split; [done|]. split; [done|]. exact Hfile.
  - rewrite (bind_ok _ _ _ _ _ (set_status_spec _ _ _ _ Hj5)).
    erewrite bind_ok; last first.
    { apply set_key_spec. simpl. apply lookup_insert_eq. }
    eexists _, _. split; [done|]. split; [done|]. exact Hfile.
Qed.

(** ** One run of [train_model] *)

(** C3: when the output directory can be made and the log file opened,
    [train_model] classifies the run by what the child did: if [Popen]
    raised, or a read raised while streaming, the job is [failed] with the
    text of the exception as its error and the result is [False]; if the
    child ended with return code 0 the job is [completed] and the result is
    [True]; with any other return code the job is [failed], its error names
    the code, and the result is [False]. *)
Theorem train_model_outcome (E : oracle) (project_root : path)
    (model_name script_name config_name : string) (w : world) (j : job_info) :
  training_status w !! model_name = Some j ->
  creatable (fs w) [] (output_dir project_root model_name) = true ->
  node_is_dir (fs w !! log_file_path project_root model_name) = false ->
  exists b w' j',
    train_model E project_root model_name script_name config_name w = (Ok b, w')
    /\ training_status w' !! model_name = Some j'
    /\ match process E (length (spawned w)) with
       | PopenRaises e =>
           b = false /\ status j' = failed /\ error j' = Some (str_exn e)
       | Runs lines read_error returncode =>
           match stream_error lines read_error with
           | Some e =>
               b = false /\ status j' = failed /\ error j' = Some (str_exn e)
           | None =>
               if returncode =? 0
               then b = true /\ status j' = completed
               else b = false /\ status j' = failed
                    /\ error j' = Some ("Process exited with code "
                                        +:+ pretty returncode)
           end
       end.
Proof.
  intros Hj Hcr Hlog.
  destruct (train_model_cases E project_root model_name script_name config_name
              w j Hj)
    as (r & w2 & w' & j' & Htry & Hrun & _ & Horch & Hst & _ & _ & Herr).
  destruct (run_training_result E project_root model_name script_name config_name
              (before_try E model_name j w)
              (with_start_time (now E (ticks w)) (with_status running j)))
    as (r' & w2' & Htry' & Hres);
    [apply lookup_insert_eq|exact Hcr|exact Hlog|].
  rewrite Htry in Htry'. injection Htry' as <- <-.
  change (spawned (before_try E model_name j w)) with (spawned w) in Hres.
  exists (verdict r), w', j'. split; [exact Hrun|]. split.
  { unfold orch in Horch. injection Horch as -> _. apply lookup_insert_eq. }
  destruct (process E (length (spawned w))) as [e|lines read_error returncode].
  - subst r. by rewrite Hst.
  - destruct Hres as [-> _].
    destruct (stream_error lines read_error) as [e|]; [by rewrite Hst|].
    destruct Herr as (lines' & read_error' & returncode' & [= <- <- <-] & _ & Herr).
    simpl in Hst. rewrite Hst, Herr. by destruct (returncode =? 0).
Qed.

Lemma train_model_outcome_witness :
  exists w' j',
    train_model demo_oracle project "drug_classifier" "train_drug_classifier.py"
                "drug_classifier_config.json" ready_world = (Ok true, w')
    /\ training_status w' !! "drug_classifier" = Some j'
    /\ status j' = completed.
Proof.
  destruct (train_model_outcome demo_oracle project "drug_classifier"
              "train_drug_classifier.py" "drug_classifier_config.json"
              ready_world fresh_job)
    as (b & w' & j' & Hrun & Hj' & Hcase).
  - vm_compute; reflexivity.
  - vm_compute; reflexivity.
  - vm_compute; reflexivity.
  - vm_compute in Hcase. destruct Hcase as [-> Hst]. exists w', j'.
    split; [exact Hrun|]. split; [exact Hj'|exact Hst].
Defined.

(** Whatever the [try] block raises, be it from the file system, the job
    is [failed] with the text of the exception. *)
Lemma train_model_on_exception (E : oracle) (project_root : path)
    (model_name script_name config_name : string) (w w2 : world) (j : job_info)
    (e : exn) :
  training_status w !! model_name = Some j ->
  run_training E project_root model_name script_name config_name
               (before_try E model_name j w) = (Err e, w2) ->
  exists w' j',
    train_model E project_root model_name script_name config_name w
    = (Ok false, w')
    /\ training_status w' !! model_name = Some j'
    /\ status j' = failed /\ error j' = Some (str_exn e).
Proof.
  intros Hj Htry.
  destruct (train_model_cases E project_root model_name script_name config_name
              w j Hj)
    as (r & w2' & w' & j' & Htry' & Hrun & _ & Horch & Hst & _ & _ & Herr).
  rewrite Htry in Htry'. injection Htry' as <- <-.
  exists w', j'. split; [exact Hrun|]. split; [|done].
  unfold orch in Horch. injection Horch as -> _. apply lookup_insert_eq.
Qed.

(** C8, as amended: the log file is opened for writing, which empties it;
    after a run whose child was started the file holds the entries of this
    run, one for each line read, in the order of the lines, each with the
    clock reading made when the line was received, and nothing of what it
    held before. *)
Theorem log_file_holds_this_run (E : oracle) (project_root : path)
    (model_name script_name config_name : string) (w : world) (j : job_info)
    (lines : list string) (read_error : option exn) (returncode : Z) :
  training_status w !! model_name = Some j ->
  creatable (fs w) [] (output_dir project_root model_name) = true ->
  node_is_dir (fs w !! log_file_path project_root model_name) = false ->
  process E (length (spawned w)) = Runs lines read_error returncode ->
  exists b w',
    train_model E project_root model_name script_name config_name w = (Ok b, w')
    /\ fs w' !! log_file_path project_root model_name
       = Some (File (log_entries E (S (ticks w)) (lines_read lines))).
Proof.
  intros Hj Hcr Hlog Hproc.
  destruct (train_model_cases E project_root model_name script_name config_name
              w j Hj)
    as (r & w2 & w' & j' & Htry & Hrun & Hfs & _).
  destruct (run_training_result E project_root model_name script_name config_name
              (before_try E model_name j w)
              (with_start_time (now E (ticks w)) (with_status running j)))
    as (r' & w2' & Htry' & Hres);
    [apply lookup_insert_eq|exact Hcr|exact Hlog|].
  rewrite Htry in Htry'. injection Htry' as <- <-.
  change (spawned (before_try E model_name j w)) with (spawned w) in Hres.
  rewrite Hproc in Hres. destruct Hres as [_ Hfile].
  exists (verdict r), w'. split; [exact Hrun|]. by rewrite Hfs.
Qed.

Lemma log_file_holds_this_run_witness :
  exists b w',
    train_model demo_oracle project "drug_classifier" "train_drug_classifier.py"
                "drug_classifier_config.json" rerun_world = (Ok b, w')
    /\ fs w' !! log_file_path project "drug_classifier"
       = Some (File "T1001 - epoch 1\nT1002 - epoch 2\n").
Proof.
  destruct (log_file_holds_this_run demo_oracle project "drug_classifier"
              "train_drug_classifier.py" "drug_classifier_config.json"
              rerun_world fresh_job ["epoch 1"; "epoch 2"] None 0)
    as (b & w' & Hrun & Hfile).
  - vm_compute; reflexivity.
  - vm_compute; reflexivity.
  - vm_compute; reflexivity.
  - reflexivity.
  - exists b, w'. split; [exact Hrun|]. rewrite Hfile.
    vm_compute; reflexivity.
Defined.

(** C8 as stated fails: the entry that was in the log file before the run
    is not in it after the run. *)
Lemma log_file_is_emptied_first :
  fs rerun_world !! log_file_path project "drug_classifier"
  = Some (File "old entry\n")
  /\ (train_model demo_oracle project "drug_classifier" "train_drug_classifier.py"
                  "drug_classifier_config.json" rerun_world).1 = Ok true
  /\ fs (train_model demo_oracle project "drug_classifier"
                     "train_drug_classifier.py" "drug_classifier_config.json"
                     rerun_world).2
     !! log_file_path project "drug_classifier"
     = Some (File "T1001 - epoch 1\nT1002 - epoch 2\n")
  /\ String.prefix "old entry\n" "T1001 - epoch 1\nT1002 - epoch 2\n" = false.
Proof. split_and!; vm_compute; reflexivity. Qed.

(** What is written is the line without the white space around it, the
    white space outside ASCII included: here a no-break space (U+00A0)
    before the text, an em space (U+2003) and the end of the line after
    it. *)
Example strip_unicode_space :
  strip (String (ascii_of_nat 194) (String (ascii_of_nat 160) " epoch 1")
         +:+ String (ascii_of_nat 226)
               (String (ascii_of_nat 128) (String (ascii_of_nat 131)
                  (String (ascii_of_nat 10) ""))))
  = "epoch 1".
Proof. vm_compute. reflexivity. Qed.

(** * Further properties of the code *)

(** ** Relations kept by every step of a computation *)

Section Respects.
Context (R : world -> world -> Prop) `{!PreOrder R}.

Lemma respects_ret {A} (a : A) : respects R (ret a).
Proof. intros w. reflexivity. Qed.

Lemma respects_raise {A} (e : exn) : respects R (@raise A e).
Proof. intros w. reflexivity. Qed.

Lemma respects_lift {A} (r : result A) : respects R (lift r).
Proof. intros w. reflexivity. Qed.

Lemma respects_bind {A B} (m : M A) (k : A -> M B) :
  respects R m -> (forall a, respects R (k a)) -> respects R (bind m k).
Proof.
  intros Hm Hk w. unfold bind. specialize (Hm w).
  destruct (m w) as [[a|e] w1]; [|done].
  etrans; [exact Hm|apply Hk].
Qed.

Lemma respects_catch {A} (m : M A) (h : exn -> M A) :
  respects R m -> (forall e, respects R (h e)) -> respects R (catch m h).
Proof.
  intros Hm Hh w. unfold catch. specialize (Hm w).
  destruct (m w) as [[a|e] w1]; [done|].
  etrans; [exact Hm|apply Hh].
Qed.

Lemma respects_finally {A} (m : M A) (f : M unit) :
  respects R m -> respects R f -> respects R (finally m f).
Proof.
  intros Hm Hf w. unfold finally. specialize (Hm w).
  destruct (m w) as [r w1]. specialize (Hf w1).
  destruct (f w1) as [[[]|e] w2]; simpl in *; by etrans.
Qed.

Lemma respects_for_each {A} (l : list A) (body : A -> M unit) :
  (forall x, respects R (body x)) -> respects R (for_each l body).
Proof.
  intros Hbody. induction l as [|x l IH]; [apply respects_ret|].
  simpl. apply respects_bind; [apply Hbody|]. by intros _.
Qed.

End Respects.

#[global] Instance keeps_preorder (P : path -> Prop) : PreOrder (keeps P).
Proof.
  split.
  - by intros w q n _ Hq.
  - intros w1 w2 w3 H12 H23 q n HP Hq. apply H23; [done|]. by apply H12.
Qed.

#[global] Instance same_fs_preorder : PreOrder same_fs.
Proof.
  split; [by intros w|]. intros w1 w2 w3 H12 H23. unfold same_fs in *. congruence.
Qed.

#[global] Instance same_spawned_preorder : PreOrder same_spawned.
Proof.
  split; [by intros w|]. intros w1 w2 w3 H12 H23.
  unfold same_spawned in *. congruence.
Qed.

#[global] Instance later_preorder : PreOrder later.
Proof.
  split; [intros w; unfold later; lia|].
  intros w1 w2 w3 H12 H23. unfold later in *. lia.
Qed.

Lemma same_fs_keeps {A} (P : path -> Prop) (m : M A) :
  respects same_fs m -> respects (keeps P) m.
Proof. intros Hm w q n _ Hq. by rewrite (Hm w). Qed.

(** The steps that leave the file system alone. *)
Lemma log_same_fs l msg : respects same_fs (log l msg).
Proof. by intros w. Qed.

Lemma path_exists_same_fs p : respects same_fs (path_exists p).
Proof. by intros w. Qed.

Lemma is_dir_same_fs p : respects same_fs (is_dir p).
Proof. by intros w. Qed.

Lemma glob_all_same_fs d : respects same_fs (glob_all d).
Proof. by intros w. Qed.

Lemma glob_ext_same_fs d ext : respects same_fs (glob_ext d ext).
Proof. by intros w. Qed.

Lemma count_rglob_ext_same_fs d ext : respects same_fs (count_rglob_ext d ext).
Proof. by intros w. Qed.

Lemma datetime_now_same_fs E : respects same_fs (datetime_now E).
Proof. by intros w. Qed.

Lemma randbelow_same_fs E n : respects same_fs (randbelow E n).
Proof. by intros w. Qed.

Lemma shuffle_same_fs {A} E (x : list A) : respects same_fs (shuffle E x).
Proof.
  unfold shuffle. generalize (length x - 1)%nat as i. intros i. revert x.
  induction i as [|i IH]; intros x; [apply respects_ret; apply _|].
  simpl. apply respects_bind; [apply _|apply randbelow_same_fs|].
  intros j. apply IH.
Qed.

Lemma split_files_same_fs {A} E (image_files : list A) train_ratio val_ratio :
  respects same_fs (split_files E image_files train_ratio val_ratio).
Proof.
  unfold split_files.
  apply respects_bind; [apply _|apply shuffle_same_fs|]. intros shuffled.
  apply respects_bind; [apply _|apply respects_lift; apply _|]. intros n_train.
  apply respects_bind; [apply _|apply respects_lift; apply _|]. intros n_val.
  apply respects_ret; apply _.
Qed.

Ltac respects_bind := apply respects_bind; [apply _| |intros ?].
Ltac respects_done := first [apply respects_ret; apply _|apply respects_raise; apply _].

(** The steps that write: where they write. *)
Lemma mkdir_from_keeps (P : path -> Prop) (above : path) (below : list string) :
  respects (keeps P) (mkdir_from above below).
Proof.
  revert above. induction below as [|c below IH]; intros above w;
    [by intros q n _ Hq|].
  simpl. destruct (fs w !! (above ++ [c])) as [[|content]|] eqn:Hp.
  - apply IH.
  - by intros q n _ Hq.
  - intros q n HP Hq. apply (IH (above ++ [c])); [done|]. simpl.
    rewrite lookup_insert_ne; [done|]. intros Heq. rewrite Heq in Hp.
    unfold path in *. rewrite Hq in Hp. discriminate.
Qed.

Lemma write_file_keeps (P : path -> Prop) (p : path) (content : string) :
  ~ P p -> respects (keeps P) (write_file p content).
Proof.
  intros HP w q n Hq Hfs. unfold write_file. repeat case_match; simpl; try done.
  rewrite lookup_insert_ne; [done|]. by intros <-.
Qed.

Lemma copy2_keeps (P : path -> Prop) (src dst : path) :
  ~ P dst -> ~ P (dst ++ [name src]) -> respects (keeps P) (copy2 src dst).
Proof.
  intros Hdst Hdst' w. unfold copy2.
  destruct (lookup_node (fs w) src) as [[|content]|]; try by intros q n _ Hq.
  case_bool_decide; [by intros q n _ Hq|].
  apply write_file_keeps. by destruct (node_is_dir _).
Qed.

Lemma outside_below (d : path) (below : list string) : ~ outside d (d ++ below).
Proof. intros H. apply H. by apply prefix_app_r. Qed.

(** ** [split_dataset] leaves the images where they are *)

Lemma copy_split_keeps (project_root : path) (dataset_type category_name : string)
    (split : string * list path) :
  respects (keeps (outside (processed_dir project_root)))
           (copy_split project_root dataset_type category_name split).
Proof.
  destruct split as [split_name file_list]. unfold copy_split.
  respects_bind; [apply mkdir_from_keeps|].
  apply respects_for_each; [apply _|]. intros img_file.
  apply copy2_keeps; rewrite <- ?app_assoc; apply outside_below.
Qed.

Lemma split_category_keeps (E : oracle) (project_root : path)
    (train_ratio val_ratio : PyFloat.float) (dataset_type : string)
    (category_dir : path) :
  respects (keeps (outside (processed_dir project_root)))
           (split_category E project_root train_ratio val_ratio dataset_type
                           category_dir).
Proof.
  unfold split_category.
  respects_bind; [apply same_fs_keeps, is_dir_same_fs|].
  destruct (negb _); [respects_done|].
  do 4 (respects_bind; [apply same_fs_keeps, glob_ext_same_fs|]).
  destruct (_ ++ _ ++ _ ++ _); [respects_done|].
  respects_bind; [apply same_fs_keeps, split_files_same_fs|].
  match goal with a : (_ * _ * _)%type |- _ => destruct a as [[tr va] te] end.
  respects_bind.
  - apply respects_for_each; [apply _|]. intros split. apply copy_split_keeps.
  - apply same_fs_keeps, log_same_fs.
Qed.

Lemma count_splits_same_fs (project_root : path) (splits : list string) :
  respects same_fs (count_splits project_root splits).
Proof.
  assert (forall split dataset_type,
             respects same_fs (count_split_type project_root split dataset_type))
    as Htype.
  { intros split dataset_type. unfold count_split_type.
    respects_bind; [apply path_exists_same_fs|].
    destruct (negb _); [respects_done|].
    do 2 (respects_bind; [apply count_rglob_ext_same_fs|]). respects_done. }
  assert (forall split types,
             respects same_fs (count_split project_root split types)) as Hsplit.
  { intros split types. induction types as [|t types IH]; [respects_done|].
    simpl. respects_bind; [apply Htype|]. respects_bind; [apply IH|].
    respects_done. }
  induction splits as [|split splits IH]; [respects_done|].
  cbn [count_splits]. respects_bind; [apply Hsplit|]. respects_bind; [apply IH|].
  respects_done.
Qed.

(** X1: Whether [split_dataset] returns or raises, every entry of the file
    system that is not in the [processed] tree is as it was: the images are
    copied, never moved, renamed or overwritten. *)
Theorem split_dataset_keeps_sources (E : oracle) (project_root : path)
    (train_ratio val_ratio test_ratio : PyFloat.float) (w : world)
    (q : path) (n : node) :
  fs w !! q = Some n ->
  ~ processed_dir project_root `prefix_of` q ->
  fs (split_dataset E project_root train_ratio val_ratio test_ratio w).2 !! q
  = Some n.
Proof.
  intros Hq Hout.
  assert (respects (keeps (outside (processed_dir project_root)))
                   (split_dataset E project_root train_ratio val_ratio test_ratio))
    as Hkeeps; [|by apply (Hkeeps w q n)].
  unfold split_dataset, validate_ratios, split_dataset_body.
  respects_bind; [destruct (ratios_off _ _ _); respects_done|].
  respects_bind; [apply same_fs_keeps, log_same_fs|].
  respects_bind.
  { apply respects_for_each; [apply _|]. intros split.
    apply respects_for_each; [apply _|]. intros dataset_type.
    apply mkdir_from_keeps. }
  respects_bind.
  { apply respects_for_each; [apply _|]. intros dataset_type.
    unfold split_type.
    respects_bind; [apply same_fs_keeps, path_exists_same_fs|].
    destruct (negb _); [respects_done|].
    respects_bind; [apply same_fs_keeps, glob_all_same_fs|].
    apply respects_for_each; [apply _|]. intros category_dir.
    apply split_category_keeps. }
  respects_bind; [apply same_fs_keeps, count_splits_same_fs|].
  respects_bind; [apply write_file_keeps, outside_below|].
  respects_bind; [apply same_fs_keeps, log_same_fs|].
  respects_done.
Qed.

Lemma split_dataset_keeps_sources_witness :
  fs (split_dataset demo_oracle project PyFloat.lit_0_7 PyFloat.lit_0_2
                    PyFloat.lit_0_1 gallery_world).2
  !! (paracetamol_dir ++ ["a.jpg"]) = Some (File "image a").
Proof.
  apply split_dataset_keeps_sources.
  - vm_compute; reflexivity.
  - apply (bool_decide_eq_false_1 _). vm_compute; reflexivity.
Defined.

(** ** [split_dataset]: what is skipped *)

Lemma glob_ext_spec (d : path) (ext : string) (w : world) :
  glob_ext d ext w
  = (Ok (filter (fun p => ends_with (name p) ext = true) (iterdir (fs w) d)), w).
Proof. done. Qed.

(** X2: An entry of a class directory that is not a directory, and a category
    directory without any image, are passed over: nothing is drawn from the
    generator, logged, created or copied. *)
Theorem split_category_skips (E : oracle) (project_root : path)
    (train_ratio val_ratio : PyFloat.float) (dataset_type : string)
    (category_dir : path) (w : world) :
  node_is_dir (lookup_node (fs w) category_dir) = false
  \/ image_count (fs w) category_dir = 0 ->
  split_category E project_root train_ratio val_ratio dataset_type category_dir w
  = (Ok tt, w).
Proof.
  intros Hskip. unfold split_category, bind at 1, is_dir.
  destruct (node_is_dir (lookup_node (fs w) category_dir)) eqn:Hdir; [|done].
  destruct Hskip as [|Hcount]; [done|]. cbn [negb].
  rewrite (bind_ok _ _ _ _ _ (glob_ext_spec _ _ _)),
    (bind_ok _ _ _ _ _ (glob_ext_spec _ _ _)),
    (bind_ok _ _ _ _ _ (glob_ext_spec _ _ _)),
    (bind_ok _ _ _ _ _ (glob_ext_spec _ _ _)).
  unfold image_count, glob_count in Hcount.
  assert (forall l1 l2 l3 l4 : list path,
             Z.of_nat (length l1 + length l2 + length l3 + length l4) = 0 ->
             l1 ++ l2 ++ l3 ++ l4 = []) as Hnil.
  { intros [|] [|] [|] [|]; simpl; intros; try done; lia. }
  by rewrite (Hnil _ _ _ _ Hcount).
Qed.

Lemma split_category_skips_witness :
  split_category demo_oracle project PyFloat.lit_0_7 PyFloat.lit_0_2 "authentic"
                 (paracetamol_dir ++ ["notes.txt"]) gallery_world
  = (Ok tt, gallery_world).
Proof.
  apply split_category_skips. left. vm_compute; reflexivity.
Defined.

(** ** [validate_dataset_structure] *)

Lemma count_images_spec (d : path) (w : world) :
  count_images d w = (Ok (image_count (fs w) d), w).
Proof.
  unfold count_images.
  rewrite (bind_ok _ _ _ _ _ (glob_ext_spec _ _ _)),
    (bind_ok _ _ _ _ _ (glob_ext_spec _ _ _)),
    (bind_ok _ _ _ _ _ (glob_ext_spec _ _ _)),
    (bind_ok _ _ _ _ _ (glob_ext_spec _ _ _)).
  unfold ret, image_count, glob_count. rewrite !length_app.
  do 2 f_equal. lia.
Qed.

(** The loop over the entries of a class directory adds up the counts of
    the category directories and appends the issues of those with fewer
    than ten images. *)
Lemma validate_categories_spec (dataset_type : string) (entries : list path)
    (acc : type_stats * list string) (w : world) :
  let counts :=
    map (fun d => (name d, image_count (fs w) d))
        (filter (fun d => node_is_dir (lookup_node (fs w) d) = true) entries) in
  for_fold (validate_category dataset_type) entries acc w
  = (Ok (TypeStats (type_total acc.1 + sum_counts counts)
                   (foldl (fun m c => <[c.1 := c.2]> m) (type_categories acc.1)
                          counts),
         acc.2 ++ map (low_count_issue dataset_type)
                      (filter (fun c => c.2 < 10) counts)), w).
Proof.
  revert acc. induction entries as [|d entries IH]; intros [[total cats] iss].
  - simpl. unfold ret. by rewrite Z.add_0_r, app_nil_r.
  - cbn [for_fold]. unfold bind at 1, validate_category at 1.
    unfold bind at 1, is_dir. rewrite filter_cons.
    destruct (node_is_dir (lookup_node (fs w) d)) eqn:Hdir.
    + cbn [negb]. rewrite (bind_ok _ _ _ _ _ (count_images_spec _ _)).
      rewrite decide_True by done. cbn [map]. rewrite filter_cons. cbn [fst snd].
      destruct (Z.ltb_spec (image_count (fs w) d) 10) as [Hlow|Hok].
      * rewrite decide_True by done. unfold ret at 1. rewrite IH.
        cbn [fst snd type_total type_categories map sum_counts foldr foldl].
        unfold low_count_issue at 2. cbn [fst snd].
        rewrite <- app_assoc. unfold sum_counts. rewrite Z.add_assoc. reflexivity.
      * rewrite decide_False by lia. unfold ret at 1. rewrite IH.
        cbn [fst snd type_total type_categories map sum_counts foldr foldl].
        unfold sum_counts. rewrite Z.add_assoc. reflexivity.
    + cbn [negb]. rewrite decide_False by done.
      unfold ret at 1. by rewrite IH.
Qed.

Lemma validate_type_spec (project_root : path) (dataset_type : string)
    (iss : list string) (w : world) :
  validate_type project_root dataset_type iss w
  = (Ok (TypeStats (sum_counts (type_counts (fs w) project_root dataset_type))
                   (counts_map (type_counts (fs w) project_root dataset_type)),
         iss ++ type_issues (fs w) project_root dataset_type), w).
Proof.
  unfold validate_type, type_counts, type_issues.
  rewrite (bind_ok _ _ _ _ _ (path_exists_spec _ _)), negb_involutive.
  destruct (missing (fs w) _); [done|].
  unfold bind, glob_all. by rewrite validate_categories_spec.
Qed.

Lemma for_each_log_spec {A} (l : level) (g : A -> string) (xs : list A) (w : world) :
  for_each xs (fun x => log l (g x)) w
  = (Ok tt, add_log (map (fun x => (l, g x)) xs) w).
Proof.
  revert w. induction xs as [|x xs IH]; intros w.
  - simpl. by rewrite add_log_nil.
  - simpl. rewrite (bind_ok _ _ _ _ _ (log_spec _ _ _)), IH.
    by rewrite add_log_add_log.
Qed.

Lemma write_file_fs_only (p : path) (content : string) (w1 w2 : world) :
  fs w1 = fs w2 ->
  (write_file p content w1).1 = (write_file p content w2).1
  /\ fs (write_file p content w1).2 = fs (write_file p content w2).2.
Proof.
  intros Hfs. unfold write_file. rewrite Hfs.
  repeat case_match; simpl; by rewrite ?Hfs.
Qed.

(** X3: The statistics of [validate_dataset_structure]: the total of each
    class is the sum of the image counts of its category directories, the
    grand total is the sum of the two, and the issues are, class by class,
    the missing class directory or else the categories with fewer than ten
    images, in the order of the listing.  The call fails only when the
    report cannot be written, and writes nothing but the report. *)
Theorem validate_dataset_structure_tallies
    (json_dumps : dataset_stats -> string) (project_root : path) (w : world) :
  let a := type_counts (fs w) project_root "authentic" in
  let c := type_counts (fs w) project_root "counterfeit" in
  let stats :=
    DatasetStats (TypeStats (sum_counts a) (counts_map a))
                 (TypeStats (sum_counts c) (counts_map c))
                 (sum_counts a + sum_counts c)
                 (type_issues (fs w) project_root "authentic"
                  ++ type_issues (fs w) project_root "counterfeit") in
  let report_path := data_dir project_root ++ ["validation_report.json"] in
  (validate_dataset_structure json_dumps project_root w).1
  = match (write_file report_path (json_dumps stats) w).1 with
    | Ok _ => Ok stats
    | Err e => Err e
    end
  /\ fs (validate_dataset_structure json_dumps project_root w).2
     = fs (write_file report_path (json_dumps stats) w).2.
Proof.
  intros a c stats report_path. unfold validate_dataset_structure.
  rewrite (bind_ok _ _ _ _ _ (log_spec _ _ _)).
  rewrite (bind_ok _ _ _ _ _ (validate_type_spec _ _ _ _)).
  rewrite (bind_ok _ _ _ _ _ (validate_type_spec _ _ _ _)).
  cbn [fst snd fs add_log app]. fold a c. cbn [type_total]. fold stats.
  do 4 rewrite (bind_ok _ _ _ _ _ (log_spec _ _ _)).
  rewrite !add_log_add_log.
  assert (exists w5, fs w5 = fs w
            /\ forall k : unit -> M dataset_stats,
                bind (match issues stats with
                      | [] => ret tt
                      | _ => log WARNING ("Found " +:+ pretty (length (issues stats))
                                          +:+ " issues:") ;;
                             for_each (issues stats)
                                      (fun issue => log WARNING ("  - " +:+ issue))
                      end) k
                     (add_log
                        ([(INFO, "Validating dataset structure...")]
                         ++ [(INFO, "Dataset Statistics:")]
                         ++ [(INFO, "  Authentic images: " +:+ pretty (sum_counts a))]
                         ++ [(INFO, "  Counterfeit images: " +:+ pretty (sum_counts c))]
                         ++ [(INFO, "  Total images: " +:+ pretty (total_images stats))])
                        w)
                = k tt w5) as (w5 & Hfs & Hk).
  { destruct (issues stats) as [|issue rest].
    - eexists. split; [|by intros k]. done.
    - eexists. split; [|intros k].
      2:{ unfold bind. rewrite log_spec, for_each_log_spec. reflexivity. }
      done. }
  rewrite Hk. unfold bind, ret.
  destruct (write_file_fs_only report_path (json_dumps stats) w5 w Hfs)
    as [H1 H2].
  rewrite <- H1, <- H2.
  subst report_path.
  by destruct (write_file _ (json_dumps stats) w5) as [[[]|e] w6].
Qed.

(** ** [train_model] *)

(** A relation [S] that absorbs the steps of [R] before and after it. *)
Section Absorbs.
Context (R S : world -> world -> Prop).
Hypothesis R_S : forall a b, R a b -> S a b.
Hypothesis R_then_S : forall a b c, R a b -> S b c -> S a c.
Hypothesis S_then_R : forall a b c, S a b -> R b c -> S a c.

Lemma absorbs_bind_l {A B} (m : M A) (k : A -> M B) :
  respects R m -> (forall a, respects S (k a)) -> respects S (bind m k).
Proof.
  intros Hm Hk w. unfold bind. specialize (Hm w).
  destruct (m w) as [[a|e] w1]; [|by apply R_S].
  eapply R_then_S; [exact Hm|apply Hk].
Qed.

Lemma absorbs_bind_r {A B} (m : M A) (k : A -> M B) :
  respects S m -> (forall a, respects R (k a)) -> respects S (bind m k).
Proof.
  intros Hm Hk w. unfold bind. specialize (Hm w).
  destruct (m w) as [[a|e] w1]; [|done].
  eapply S_then_R; [exact Hm|apply Hk].
Qed.

Lemma absorbs_catch_r {A} (m : M A) (h : exn -> M A) :
  respects S m -> (forall e, respects R (h e)) -> respects S (catch m h).
Proof.
  intros Hm Hh w. unfold catch. specialize (Hm w).
  destruct (m w) as [[a|e] w1]; [done|].
  eapply S_then_R; [exact Hm|apply Hh].
Qed.

Lemma absorbs_finally_r {A} (m : M A) (f : M unit) :
  respects S m -> respects R f -> respects S (finally m f).
Proof.
  intros Hm Hf w. unfold finally. specialize (Hm w).
  destruct (m w) as [r w1]. specialize (Hf w1).
  assert (S w (f w1).2) as H by (eapply S_then_R; [exact Hm|exact Hf]).
  destruct (f w1) as [[[]|e] w2]; [by destruct r|done].
Qed.
End Absorbs.

#[global] Instance other_jobs_kept_preorder (model_name : string) :
  PreOrder (other_jobs_kept model_name).
Proof.
  split; [by intros w other _|].
  intros w1 w2 w3 H12 H23 other Hne. by rewrite H23, H12.
Qed.

(** What each step of [train_model] leaves alone. *)
Lemma set_status_frame (model_name : string) (s : job_status) (w : world) :
  same_fs w (set_status model_name s w).2
  /\ same_spawned w (set_status model_name s w).2
  /\ later w (set_status model_name s w).2
  /\ other_jobs_kept model_name w (set_status model_name s w).2.
Proof.
  unfold set_status, same_fs, same_spawned, later, other_jobs_kept.
  destruct (training_status w !! model_name); simpl; split_and!; try done.
  intros other Hne. by rewrite lookup_insert_ne.
Qed.

Lemma set_key_frame (model_name : string) (f : job_info -> job_info) (w : world) :
  same_fs w (set_key model_name f w).2
  /\ same_spawned w (set_key model_name f w).2
  /\ later w (set_key model_name f w).2
  /\ other_jobs_kept model_name w (set_key model_name f w).2.
Proof.
  unfold set_key, same_fs, same_spawned, later, other_jobs_kept.
  destruct (training_status w !! model_name); simpl; split_and!; try done.
  intros other Hne. by rewrite lookup_insert_ne.
Qed.

Lemma log_frame (l : level) (msg : string) (model_name : string) (w : world) :
  same_spawned w (log l msg w).2 /\ later w (log l msg w).2
  /\ other_jobs_kept model_name w (log l msg w).2.
Proof. unfold same_spawned, later, other_jobs_kept. by simpl. Qed.

Lemma datetime_now_frame (E : oracle) (model_name : string) (w : world) :
  same_spawned w (datetime_now E w).2 /\ later w (datetime_now E w).2
  /\ other_jobs_kept model_name w (datetime_now E w).2.
Proof.
  unfold same_spawned, later, other_jobs_kept. simpl. split_and!; [done|lia|done].
Qed.

Lemma mkdir_from_frame (above : path) (below : list string)
    (model_name : string) (w : world) :
  same_spawned w (mkdir_from above below w).2
  /\ later w (mkdir_from above below w).2
  /\ other_jobs_kept model_name w (mkdir_from above below w).2.
Proof.
  revert above w. induction below as [|c below IH]; intros above w; [done|].
  simpl. destruct (fs w !! (above ++ [c])) as [[|content]|]; [apply IH|done|].
  destruct (IH (above ++ [c]) (set_fs (<[above ++ [c] := Dir]> (fs w)) w))
    as (H1 & H2 & H3).
  done.
Qed.

Lemma write_file_frame (p : path) (content : string) (model_name : string)
    (w : world) :
  same_spawned w (write_file p content w).2
  /\ later w (write_file p content w).2
  /\ other_jobs_kept model_name w (write_file p content w).2.
Proof.
  unfold write_file, same_spawned, later, other_jobs_kept.
  repeat case_match; simpl; split_and!; done.
Qed.

Lemma append_file_frame (p : path) (s : string) (model_name : string)
    (w : world) :
  same_spawned w (append_file p s w).2
  /\ later w (append_file p s w).2
  /\ other_jobs_kept model_name w (append_file p s w).2.
Proof.
  unfold append_file, same_spawned, later, other_jobs_kept.
  repeat case_match; simpl; split_and!; done.
Qed.

Lemma append_file_keeps (P : path -> Prop) (p : path) (s : string) :
  ~ P p -> respects (keeps P) (append_file p s).
Proof.
  intros HP w q n Hq Hfs. unfold append_file. repeat case_match; simpl; try done.
  rewrite lookup_insert_ne; [done|]. by intros <-.
Qed.

Lemma popen_frame (E : oracle) (cmd : list string) (model_name : string)
    (w : world) :
  same_fs w (popen E cmd w).2 /\ later w (popen E cmd w).2
  /\ other_jobs_kept model_name w (popen E cmd w).2
  /\ spawned (popen E cmd w).2 = spawned w ++ [cmd].
Proof.
  unfold popen, same_fs, later, other_jobs_kept.
  case_match; simpl; split_and!; done.
Qed.

#[global] Instance quiet_preorder (model_name : string) :
  PreOrder (quiet model_name).
Proof.
  split.
  - intros w. split_and!; reflexivity.
  - intros w1 w2 w3 (A1 & B1 & C1) (A2 & B2 & C2).
    split_and!; etrans; eassumption.
Qed.

Lemma quiet_job_step (model_name : string) (cmd : list string) (a b : world) :
  quiet model_name a b -> job_step model_name cmd a b.
Proof. intros (A & B & C). split_and!; [by left|done|done]. Qed.

Lemma quiet_then_job_step (model_name : string) (cmd : list string)
    (a b c : world) :
  quiet model_name a b -> job_step model_name cmd b c ->
  job_step model_name cmd a c.
Proof.
  intros (A1 & B1 & C1) (A2 & B2 & C2). split_and!.
  - unfold started_at_most, same_spawned in *. rewrite <- A1. exact A2.
  - etrans; eassumption.
  - etrans; eassumption.
Qed.

Lemma job_step_then_quiet (model_name : string) (cmd : list string)
    (a b c : world) :
  job_step model_name cmd a b -> quiet model_name b c ->
  job_step model_name cmd a c.
Proof.
  intros (A1 & B1 & C1) (A2 & B2 & C2). split_and!.
  - unfold started_at_most, same_spawned in *. rewrite A2. exact A1.
  - etrans; eassumption.
  - etrans; eassumption.
Qed.

Lemma log_quiet (model_name : string) (l : level) (msg : string) :
  respects (quiet model_name) (log l msg).
Proof. intros w. apply log_frame. Qed.

Lemma set_status_quiet (model_name : string) (s : job_status) :
  respects (quiet model_name) (set_status model_name s).
Proof. intros w. apply set_status_frame. Qed.

Lemma set_key_quiet (model_name : string) (f : job_info -> job_info) :
  respects (quiet model_name) (set_key model_name f).
Proof. intros w. apply set_key_frame. Qed.

Lemma datetime_now_quiet (E : oracle) (model_name : string) :
  respects (quiet model_name) (datetime_now E).
Proof. intros w. apply datetime_now_frame. Qed.

Lemma mkdir_from_quiet (model_name : string) (above : path)
    (below : list string) :
  respects (quiet model_name) (mkdir_from above below).
Proof. intros w. apply mkdir_from_frame. Qed.

Lemma write_file_quiet (model_name : string) (p : path) (content : string) :
  respects (quiet model_name) (write_file p content).
Proof. intros w. apply write_file_frame. Qed.

Lemma append_file_quiet (model_name : string) (p : path) (s : string) :
  respects (quiet model_name) (append_file p s).
Proof. intros w. apply append_file_frame. Qed.

Lemma set_status_same_fs (model_name : string) (s : job_status) :
  respects same_fs (set_status model_name s).
Proof. intros w. apply set_status_frame. Qed.

Lemma set_key_same_fs (model_name : string) (f : job_info -> job_info) :
  respects same_fs (set_key model_name f).
Proof. intros w. apply set_key_frame. Qed.

Lemma popen_same_fs (E : oracle) (cmd : list string) :
  respects same_fs (popen E cmd).
Proof. intros w. apply (popen_frame E cmd ""). Qed.

Lemma stream_quiet (E : oracle) (model_name : string) (log_file_path : path)
    (lines : list string) (read_error : option exn) :
  respects (quiet model_name)
           (stream E model_name log_file_path lines read_error).
Proof.
  induction lines as [|line lines IH]; simpl.
  - destruct read_error; respects_done.
  - case_match; [respects_done|].
    respects_bind; [apply log_quiet|].
    respects_bind; [apply datetime_now_quiet|].
    respects_bind; [apply append_file_quiet|]. exact IH.
Qed.

Lemma stream_keeps (E : oracle) (model_name : string) (log_file_path : path)
    (lines : list string) (read_error : option exn) :
  respects (keeps (apart_from log_file_path))
           (stream E model_name log_file_path lines read_error).
Proof.
  induction lines as [|line lines IH]; simpl.
  - destruct read_error; respects_done.
  - case_match; [respects_done|].
    respects_bind; [apply same_fs_keeps, log_same_fs|].
    respects_bind; [apply same_fs_keeps, datetime_now_same_fs|].
    respects_bind; [apply append_file_keeps; by intros []|]. exact IH.
Qed.

Lemma on_exception_quiet (model_name : string) (e : exn) :
  respects (quiet model_name) (on_exception model_name e).
Proof.
  unfold on_exception.
  respects_bind; [apply set_status_quiet|].
  respects_bind; [apply set_key_quiet|].
  respects_bind; [apply log_quiet|]. respects_done.
Qed.

Lemma on_exception_same_fs (model_name : string) (e : exn) :
  respects same_fs (on_exception model_name e).
Proof.
  unfold on_exception.
  respects_bind; [apply set_status_same_fs|].
  respects_bind; [apply set_key_same_fs|].
  respects_bind; [apply log_same_fs|]. respects_done.
Qed.

Lemma run_training_job_step (E : oracle) (project_root : path)
    (model_name script_name config_name : string) :
  respects (job_step model_name
              (training_command E project_root model_name script_name config_name))
           (run_training E project_root model_name script_name config_name).
Proof.
  set (cmd := training_command _ _ _ _ _).
  pose proof (quiet_job_step model_name cmd) as H1.
  pose proof (quiet_then_job_step model_name cmd) as H2.
  pose proof (job_step_then_quiet model_name cmd) as H3.
  unfold run_training.
  apply (absorbs_bind_l _ _ H1 H2); [apply mkdir_from_quiet|intros _].
  apply (absorbs_bind_l _ _ H1 H2); [apply log_quiet|intros _].
  apply (absorbs_bind_r _ _ H3).
  - intros w. pose proof (popen_frame E cmd model_name w) as (A & B & C & D).
    split_and!; [by right|done|done].
  - intros [e|lines read_error returncode]; [respects_done|].
    respects_bind; [apply write_file_quiet|].
    respects_bind; [apply stream_quiet|].
    case_match.
    + respects_bind; [apply set_status_quiet|].
      respects_bind; [apply log_quiet|]. respects_done.
    + respects_bind; [apply set_status_quiet|].
      respects_bind; [apply set_key_quiet|].
      respects_bind; [apply log_quiet|]. respects_done.
Qed.

Lemma run_training_keeps (E : oracle) (project_root : path)
    (model_name script_name config_name : string) :
  respects (keeps (apart_from (log_file_path project_root model_name)))
           (run_training E project_root model_name script_name config_name).
Proof.
  unfold run_training.
  respects_bind; [apply mkdir_from_keeps|].
  respects_bind; [apply same_fs_keeps, log_same_fs|].
  apply respects_bind; [apply _|apply same_fs_keeps, popen_same_fs|].
  intros [e|lines read_error returncode]; [respects_done|].
  respects_bind; [apply write_file_keeps; by intros []|].
  respects_bind; [apply stream_keeps|].
  case_match.
  - respects_bind; [apply same_fs_keeps, set_status_same_fs|].
    respects_bind; [apply same_fs_keeps, log_same_fs|]. respects_done.
  - respects_bind; [apply same_fs_keeps, set_status_same_fs|].
    respects_bind; [apply same_fs_keeps, set_key_same_fs|].
    respects_bind; [apply same_fs_keeps, log_same_fs|]. respects_done.
Qed.

Lemma train_model_job_step (E : oracle) (project_root : path)
    (model_name script_name config_name : string) :
  respects (job_step model_name
              (training_command E project_root model_name script_name config_name))
           (train_model E project_root model_name script_name config_name).
Proof.
  set (cmd := training_command _ _ _ _ _).
  pose proof (quiet_job_step model_name cmd) as H1.
  pose proof (quiet_then_job_step model_name cmd) as H2.
  pose proof (job_step_then_quiet model_name cmd) as H3.
  unfold train_model.
  apply (absorbs_bind_l _ _ H1 H2); [apply log_quiet|intros _].
  apply (absorbs_bind_l _ _ H1 H2); [apply set_status_quiet|intros _].
  apply (absorbs_bind_l _ _ H1 H2); [apply datetime_now_quiet|intros t].
  apply (absorbs_bind_l _ _ H1 H2); [apply set_key_quiet|intros _].
  apply (absorbs_finally_r _ _ H3).
  - apply (absorbs_catch_r _ _ H3).
    + apply run_training_job_step.
    + intros e. apply on_exception_quiet.
  - respects_bind; [apply datetime_now_quiet|]. apply set_key_quiet.
Qed.

Lemma train_model_keeps (E : oracle) (project_root : path)
    (model_name script_name config_name : string) :
  respects (keeps (apart_from (log_file_path project_root model_name)))
           (train_model E project_root model_name script_name config_name).
Proof.
  unfold train_model.
  respects_bind; [apply same_fs_keeps, log_same_fs|].
  respects_bind; [apply same_fs_keeps, set_status_same_fs|].
  respects_bind; [apply same_fs_keeps, datetime_now_same_fs|].
  respects_bind; [apply same_fs_keeps, set_key_same_fs|].
  apply respects_finally; [apply _| |].
  - apply respects_catch; [apply _| |].
    + apply run_training_keeps.
    + intros e. apply same_fs_keeps, on_exception_same_fs.
  - respects_bind; [apply same_fs_keeps, datetime_now_same_fs|].
    apply same_fs_keeps, set_key_same_fs.
Qed.




(** X5: Whatever happens in [train_model], the orchestrator itself changes no
    file but the log file of the job and [training.log], to which its
    logger appends (directories may be added), leaves the entries of the
    other jobs as they were, and starts at most one process, with the
    command line of the job's script. *)
Theorem train_model_frame (E : oracle) (project_root : path)
    (model_name script_name config_name : string) (w : world) :
  let w' := (train_model E project_root model_name script_name config_name w).2 in
  (forall q n, q <> log_file_path project_root model_name ->
               not_handler_log q ->
               fs w !! q = Some n -> fs w' !! q = Some n)
  /\ (forall other, other <> model_name ->
                    training_status w' !! other = training_status w !! other)
  /\ (spawned w' = spawned w
      \/ spawned w' = spawned w ++ [training_command E project_root model_name
                                      script_name config_name]).
Proof.
  intros w'. split_and!.
  - intros q n Hq _.
    by apply (train_model_keeps E project_root model_name script_name
                config_name w).
  - apply (train_model_job_step E project_root model_name script_name
             config_name w).
  - apply (train_model_job_step E project_root model_name script_name
             config_name w).
Qed.

Lemma train_model_frame_witness :
  let w' := (train_model demo_oracle project "drug_classifier"
               "train_drug_classifier.py" "drug_classifier_config.json"
               rerun_world).2 in
  fs w' !! (scripts_dir project ++ ["train_drug_classifier.py"]) = Some (File "")
  /\ training_status w' !! "pill_detector"
     = training_status rerun_world !! "pill_detector".
Proof.
  intros w'.
  pose proof (train_model_frame demo_oracle project "drug_classifier"
                "train_drug_classifier.py" "drug_classifier_config.json"
                rerun_world) as H.
  cbv zeta in H. destruct H as (Hfs & Hjobs & _). split.
  - apply Hfs; [discriminate|discriminate|vm_compute; reflexivity].
  - apply Hjobs. discriminate.
Defined.

(** X6: With a clock that does not go back, a job that [train_model] has run
    has a start time and an end time, the start is not after the end, and
    the duration that the report computes from them is not negative. *)
Theorem train_model_times (E : oracle) (project_root : path)
    (model_name script_name config_name : string) (w : world) (j : job_info) :
  clock_monotone E ->
  training_status w !! model_name = Some j ->
  exists j' t0 t1,
    training_status
      (train_model E project_root model_name script_name config_name w).2
    !! model_name = Some j'
    /\ start_time j' = Some t0 /\ end_time j' = Some t1 /\ t0 <= t1
    /\ duration_seconds (add_duration j') = Some (t1 - t0).
Proof.
  intros Hclock Hj.
  destruct (train_model_cases E project_root model_name script_name config_name
              w j Hj)
    as (r & w2 & w' & j' & Hrun & Htrain & _ & Horch & _ & Hstart & Hend & _).
  exists j', (now E (ticks w)), (now E (ticks w2)).
  rewrite Htrain. unfold orch in Horch. injection Horch as Hts _.
  simpl. rewrite Hts, lookup_insert_eq. split_and!; try done.
  - apply Hclock.
    pose proof (run_training_job_step E project_root model_name script_name
                  config_name (before_try E model_name j w)) as (_ & Hlater & _).
    rewrite Hrun in Hlater. unfold later in Hlater. simpl in Hlater. lia.
  - unfold add_duration. by rewrite Hstart, Hend.
Qed.

Lemma train_model_times_witness :
  exists j' t0 t1,
    training_status
      (train_model demo_oracle project "drug_classifier"
         "train_drug_classifier.py" "drug_classifier_config.json" ready_world).2
    !! "drug_classifier" = Some j'
    /\ start_time j' = Some t0 /\ end_time j' = Some t1 /\ t0 <= t1
    /\ duration_seconds (add_duration j') = Some (t1 - t0).
Proof.
  apply (train_model_times demo_oracle project "drug_classifier"
           "train_drug_classifier.py" "drug_classifier_config.json"
           ready_world fresh_job).
  - intros a b Hab. simpl. lia.
  - reflexivity.
Defined.
(** ** [train_all_models] and [generate_training_report] *)

Lemma train_loop_statuses (E : oracle) (project_root : path)
    (models_to_train successful_models failed_models : list string) (w : world) :
  registry_ok w -> NoDup models_to_train ->
  exists successful_models' failed_models' w',
    train_loop E project_root models_to_train successful_models failed_models w
    = (Ok (successful_models ++ successful_models',
           failed_models ++ failed_models'), w')
    /\ successful_models' ++ failed_models' ≡ₚ models_to_train
    /\ dom (training_status w') = dom (training_status w)
    /\ (forall n, n ∉ models_to_train ->
                  training_status w' !! n = training_status w !! n)
    /\ (forall n, n ∈ successful_models' ->
                  has_status (training_status w') completed n)
    /\ (forall n, n ∈ failed_models' -> is_Some (model_configs !! n) ->
                  has_status (training_status w') failed n).
Proof.
  revert successful_models failed_models w.
  induction models_to_train as [|model_name rest IH];
    intros successful_models failed_models w Hok Hnodup.
  - exists [], [], w. simpl. rewrite !app_nil_r.
    split_and!; try done; intros n Hn; by apply elem_of_nil in Hn.
  - apply NoDup_cons in Hnodup as [Hfresh Hnodup]. simpl.
    destruct (model_configs !! model_name) as [[script_name config_name]|]
      eqn:Hcfg.
    + destruct (train_model_step E project_root model_name script_name
                  config_name w)
        as (b & w1 & j' & Hrun & Hts & _ & Hst & _).
      { apply Hok. by rewrite Hcfg. }
      assert (is_Some (training_status w !! model_name)) as Hentry
        by (apply Hok; by rewrite Hcfg).
      pose proof (registry_ok_insert _ _ _ _ Hts Hok) as Hok1.
      rewrite (bind_ok _ _ _ _ _ Hrun). destruct b.
      * destruct (IH (successful_models ++ [model_name]) failed_models w1
                    Hok1 Hnodup)
          as (s' & f' & w' & Hloop & Hperm & Hdom & Hframe & Hdone & Hfail).
        exists (model_name :: s'), f', w'. split_and!.
        -- by rewrite Hloop, <- app_assoc.
        -- simpl. by rewrite Hperm.
        -- rewrite Hdom, Hts. by apply dom_insert_lookup_L.
        -- intros n Hn. apply not_elem_of_cons in Hn as [Hne Hn].
           rewrite (Hframe n Hn), Hts. by rewrite lookup_insert_ne.
        -- intros n Hn. apply elem_of_cons in Hn as [->|Hn]; [|by apply Hdone].
           exists j'. rewrite (Hframe _ Hfresh), Hts, lookup_insert_eq. done.
        -- done.
      * rewrite (bind_ok _ _ _ _ _ (log_spec _ _ _)).
        match goal with |- context [train_loop _ _ _ _ _ ?w0] =>
          destruct (IH successful_models (failed_models ++ [model_name]) w0)
            as (s' & f' & w' & Hloop & Hperm & Hdom & Hframe & Hdone & Hfail)
        end.
        { intros n Hn. simpl. by apply Hok1. }
        { done. }
        simpl in Hdom, Hframe.
        exists s', (model_name :: f'), w'. split_and!.
        -- by rewrite Hloop, <- app_assoc.
        -- by rewrite <- Permutation_middle, Hperm.
        -- rewrite Hdom, Hts. by apply dom_insert_lookup_L.
        -- intros n Hn. apply not_elem_of_cons in Hn as [Hne Hn].
           rewrite (Hframe n Hn), Hts. by rewrite lookup_insert_ne.
        -- done.
        -- intros n Hn Hknown.
           apply elem_of_cons in Hn as [->|Hn]; [|by apply Hfail].
           exists j'. rewrite (Hframe _ Hfresh), Hts, lookup_insert_eq. done.
    + rewrite (bind_ok _ _ _ _ _ (log_spec _ _ _)).
      match goal with |- context [train_loop _ _ _ _ _ ?w0] =>
        destruct (IH successful_models (failed_models ++ [model_name]) w0)
          as (s' & f' & w' & Hloop & Hperm & Hdom & Hframe & Hdone & Hfail)
      end.
      { intros n Hn. simpl. by apply Hok. }
      { done. }
      simpl in Hdom, Hframe.
      exists s', (model_name :: f'), w'. split_and!.
      * by rewrite Hloop, <- app_assoc.
      * by rewrite <- Permutation_middle, Hperm.
      * done.
      * intros n Hn. apply not_elem_of_cons in Hn as [Hne Hn]. by apply Hframe.
      * done.
      * intros n Hn Hknown.
        apply elem_of_cons in Hn as [->|Hn]; [|by apply Hfail].
        rewrite Hcfg in Hknown. by destruct Hknown.
Qed.

(** Counting the entries of a status, by a list of their names. *)
Lemma count_status_length (t : gmap string job_info) (s : job_status)
    (l : list string) :
  NoDup l -> (forall n, n ∈ l <-> has_status t s n) ->
  count_status s t = Z.of_nat (length l).
Proof.
  intros Hnodup Hl. unfold count_status. f_equal.
  rewrite <- (length_fmap fst). apply Permutation_length.
  apply NoDup_Permutation; [| done |].
  - eapply sublist_NoDup; [apply (NoDup_fst_map_to_list t)|].
    apply fmap_sublist, sublist_filter.
  - intros n. rewrite Hl. rewrite list_elem_of_fmap. split.
    + intros ([n' j] & -> & Hin). apply list_elem_of_filter in Hin as [Hs Hin].
      apply elem_of_map_to_list in Hin. by exists j.
    + intros (j & Hj & Hs). exists (n, j). split; [done|].
      apply list_elem_of_filter. split; [done|]. by apply elem_of_map_to_list.
Qed.

Lemma generate_training_report_counts (E : oracle) (project_root : path)
    (w w' : world) (r : report) :
  generate_training_report E project_root w = (Ok r, w') ->
  total_models r = Z.of_nat (size (training_status w))
  /\ models_trained r = count_status completed (training_status w)
  /\ summary_completed r = count_status completed (training_status w)
  /\ summary_failed r = count_status failed (training_status w)
  /\ summary_pending r = count_status pending (training_status w).
Proof.
  unfold generate_training_report, bind, datetime_now, log, ret. simpl.
  case_match; simpl; case_match; simpl; intros [= <- _]; done.
Qed.

Lemma count_status_total (t : gmap string job_info) :
  Z.of_nat (size t)
  = count_status pending t + count_status running t
    + count_status completed t + count_status failed t.
Proof.
  unfold count_status. rewrite <- length_map_to_list.
  generalize (map_to_list t). intros l.
  induction l as [|[n j] l IH]; [done|].
  rewrite !filter_cons. simpl.
  destruct (status j); repeat case_decide; try done; simpl length; lia.
Qed.

Lemma choices_known (n : string) :
  n ∈ choices -> is_Some (model_configs !! n).
Proof.
  unfold choices. rewrite !elem_of_cons.
  intros [->|[->|[->|Hn]]]; [eexists; reflexivity..|].
  by apply elem_of_nil in Hn.
Qed.

Lemma initial_pending (n : string) (j : job_info) :
  initial_training_status !! n = Some j -> status j = pending.
Proof.
  unfold initial_training_status.
  repeat (rewrite lookup_insert; case_decide; [by intros [= <-]|]).
  by rewrite lookup_empty.
Qed.

(** X7: When the requested models (or the three default ones) are distinct
    names of the registry and the status dictionary is the one [__init__]
    built, the summary of the report agrees with the two lists that
    [train_all_models] returned: [total_models] is 3, [completed] and
    [models_trained] are the length of the successful list, [failed] is the
    length of the failed list, and [pending] counts the models that were not
    requested. *)
Theorem report_agrees_with_lists (E : oracle) (project_root : path)
    (models_to_train : option (list string)) (w : world) :
  NoDup (default default_models models_to_train) ->
  Forall (fun m => m ∈ choices) (default default_models models_to_train) ->
  training_status w = initial_training_status ->
  exists successful_models failed_models w1,
    train_all_models E project_root models_to_train w
    = (Ok (successful_models, failed_models), w1)
    /\ forall r w2,
        generate_training_report E project_root w1 = (Ok r, w2) ->
        total_models r = 3
        /\ models_trained r = Z.of_nat (length successful_models)
        /\ summary_completed r = Z.of_nat (length successful_models)
        /\ summary_failed r = Z.of_nat (length failed_models)
        /\ summary_pending r
           = 3 - Z.of_nat (length (default default_models models_to_train)).
Proof.
  intros Hnodup Hchoices Hinit. unfold train_all_models.
  set (ms := default default_models models_to_train) in *.
  destruct (train_loop_statuses E project_root ms [] [] w
              (registry_ok_initial w Hinit) Hnodup)
    as (s & f & w1 & Hloop & Hperm & Hdom & Hframe & Hdone & Hfail).
  simpl in Hloop. exists s, f, w1. split; [exact Hloop|].
  assert (forall n, n ∈ f -> has_status (training_status w1) failed n) as Hfail'.
  { intros n Hn. apply Hfail; [done|]. apply choices_known.
    rewrite Forall_forall in Hchoices. apply Hchoices.
    rewrite <- Hperm. apply elem_of_app. by right. }
  assert (forall n j, training_status w1 !! n = Some j ->
                      (n ∈ s /\ status j = completed)
                      \/ (n ∈ f /\ status j = failed)
                      \/ ((n ∉ ms) /\ status j = pending)) as Hcases.
  { intros n j Hj. destruct (decide (n ∈ ms)) as [Hin|Hout].
    - rewrite <- Hperm in Hin. apply elem_of_app in Hin as [Hin|Hin].
      + left. split; [done|]. destruct (Hdone n Hin) as (j0 & Hj0 & Hs).
        rewrite Hj in Hj0. by injection Hj0 as <-.
      + right; left. split; [done|]. destruct (Hfail' n Hin) as (j0 & Hj0 & Hs).
        rewrite Hj in Hj0. by injection Hj0 as <-.
    - right; right. split; [done|]. rewrite (Hframe n Hout), Hinit in Hj.
      by apply initial_pending in Hj. }
  rewrite <- Hperm in Hnodup. apply NoDup_app in Hnodup as (Hs & Hsf & Hf).
  assert (count_status completed (training_status w1) = Z.of_nat (length s))
    as Hcompleted.
  { apply count_status_length; [done|]. intros n. split; [apply Hdone|].
    intros (j & Hj & Hst).
    destruct (Hcases n j Hj) as [[Hin _]|[[_ H]|[_ H]]];
      [done|rewrite Hst in H; discriminate..]. }
  assert (count_status failed (training_status w1) = Z.of_nat (length f))
    as Hfailed.
  { apply count_status_length; [done|]. intros n. split; [apply Hfail'|].
    intros (j & Hj & Hst).
    destruct (Hcases n j Hj) as [[_ H]|[[Hin _]|[_ H]]];
      [rewrite Hst in H; discriminate|done|rewrite Hst in H; discriminate]. }
  assert (count_status running (training_status w1) = 0) as Hrunning.
  { apply (count_status_length _ _ []); [constructor|]. intros n. split.
    - intros Hn. by apply elem_of_nil in Hn.
    - intros (j & Hj & Hst).
      destruct (Hcases n j Hj) as [[_ H]|[[_ H]|[_ H]]];
        rewrite Hst in H; discriminate. }
  assert (Z.of_nat (size (training_status w1)) = 3) as Hsize.
  { rewrite <- size_dom, Hdom, Hinit, size_dom. vm_compute. reflexivity. }
  pose proof (count_status_total (training_status w1)) as Htotal.
  assert (length ms = (length s + length f)%nat) as Hlen
    by (by rewrite <- Hperm, length_app).
  intros r w2 Hreport.
  apply generate_training_report_counts in Hreport
    as (Ht & Hm & Hc & Hfl & Hp).
  rewrite Ht, Hm, Hc, Hfl, Hp. split_and!; lia.
Qed.

Lemma report_agrees_with_lists_witness :
  exists successful_models failed_models w1,
    train_all_models demo_oracle project (Some ["pill_detector"]) ready_world
    = (Ok (successful_models, failed_models), w1)
    /\ forall r w2,
        generate_training_report demo_oracle project w1 = (Ok r, w2) ->
        total_models r = 3
        /\ models_trained r = Z.of_nat (length successful_models)
        /\ summary_completed r = Z.of_nat (length successful_models)
        /\ summary_failed r = Z.of_nat (length failed_models)
        /\ summary_pending r
           = 3 - Z.of_nat (length (default default_models
                                     (Some ["pill_detector"]))).
Proof.
  apply (report_agrees_with_lists demo_oracle project (Some ["pill_detector"])
           ready_world).
  - apply (bool_decide_unpack _). vm_compute. exact I.
  - apply (bool_decide_unpack _). vm_compute. exact I.
  - reflexivity.
Defined.
(** ** [create_siamese_pairs]: what the pairs are *)

(** X8: [create_siamese_pairs] raises nothing, and it returns when each of the
    two samplings ends (always for a pool of at most 21 images, and for a
    larger one when the generator gives a new index within the turns
    allowed).  Every pair that it returns goes with its label: label 1 is
    on two authentic images taken at different places of the list, label 0
    on an authentic image with a counterfeit one or on two counterfeit
    images taken at different places of their list. *)
Theorem create_siamese_pairs_labelled (E : oracle) (fuel : nat)
    (authentic_images counterfeit_images : list path) (num_pairs : Z)
    (w : world) :
  exists r w',
    create_siamese_pairs E fuel authentic_images counterfeit_images num_pairs w
    = (Ok r, w')
    /\ (sampling_ends E fuel authentic_images ->
        sampling_ends E fuel counterfeit_images ->
        exists pairs labels, r = Some (pairs, labels))
    /\ forall pairs labels, r = Some (pairs, labels) ->
         Forall2 (labelled authentic_images counterfeit_images) pairs labels.
Proof.
  destruct (create_siamese_pairs_run E fuel authentic_images counterfeit_images
              num_pairs w) as (r & w' & Hrun & Hends & Hres).
  exists r, w'. split; [exact Hrun|]. split.
  { intros Ha Hc. destruct (Hends Ha Hc) as [[pairs labels] ->].
    by exists pairs, labels. }
  intros pairs labels Hr.
  destruct (Hres pairs labels Hr)
    as (new1 & new2 & new3 & -> & -> & _ & _ & _ & Hf1 & Hf2 & Hf3).
  repeat apply Forall2_app.
  - apply Forall2_replicate_r; [done|].
    eapply Forall_impl; [exact Hf1|]. intros p Hp. left. by split.
  - apply Forall2_replicate_r; [done|].
    eapply Forall_impl; [exact Hf2|]. intros p Hp. right. split; [done|by left].
  - apply Forall2_replicate_r; [done|].
    eapply Forall_impl; [exact Hf3|]. intros p Hp. right. split; [done|by right].
Qed.

Lemma create_siamese_pairs_labelled_witness :
  exists pairs labels w',
    create_siamese_pairs demo_oracle 0 many_files three_files 8 empty_world
    = (Ok (Some (pairs, labels)), w')
    /\ Forall2 (labelled many_files three_files) pairs labels.
Proof.
  destruct (create_siamese_pairs_labelled demo_oracle 0 many_files three_files
              8 empty_world) as (r & w' & Hrun & Hends & Hres).
  destruct Hends as (pairs & labels & ->).
  - right. apply demo_oracle_varies.
  - left. simpl. lia.
  - exists pairs, labels, w'. split; [exact Hrun|]. by apply Hres.
Defined.
(** ** [setup_directories], and [check_prerequisites] after it *)

Lemma mkdir_from_makes_dir (above : path) (below : list string) (w : world) :
  is_directory (fs w) above ->
  (mkdir_from above below w).1 = Ok tt ->
  is_directory (fs (mkdir_from above below w).2) (above ++ below).
Proof.
  unfold is_directory.
  revert above w. induction below as [|c below IH]; intros above w Hdir Hok.
  - by rewrite app_nil_r.
  - assert (forall f, lookup_node f (above ++ [c]) = f !! (above ++ [c])) as Hnode
      by (intros f; by destruct above).
    rewrite (cons_middle c above below), app_assoc.
    simpl in *. destruct (fs w !! (above ++ [c])) as [[|content]|] eqn:Hp.
    + apply IH; [|done]. by rewrite Hnode, Hp.
    + done.
    + apply IH; [|done]. rewrite Hnode. simpl. by rewrite lookup_insert_eq.
Qed.

Lemma keeps_directory (w w' : world) (d : path) :
  keeps anywhere w w' -> is_directory (fs w) d -> is_directory (fs w') d.
Proof.
  unfold is_directory. intros Hkeep Hdir. destruct d as [|c d]; [done|].
  simpl in *.
  match type of Hdir with
  | node_is_dir ?o = true => destruct o as [[|content]|] eqn:Hd; try done
  end.
  by rewrite (Hkeep _ _ I Hd).
Qed.

Lemma setup_step_keeps (directory : path) :
  respects (keeps anywhere)
           (mkdir_parents directory ;;
            log INFO ("Created directory: " +:+ str_path directory)).
Proof.
  respects_bind; [apply mkdir_from_keeps|]. apply same_fs_keeps, log_same_fs.
Qed.

Lemma setup_loop_makes_dirs (directories : list path) (w : world) :
  let m := for_each directories
             (fun directory =>
                mkdir_parents directory ;;
                log INFO ("Created directory: " +:+ str_path directory)) in
  (m w).1 = Ok tt ->
  Forall (is_directory (fs (m w).2)) directories.
Proof.
  revert w. induction directories as [|d ds IH]; intros w m; [by constructor|].
  subst m. cbn [for_each].
  set (body := fun directory : path =>
                 mkdir_parents directory ;;
                 log INFO ("Created directory: " +:+ str_path directory)) in *.
  destruct (body d w) as [[[]|e] w1] eqn:Hbody.
  - rewrite (bind_ok _ _ _ _ _ Hbody). intros Hok.
    constructor; [|by apply IH].
    eapply keeps_directory.
    { apply (respects_for_each (keeps anywhere)).
      intros x. apply setup_step_keeps. }
    unfold body, bind in Hbody.
    pose proof (mkdir_from_makes_dir [] d w) as Hdir.
    unfold mkdir_parents in Hbody.
    destruct (mkdir_from [] d w) as [[[]|e] w0]; [|discriminate].
    rewrite log_spec in Hbody. injection Hbody as <-. by apply Hdir.
  - rewrite (bind_err _ _ _ _ _ Hbody). simpl. discriminate.
Qed.

(** X9: When [setup_directories] returns, each of its sixteen directories is
    a directory and everything that was there before still is.  For
    [check_prerequisites] this means: no required directory is missing, so
    the first missing item, if any, is a script or a configuration file,
    and no warning about the data directories is logged. *)
Theorem setup_directories_then_check (project_root : path) (w : world) :
  (setup_directories project_root w).1 = Ok tt ->
  let w' := (setup_directories project_root w).2 in
  Forall (is_directory (fs w')) (setup_directories_list project_root)
  /\ (forall q n, fs w !! q = Some n -> fs w' !! q = Some n)
  /\ (forall what p,
         first_missing (fs w') (required_items project_root) = Some (what, p) ->
         p ∈ script_paths project_root ++ config_paths project_root)
  /\ data_warnings (fs w') project_root = [].
Proof.
  intros Hok w'.
  pose proof (setup_loop_makes_dirs (setup_directories_list project_root) w Hok)
    as Hdirs.
  fold (setup_directories project_root) in Hdirs. fold w' in Hdirs.
  assert (forall d, d ∈ setup_directories_list project_root ->
                    missing (fs w') d = false) as Hthere.
  { intros d Hd. rewrite Forall_forall in Hdirs. specialize (Hdirs d Hd).
    unfold missing, is_directory in *.
    destruct (lookup_node (fs w') d) as [n|]; [|done].
    rewrite bool_decide_eq_true_2; [done|by eexists]. }
  split_and!.
  - exact Hdirs.
  - intros q n Hq.
    apply (respects_for_each (keeps anywhere) _ _ setup_step_keeps w q n I Hq).
  - intros what p Hfind. unfold first_missing, required_items in Hfind.
    rewrite find_app_first in Hfind.
    fold (first_missing (fs w')
            (map (pair "Required directory missing: ")
                 (required_dirs project_root))) in Hfind.
    rewrite find_tagged in Hfind. unfold required_dirs in Hfind.
    cbn [List.find] in Hfind.
    rewrite !Hthere in Hfind
      by (unfold setup_directories_list, scripts_dir, configs_dir;
          set_solver).
    cbn [option_map] in Hfind. apply find_some in Hfind as [Hin _].
    apply in_app_or in Hin. apply elem_of_app.
    destruct Hin as [Hin|Hin]; [left|right];
      apply in_map_iff in Hin as (x & [= _ <-] & Hx);
      by apply list_elem_of_In.
  - unfold data_warnings, data_dirs. cbn [flat_map].
    rewrite !Hthere
      by (unfold setup_directories_list; set_solver).
    done.
Qed.

Lemma setup_directories_then_check_witness :
  let w' := (setup_directories project empty_world).2 in
  Forall (is_directory (fs w')) (setup_directories_list project)
  /\ (forall q n, fs empty_world !! q = Some n -> fs w' !! q = Some n)
  /\ (forall what p,
         first_missing (fs w') (required_items project) = Some (what, p) ->
         p ∈ script_paths project ++ config_paths project)
  /\ data_warnings (fs w') project = [].
Proof.
  apply (setup_directories_then_check project empty_world).
  vm_compute. reflexivity.
Defined.
(** ** [setup_directories] twice *)

Lemma made_keeps (w w' : world) (above : path) (below : list string) :
  keeps anywhere w w' -> made (fs w) above below -> made (fs w') above below.
Proof.
  intros Hkeep. revert above. induction below as [|c below IH]; intros above;
    [done|].
  simpl. intros [Hc Hrest]. split; [by apply Hkeep|by apply IH].
Qed.

Lemma mkdir_from_made (above : path) (below : list string) (w : world) :
  (mkdir_from above below w).1 = Ok tt ->
  made (fs (mkdir_from above below w).2) above below.
Proof.
  revert above w. induction below as [|c below IH]; intros above w Hok; [done|].
  simpl in *. destruct (fs w !! (above ++ [c])) as [[|content]|] eqn:Hp.
  - split; [|by apply IH].
    apply (mkdir_from_keeps anywhere (above ++ [c]) below w); done.
  - done.
  - split; [|by apply IH].
    apply (mkdir_from_keeps anywhere (above ++ [c]) below
             (set_fs (<[above ++ [c] := Dir]> (fs w)) w)); [done|].
    simpl. by rewrite lookup_insert_eq.
Qed.

Lemma mkdir_from_idle (above : path) (below : list string) (w : world) :
  made (fs w) above below -> mkdir_from above below w = (Ok tt, w).
Proof.
  revert above. induction below as [|c below IH]; intros above; [done|].
  simpl. intros [-> Hrest]. by apply IH.
Qed.

Lemma setup_loop_made (directories : list path) (w : world) :
  let m := for_each directories
             (fun directory =>
                mkdir_parents directory ;;
                log INFO ("Created directory: " +:+ str_path directory)) in
  (m w).1 = Ok tt ->
  Forall (made (fs (m w).2) []) directories.
Proof.
  revert w. induction directories as [|d ds IH]; intros w m; [by constructor|].
  subst m. cbn [for_each].
  set (body := fun directory : path =>
                 mkdir_parents directory ;;
                 log INFO ("Created directory: " +:+ str_path directory)) in *.
  destruct (body d w) as [[[]|e] w1] eqn:Hbody.
  - rewrite (bind_ok _ _ _ _ _ Hbody). intros Hok.
    constructor; [|by apply IH].
    eapply made_keeps.
    { apply (respects_for_each (keeps anywhere)).
      intros x. apply setup_step_keeps. }
    unfold body, bind in Hbody.
    pose proof (mkdir_from_made [] d w) as Hmade.
    unfold mkdir_parents in Hbody.
    destruct (mkdir_from [] d w) as [[[]|e] w0]; [|discriminate].
    rewrite log_spec in Hbody. injection Hbody as <-. by apply Hmade.
  - rewrite (bind_err _ _ _ _ _ Hbody). simpl. discriminate.
Qed.

Lemma setup_loop_idle (directories : list path) (w : world) :
  Forall (made (fs w) []) directories ->
  exists records,
    for_each directories
      (fun directory =>
         mkdir_parents directory ;;
         log INFO ("Created directory: " +:+ str_path directory)) w
    = (Ok tt, add_log records w).
Proof.
  revert w. induction directories as [|d ds IH]; intros w Hmade.
  - exists []. by rewrite add_log_nil.
  - apply Forall_cons in Hmade as [Hd Hds]. cbn [for_each].
    assert ((mkdir_parents d ;;
             log INFO ("Created directory: " +:+ str_path d)) w
            = (Ok tt, add_log [(INFO, "Created directory: " +:+ str_path d)] w))
      as Hstep.
    { unfold mkdir_parents.
      rewrite (bind_ok _ _ _ _ _ (mkdir_from_idle [] d w Hd)). apply log_spec. }
    rewrite (bind_ok _ _ _ _ _ Hstep).
    destruct (IH (add_log [(INFO, "Created directory: " +:+ str_path d)] w))
      as (records & Hrun); [done|].
    rewrite Hrun, add_log_add_log. by eexists.
Qed.

(** X15: [setup_directories] can be run again: after a run that returned, a
    second run returns too and leaves the file system as it is. *)
Theorem setup_directories_idempotent (project_root : path) (w : world) :
  (setup_directories project_root w).1 = Ok tt ->
  let w1 := (setup_directories project_root w).2 in
  (setup_directories project_root w1).1 = Ok tt
  /\ fs (setup_directories project_root w1).2 = fs w1.
Proof.
  intros Hok w1.
  pose proof (setup_loop_made (setup_directories_list project_root) w Hok)
    as Hmade.
  fold (setup_directories project_root) in Hmade. fold w1 in Hmade.
  destruct (setup_loop_idle _ _ Hmade) as (records & Hrun).
  fold (setup_directories project_root) in Hrun. by rewrite Hrun.
Qed.

Lemma setup_directories_idempotent_witness :
  let w1 := (setup_directories project empty_world).2 in
  (setup_directories project w1).1 = Ok tt
  /\ fs (setup_directories project w1).2 = fs w1.
Proof.
  apply (setup_directories_idempotent project empty_world).
  vm_compute. reflexivity.
Defined.
(** ** [split_dataset]: where the images go *)

#[global] Instance new_dirs_short_preorder (k : nat) :
  PreOrder (new_dirs_short k).
Proof.
  split; [by left|].
  intros w1 w2 w3 H12 H23 q Hq. destruct (H23 q Hq) as [Hq2|Hk]; [|by right].
  by apply H12.
Qed.

Lemma lookup_node_snoc (f : gmap path node) (p : path) (x : string) :
  lookup_node f (p ++ [x]) = f !! (p ++ [x]).
Proof. by destruct p. Qed.

Lemma is_directory_insert (f : gmap path node) (p q : path) (n : node) :
  is_directory (<[p := n]> f) q ->
  is_directory f q \/ (q = p /\ n = Dir).
Proof.
  unfold is_directory. destruct q as [|c q]; [by left|]. simpl.
  destruct (decide (p = c :: q)) as [->|Hne].
  - rewrite lookup_insert_eq. destruct n; [by right|done].
  - rewrite lookup_insert_ne by done. by left.
Qed.

Lemma mkdir_from_new_dirs (k : nat) (above : path) (below : list string) :
  (length above + length below <= k)%nat ->
  respects (new_dirs_short k) (mkdir_from above below).
Proof.
  revert above. induction below as [|c below IH]; intros above Hk w;
    [by left|].
  assert (length (above ++ [c]) + length below <= k)%nat as Hk'
    by (rewrite length_app; simpl in *; lia).
  simpl. destruct (fs w !! (above ++ [c])) as [[|content]|] eqn:Hp.
  - by apply IH.
  - by left.
  - etrans; [|by apply IH]. intros q Hq. simpl in Hq.
    apply is_directory_insert in Hq as [Hq|[-> _]]; [by left|right]. lia.
Qed.

Lemma write_file_new_dirs (k : nat) (p : path) (content : string) :
  respects (new_dirs_short k) (write_file p content).
Proof.
  intros w q Hq. unfold write_file in Hq. repeat case_match; try by left.
  simpl in Hq. apply is_directory_insert in Hq as [Hq|[_ [=]]]. by left.
Qed.

Lemma copy2_new_dirs (k : nat) (src dst : path) :
  respects (new_dirs_short k) (copy2 src dst).
Proof.
  intros w. unfold copy2.
  destruct (lookup_node (fs w) src) as [[|content]|]; try by left.
  case_bool_decide; [by left|]. apply write_file_new_dirs.
Qed.

Lemma respects_for_each_in {A} (R : world -> world -> Prop) `{!PreOrder R}
    (l : list A) (body : A -> M unit) :
  (forall x, x ∈ l -> respects R (body x)) -> respects R (for_each l body).
Proof.
  induction l as [|x l IH]; intros Hbody; [by apply respects_ret|].
  simpl. apply respects_bind; [done| |intros _].
  - apply Hbody. by left.
  - apply IH. intros y Hy. apply Hbody. by right.
Qed.

(** The loop that copies the files of one split into the directory
    [target]. *)
Lemma copy_loop_copies (target : path) (files : list path) (w w1 : world) :
  for_each files (fun img_file => copy2 img_file (target ++ [name img_file])) w
  = (Ok tt, w1) ->
  (forall f, f ∈ files -> ~ target `prefix_of` f) ->
  (forall x, ~ is_directory (fs w) (target ++ [x])) ->
  (forall f g, f ∈ files -> g ∈ files -> name f = name g -> f = g) ->
  forall f, f ∈ files ->
    exists content, fs w !! f = Some (File content)
                    /\ fs w1 !! (target ++ [name f]) = Some (File content).
Proof.
  revert w. induction files as [|f0 rest IH]; intros w Hrun Hout Hfree Hinj f Hf;
    [by apply elem_of_nil in Hf|].
  simpl in Hrun. unfold bind in Hrun.
  destruct (copy2 f0 (target ++ [name f0]) w) as [[[]|e] wm] eqn:Hcopy;
    [|discriminate].
  unfold copy2 in Hcopy.
  assert (node_is_dir (lookup_node (fs w) (target ++ [name f0])) = false) as Hnd.
  { destruct (node_is_dir _) eqn:Hd; [|done]. by destruct (Hfree (name f0)). }
  rewrite Hnd in Hcopy.
  destruct (lookup_node (fs w) f0) as [[|content]|] eqn:Hsrc; try discriminate.
  case_bool_decide; [discriminate|].
  unfold write_file in Hcopy. rewrite Hnd in Hcopy.
  destruct (node_is_dir (lookup_node (fs w) (parent (target ++ [name f0]))));
    [|discriminate].
  injection Hcopy as <-.
  assert (fs w !! f0 = Some (File content)) as Hf0
    by (destruct f0; [discriminate|exact Hsrc]).
  set (dst0 := target ++ [name f0]) in *.
  set (wm := set_fs (<[dst0 := File content]> (fs w)) w) in *.
  assert (forall g, g ∈ f0 :: rest -> fs wm !! g = fs w !! g) as Hsame.
  { intros g Hg. simpl. rewrite lookup_insert_ne; [done|].
    intros <-. apply (Hout _ Hg). by apply prefix_app_r. }
  specialize (IH wm Hrun).
  destruct (decide (f ∈ rest)) as [Hin|Hnotin].
  - destruct (IH ltac:(intros g Hg; apply Hout; by right)) with (f := f)
      as (c' & Hc' & Hdst); [| |done|].
    + intros x Hx. simpl in Hx.
      apply is_directory_insert in Hx as [Hx|[_ [=]]]. by apply (Hfree x).
    + intros g1 g2 H1 H2. apply Hinj; by right.
    + exists c'. split; [|done]. by rewrite <- (Hsame f Hf).
  - apply elem_of_cons in Hf as [->|Hf]; [|done].
    exists content. split; [done|].
    assert (keeps (fun q => q = dst0) wm w1) as Hkeep.
    { pose proof (respects_for_each_in (keeps (fun q => q = dst0)) rest
                    (fun img_file => copy2 img_file (target ++ [name img_file])))
        as Hloop.
      assert (forall g, g ∈ rest ->
                respects (keeps (fun q => q = dst0))
                         (copy2 g (target ++ [name g]))) as Hbody;
        [|specialize (Hloop Hbody wm); pose proof (f_equal snd Hrun) as Heq;
          simpl in Heq; rewrite <- Heq; exact Hloop].
      intros g Hg. apply copy2_keeps.
      - intros Heq. unfold dst0 in Heq. apply app_inj_tail in Heq as [_ Heq].
        apply Hnotin. rewrite <- (Hinj g f0); [done|by right|by left|done].
      - intros Heq. apply (f_equal length) in Heq. unfold dst0 in Heq.
        rewrite !length_app in Heq. simpl in Heq. lia. }
    apply Hkeep; [done|]. simpl. by rewrite lookup_insert_eq.
Qed.

Lemma copy_split_keeps_target (P : path -> Prop) (project_root : path)
    (dataset_type category_name split_name : string) (file_list : list path) :
  (forall q, P q ->
             ~ (processed_dir project_root
                ++ [split_name; dataset_type; category_name]) `prefix_of` q) ->
  respects (keeps P)
           (copy_split project_root dataset_type category_name
                       (split_name, file_list)).
Proof.
  intros HP. unfold copy_split.
  respects_bind; [apply mkdir_from_keeps|].
  apply respects_for_each; [apply _|]. intros img_file.
  apply copy2_keeps; intros Hq; apply (HP _ Hq).
  - by apply prefix_app_r.
  - by apply prefix_app_r, prefix_app_r.
Qed.

Lemma copy_split_new_dirs (k : nat) (project_root : path)
    (dataset_type category_name : string) (split : string * list path) :
  (length (processed_dir project_root) + 3 <= k)%nat ->
  respects (new_dirs_short k)
           (copy_split project_root dataset_type category_name split).
Proof.
  intros Hk. destruct split as [split_name file_list]. unfold copy_split.
  respects_bind.
  - apply mkdir_from_new_dirs. rewrite length_app. simpl. lia.
  - apply respects_for_each; [apply _|]. intros img_file. apply copy2_new_dirs.
Qed.

Lemma unobstructed_later (project_root : path) (w w' : world) :
  new_dirs_short (length (processed_dir project_root) + 3) w w' ->
  copies_unobstructed project_root (fs w) ->
  copies_unobstructed project_root (fs w').
Proof.
  intros Hnew Hfree split dataset_type category x Hdir.
  destruct (Hnew _ Hdir) as [Hold|Hlen]; [by apply Hfree in Hold|].
  rewrite length_app in Hlen. simpl in Hlen. lia.
Qed.

Lemma copy_split_copies (project_root : path)
    (dataset_type category_name split_name : string) (files : list path)
    (w w1 : world) :
  copy_split project_root dataset_type category_name (split_name, files) w
  = (Ok tt, w1) ->
  (forall f, f ∈ files -> ~ processed_dir project_root `prefix_of` f) ->
  (forall f, f ∈ files -> is_Some (fs w !! f)) ->
  copies_unobstructed project_root (fs w) ->
  (forall f g, f ∈ files -> g ∈ files -> name f = name g -> f = g) ->
  forall f, f ∈ files ->
    exists content,
      fs w !! f = Some (File content)
      /\ fs w1 !! (processed_dir project_root
                   ++ [split_name; dataset_type; category_name; name f])
         = Some (File content).
Proof.
  intros Hrun Hout Hsome Hfree Hinj f Hf. unfold copy_split in Hrun.
  set (target := processed_dir project_root
                 ++ [split_name; dataset_type; category_name]) in *.
  unfold bind in Hrun.
  pose proof (mkdir_from_keeps anywhere [] target w) as Hkeep.
  pose proof (mkdir_from_new_dirs (length target) [] target ltac:(simpl; lia) w)
    as Hnew.
  unfold mkdir_parents in Hrun.
  destruct (mkdir_from [] target w) as [[[]|e] w0]; [|discriminate].
  simpl in Hkeep, Hnew.
  destruct (copy_loop_copies target files w0 w1 Hrun) with (f := f)
    as (content & Hc & Hdst); [| |done|done|].
  - intros g Hg Hpre. apply (Hout g Hg). destruct Hpre as [k ->].
    exists ([split_name; dataset_type; category_name] ++ k).
    unfold target. by rewrite <- !app_assoc.
  - intros x Hx. destruct (Hnew _ Hx) as [Hold|Hlen].
    + apply (Hfree split_name dataset_type category_name x).
      unfold target in Hold. by rewrite <- app_assoc in Hold.
    + rewrite length_app in Hlen. simpl in Hlen. lia.
  - exists content. split.
    + destruct (Hsome f Hf) as [n Hn]. rewrite (Hkeep f n I Hn) in Hc.
      injection Hc as <-. exact Hn.
    + unfold target in Hdst. by rewrite <- app_assoc in Hdst.
Qed.

(** The loop over the splits of one category. *)
Lemma copy_splits_copies (project_root : path)
    (dataset_type category_name : string) (splits : list (string * list path))
    (w w' : world) :
  for_each splits (copy_split project_root dataset_type category_name) w
  = (Ok tt, w') ->
  NoDup splits.*1 ->
  (forall s files f, (s, files) ∈ splits -> f ∈ files ->
                     ~ processed_dir project_root `prefix_of` f
                     /\ is_Some (fs w !! f)) ->
  (forall s1 files1 s2 files2 f g,
      (s1, files1) ∈ splits -> (s2, files2) ∈ splits ->
      f ∈ files1 -> g ∈ files2 -> name f = name g -> f = g) ->
  copies_unobstructed project_root (fs w) ->
  forall s files f, (s, files) ∈ splits -> f ∈ files ->
    exists content,
      fs w !! f = Some (File content)
      /\ fs w' !! (processed_dir project_root
                   ++ [s; dataset_type; category_name; name f])
         = Some (File content).
Proof.
  revert w. induction splits as [|[s0 files0] rest IH];
    intros w Hrun Hnodup Hgood Hinj Hfree s files f Hs Hf;
    [by apply elem_of_nil in Hs|].
  cbn [for_each] in Hrun. simpl in Hnodup.
  apply NoDup_cons in Hnodup as [Hfresh Hnodup].
  unfold bind in Hrun.
  pose proof (copy_split_keeps project_root dataset_type category_name
                (s0, files0) w) as Hkeep.
  pose proof (copy_split_new_dirs (length (processed_dir project_root) + 3)
                project_root dataset_type category_name (s0, files0)
                ltac:(lia) w) as Hnew.
  destruct (copy_split project_root dataset_type category_name (s0, files0) w)
    as [[[]|e] wm] eqn:Hstage; [|discriminate].
  simpl in Hkeep, Hnew.
  assert (forall s files f, (s, files) ∈ (s0, files0) :: rest -> f ∈ files ->
                            forall n, fs w !! f = Some n -> fs wm !! f = Some n)
    as Hsame.
  { intros s1 files1 g Hs1 Hg n Hn. apply Hkeep; [|done].
    by apply (Hgood s1 files1 g). }
  apply elem_of_cons in Hs as [[= -> ->]|Hs].
  - destruct (copy_split_copies project_root dataset_type category_name
                s0 files0 w wm Hstage) with (f := f)
      as (content & Hc & Hdst); [| | | |done|].
    + intros g Hg. apply (Hgood s0 files0 g); [by left|done].
    + intros g Hg. apply (Hgood s0 files0 g); [by left|done].
    + done.
    + intros g1 g2 H1 H2. apply (Hinj s0 files0 s0 files0); by try left.
    + exists content. split; [done|].
      set (p0 := processed_dir project_root
                 ++ [s0; dataset_type; category_name; name f]) in *.
      pose proof (respects_for_each_in (keeps (fun q => q = p0)) rest
                    (copy_split project_root dataset_type category_name))
        as Hloop.
      assert (forall x, x ∈ rest ->
                respects (keeps (fun q => q = p0))
                  (copy_split project_root dataset_type category_name x))
        as Hbody.
      { intros [s1 files1] Hx. apply copy_split_keeps_target.
        intros q -> Hpre. unfold p0 in Hpre.
        apply prefix_app_inv in Hpre. destruct Hpre as [k Hk].
        injection Hk as <- _. apply Hfresh.
        apply list_elem_of_fmap. by exists (s0, files1). }
      specialize (Hloop Hbody wm). pose proof (f_equal snd Hrun) as Heq.
      simpl in Heq. rewrite <- Heq. by apply Hloop.
  - destruct (IH wm Hrun Hnodup) with (s := s) (files := files) (f := f)
      as (content & Hc & Hdst); [| | |done|done|].
    + intros s1 files1 g Hs1 Hg.
      destruct (Hgood s1 files1 g ltac:(by right) Hg) as [Hout [n Hn]].
      split; [done|]. exists n. apply (Hsame s1 files1 g); [by right|done..].
    + intros s1 files1 s2 files2 g1 g2 H1 H2.
      apply (Hinj s1 files1 s2 files2); by right.
    + by apply (unobstructed_later project_root w wm).
    + exists content. split; [|done].
      destruct (Hgood s files f ltac:(by right) Hf) as [_ [n Hn]].
      rewrite (Hsame s files f ltac:(by right) Hf n Hn) in Hc.
      injection Hc as <-. exact Hn.
Qed.

Lemma adjust_index_range (len i : Z) :
  0 <= len -> 0 <= adjust_index len i <= len.
Proof. intros Hlen. unfold adjust_index. case_match; lia. Qed.

Lemma py_slice_sub {A} (l : list A) (start stop : option Z) (x : A) :
  x ∈ py_slice l start stop -> x ∈ l.
Proof.
  unfold py_slice. intros Hx.
  eapply elem_of_sublist; [exact Hx|].
  etrans; [apply sublist_take|apply sublist_drop].
Qed.

(** Whatever the two indices are, the three slices leave no element out. *)
Lemma slices_cover {A} (l : list A) (n_train n_val : Z) (x : A) :
  x ∈ l ->
  x ∈ (slices l n_train n_val).1.1 \/ x ∈ (slices l n_train n_val).1.2
  \/ x ∈ (slices l n_train n_val).2.
Proof.
  intros Hx. apply list_elem_of_lookup in Hx as [i Hi].
  pose proof (lookup_lt_Some _ _ _ Hi) as Hlt.
  unfold slices, py_slice. cbn [fst snd].
  set (len := Z.of_nat (length l)).
  pose proof (adjust_index_range len n_train ltac:(lia)) as Ha.
  pose proof (adjust_index_range len (n_train + n_val) ltac:(lia)) as Hb.
  set (la := adjust_index len n_train) in *.
  set (lb := adjust_index len (n_train + n_val)) in *.
  destruct (decide (Z.of_nat i < la)) as [Hlow|Hlow].
  - left. apply elem_of_take. exists i. split; [|lia].
    by rewrite lookup_drop.
  - destruct (decide (lb <= Z.of_nat i)) as [Hhigh|Hhigh].
    + right; right. apply elem_of_take. exists (i - Z.to_nat lb)%nat.
      split; [|lia]. rewrite lookup_drop. rewrite <- Hi. f_equal. lia.
    + right; left. apply elem_of_take. exists (i - Z.to_nat la)%nat.
      split; [|lia]. rewrite lookup_drop. rewrite <- Hi. f_equal. lia.
Qed.

Lemma split_files_ok {A} (E : oracle) (image_files : list A)
    (train_ratio val_ratio : PyFloat.float) (w w1 : world)
    (files : list A * list A * list A) :
  split_files E image_files train_ratio val_ratio w = (Ok files, w1) ->
  exists shuffled n_train n_val,
    shuffled ≡ₚ image_files /\ files = slices shuffled n_train n_val
    /\ fs w1 = fs w.
Proof.
  unfold split_files.
  destruct (shuffle_spec E image_files w) as (shuffled & Hshuffle & Hperm).
  rewrite (bind_ok _ _ _ _ _ Hshuffle). unfold bind, lift, ret.
  destruct (split_index _ train_ratio) as [n_train|e]; [|discriminate].
  destruct (split_index _ val_ratio) as [n_val|e]; [|discriminate].
  intros [= <- <-]. by exists shuffled, n_train, n_val.
Qed.

Lemma iterdir_elem (f : gmap path node) (d p : path) :
  p ∈ iterdir f d -> p = d ++ [name p] /\ is_Some (f !! p).
Proof.
  unfold iterdir. intros Hp. apply list_elem_of_filter in Hp as [Hchild Hp].
  split.
  - unfold is_child in Hchild. apply bool_decide_eq_true_1 in Hchild as [Hlen Hd].
    rewrite <- (take_drop (length d) p) at 1. rewrite Hd. f_equal.
    assert (length (drop (length d) p) = 1%nat) as Hone
      by (rewrite length_drop; lia).
    destruct (drop (length d) p) as [|x [|y k]] eqn:Hdrop; try discriminate.
    unfold name. rewrite <- (take_drop (length d) p), Hdrop, last_snoc. done.
  - apply list_elem_of_fmap in Hp as ([k v] & -> & Hkv).
    apply elem_of_map_to_list in Hkv. by exists v.
Qed.

Lemma category_images_iterdir (f : gmap path node) (d p : path) :
  p ∈ category_images f d -> p ∈ iterdir f d.
Proof.
  unfold category_images. rewrite !elem_of_app, !list_elem_of_filter. tauto.
Qed.

(** The body of the loop over the categories: when it returns for a
    category directory that has no entry in or above the output directory,
    and no directory sits where a copy goes, every image of the category has
    been copied, with its content, into the directory of the category in one
    of the three splits. *)
Lemma split_category_copies (E : oracle) (project_root : path)
    (train_ratio val_ratio : PyFloat.float) (dataset_type : string)
    (category_dir : path) (w w' : world) :
  split_category E project_root train_ratio val_ratio dataset_type
                 category_dir w = (Ok tt, w') ->
  is_directory (fs w) category_dir ->
  (forall x, ~ processed_dir project_root `prefix_of` category_dir ++ [x]) ->
  copies_unobstructed project_root (fs w) ->
  forall img_file, img_file ∈ category_images (fs w) category_dir ->
    exists split content,
      split ∈ split_names
      /\ fs w !! img_file = Some (File content)
      /\ fs w' !! split_target project_root split dataset_type category_dir
                                img_file
         = Some (File content).
Proof.
  intros Hrun Hdir Hout Hfree img_file Himg.
  unfold split_category, bind at 1, is_dir in Hrun.
  unfold is_directory in Hdir. rewrite Hdir in Hrun. cbn [negb] in Hrun.
  rewrite (bind_ok _ _ _ _ _ (glob_ext_spec _ _ _)),
    (bind_ok _ _ _ _ _ (glob_ext_spec _ _ _)),
    (bind_ok _ _ _ _ _ (glob_ext_spec _ _ _)),
    (bind_ok _ _ _ _ _ (glob_ext_spec _ _ _)) in Hrun.
  fold (category_images (fs w) category_dir) in Hrun.
  remember (category_images (fs w) category_dir) as images eqn:Himages.
  assert (forall g, g ∈ images ->
                    g = category_dir ++ [name g] /\ is_Some (fs w !! g))
    as Hchild.
  { intros g Hg. rewrite Himages in Hg.
    by apply iterdir_elem, category_images_iterdir. }
  clear Himages.
  destruct images as [|x rest]; [by apply elem_of_nil in Himg|].
  set (image_files := x :: rest) in *.
  unfold bind at 1 in Hrun.
  destruct (split_files E image_files train_ratio val_ratio w)
    as [[[[train_files val_files] test_files]|e] ws] eqn:Hfiles; [|discriminate].
  destruct (split_files_ok _ _ _ _ _ _ _ Hfiles)
    as (shuffled & n_train & n_val & Hperm & Hslices & Hfs).
  unfold bind at 1 in Hrun.
  destruct (for_each [("train", train_files); ("val", val_files);
                      ("test", test_files)]
              (copy_split project_root dataset_type (name category_dir)) ws)
    as [[[]|e] w3] eqn:Hcopy; [|discriminate].
  rewrite log_spec in Hrun. injection Hrun as <-.
  assert (forall s files g,
             (s, files) ∈ [("train", train_files); ("val", val_files);
                           ("test", test_files)] ->
             g ∈ files -> g ∈ image_files) as Hsub.
  { intros s files g Hs Hg. rewrite <- Hperm.
    assert (files = (slices shuffled n_train n_val).1.1
            \/ files = (slices shuffled n_train n_val).1.2
            \/ files = (slices shuffled n_train n_val).2) as Hfiles_eq.
    { rewrite <- Hslices. simpl.
      rewrite !elem_of_cons in Hs.
      destruct Hs as [[= _ ->]|[[= _ ->]|[[= _ ->]|Hs]]]; auto.
      by apply elem_of_nil in Hs. }
    unfold slices in Hfiles_eq. simpl in Hfiles_eq.
    destruct Hfiles_eq as [->|[->| ->]]; by apply py_slice_sub in Hg. }
  assert (exists s files,
             (s, files) ∈ [("train", train_files); ("val", val_files);
                           ("test", test_files)]
             /\ s ∈ split_names /\ img_file ∈ files) as (s & files & Hs & Hname & Hin).
  { rewrite <- Hperm in Himg.
    pose proof (slices_cover shuffled n_train n_val img_file Himg) as Hcover.
    rewrite <- Hslices in Hcover. simpl in Hcover. unfold split_names.
    destruct Hcover as [Hc|[Hc|Hc]].
    - exists "train", train_files. split_and!; [|by repeat constructor|done].
      by repeat constructor.
    - exists "val", val_files. split_and!; [|by repeat constructor|done].
      by repeat constructor.
    - exists "test", test_files. split_and!; [|by repeat constructor|done].
      by repeat constructor. }
  destruct (copy_splits_copies project_root dataset_type (name category_dir)
              _ ws w3 Hcopy) with (s := s) (files := files) (f := img_file)
    as (content & Hc & Hdst); [| | | |done|done|].
  - apply (bool_decide_unpack _). vm_compute. exact I.
  - intros s1 files1 g Hs1 Hg. rewrite Hfs.
    destruct (Hchild g (Hsub _ _ _ Hs1 Hg)) as [Hg_eq Hsome].
    split; [|done]. rewrite Hg_eq. apply Hout.
  - intros s1 files1 s2 files2 g1 g2 H1 H2 Hg1 Hg2 Hnames.
    destruct (Hchild g1 (Hsub _ _ _ H1 Hg1)) as [Hg1_eq _].
    destruct (Hchild g2 (Hsub _ _ _ H2 Hg2)) as [Hg2_eq _].
    by rewrite Hg1_eq, Hg2_eq, Hnames.
  - by rewrite Hfs.
  - exists s, content. rewrite <- Hfs. by split_and!.
Qed.
(** ** [split_dataset]: every image is copied *)

Lemma glob_all_spec (d : path) (w : world) :
  glob_all d w = (Ok (iterdir (fs w) d), w).
Proof. done. Qed.

Lemma same_fs_new_dirs {A} (k : nat) (m : M A) :
  respects same_fs m -> respects (new_dirs_short k) m.
Proof. intros Hm w q Hq. left. by rewrite (Hm w) in Hq. Qed.

#[global] Instance splitting_preorder (project_root : path) :
  PreOrder (splitting project_root).
Proof.
  split.
  - intros w. split; reflexivity.
  - intros w1 w2 w3 [K1 N1] [K2 N2]. split; etrans; eassumption.
Qed.

Lemma split_category_respects (R : world -> world -> Prop) `{!PreOrder R}
    (E : oracle) (project_root : path) (train_ratio val_ratio : PyFloat.float)
    (dataset_type : string) (category_dir : path) :
  (forall A (m : M A), respects same_fs m -> respects R m) ->
  (forall split,
      respects R (copy_split project_root dataset_type (name category_dir)
                             split)) ->
  respects R (split_category E project_root train_ratio val_ratio dataset_type
                             category_dir).
Proof.
  intros Hsame Hcopy. unfold split_category.
  respects_bind; [apply Hsame, is_dir_same_fs|].
  destruct (negb _); [respects_done|].
  do 4 (respects_bind; [apply Hsame, glob_ext_same_fs|]).
  destruct (_ ++ _ ++ _ ++ _); [respects_done|].
  respects_bind; [apply Hsame, split_files_same_fs|].
  match goal with a : (_ * _ * _)%type |- _ => destruct a as [[tr va] te] end.
  respects_bind.
  - apply respects_for_each; [apply _|]. intros split. apply Hcopy.
  - apply Hsame, log_same_fs.
Qed.

Lemma split_type_respects (R : world -> world -> Prop) `{!PreOrder R}
    (E : oracle) (project_root : path) (train_ratio val_ratio : PyFloat.float)
    (dataset_type : string) :
  (forall A (m : M A), respects same_fs m -> respects R m) ->
  (forall category_dir,
      respects R (split_category E project_root train_ratio val_ratio
                                 dataset_type category_dir)) ->
  respects R (split_type E project_root train_ratio val_ratio dataset_type).
Proof.
  intros Hsame Hcategory. unfold split_type.
  respects_bind; [apply Hsame, path_exists_same_fs|].
  destruct (negb _); [respects_done|].
  respects_bind; [apply Hsame, glob_all_same_fs|].
  apply respects_for_each; [apply _|]. intros category_dir. apply Hcategory.
Qed.

Lemma same_fs_splitting {A} (project_root : path) (m : M A) :
  respects same_fs m -> respects (splitting project_root) m.
Proof.
  intros Hm w. split; [by apply same_fs_keeps|by apply same_fs_new_dirs].
Qed.

Lemma copy_split_splitting (project_root : path)
    (dataset_type category_name : string) (split : string * list path) :
  respects (splitting project_root)
           (copy_split project_root dataset_type category_name split).
Proof.
  intros w. split; [apply copy_split_keeps|].
  apply copy_split_new_dirs. lia.
Qed.

Lemma split_type_splitting (E : oracle) (project_root : path)
    (train_ratio val_ratio : PyFloat.float) (dataset_type : string) :
  respects (splitting project_root)
           (split_type E project_root train_ratio val_ratio dataset_type).
Proof.
  apply split_type_respects; [apply _|intros A m; apply same_fs_splitting|].
  intros category_dir.
  apply split_category_respects; [apply _|intros A m; apply same_fs_splitting|].
  intros split. apply copy_split_splitting.
Qed.

(** A loop that returns has run the body for each element; what the other
    elements respect holds from there to the end. *)
Lemma for_each_visit {A} (R R' : world -> world -> Prop)
    `{!PreOrder R, !PreOrder R'} (l : list A) (body : A -> M unit) (x : A)
    (w w' : world) :
  for_each l body w = (Ok tt, w') -> NoDup l -> x ∈ l ->
  (forall y, y ∈ l -> respects R (body y)) ->
  (forall y, y ∈ l -> y <> x -> respects R' (body y)) ->
  exists wa wb, body x wa = (Ok tt, wb) /\ R w wa /\ R' wb w'.
Proof.
  revert w. induction l as [|y l IH]; intros w Hrun Hnodup Hx HR HR';
    [by apply elem_of_nil in Hx|].
  apply NoDup_cons in Hnodup as [Hfresh Hnodup].
  cbn [for_each] in Hrun. unfold bind in Hrun.
  pose proof (HR y ltac:(by left) w) as Hstep.
  destruct (body y w) as [[[]|e] w1] eqn:Hbody; [|discriminate].
  simpl in Hstep.
  apply elem_of_cons in Hx as [->|Hx].
  - exists w, w1. split_and!; [done|reflexivity|].
    pose proof (respects_for_each_in R' l body) as Hloop.
    assert (forall z, z ∈ l -> respects R' (body z)) as Hrest.
    { intros z Hz. apply HR'; [by right|]. by intros ->. }
    specialize (Hloop Hrest w1). pose proof (f_equal snd Hrun) as Heq.
    simpl in Heq. by rewrite <- Heq.
  - destruct (IH w1 Hrun Hnodup Hx) as (wa & wb & Hvisit & Hbefore & Hafter).
    + intros z Hz. apply HR. by right.
    + intros z Hz. apply HR'. by right.
    + exists wa, wb. split_and!; [done| |done]. by etrans.
Qed.

Lemma iterdir_NoDup (f : gmap path node) (d : path) : NoDup (iterdir f d).
Proof. unfold iterdir. apply NoDup_filter, NoDup_fst_map_to_list. Qed.

Lemma iterdir_elem_iff (f : gmap path node) (d p : path) :
  p ∈ iterdir f d <-> is_child d p = true /\ is_Some (f !! p).
Proof.
  unfold iterdir. rewrite list_elem_of_filter, list_elem_of_fmap. split.
  - intros [Hchild ([k v] & -> & Hkv)]. split; [done|].
    apply elem_of_map_to_list in Hkv. by exists v.
  - intros [Hchild [v Hv]]. split; [done|]. exists (p, v). split; [done|].
    by apply elem_of_map_to_list.
Qed.

Lemma iterdir_keeps (P : path -> Prop) (w w' : world) (d p : path) :
  keeps P w w' -> P p -> p ∈ iterdir (fs w) d -> p ∈ iterdir (fs w') d.
Proof.
  intros Hkeep HP. rewrite !iterdir_elem_iff. intros [Hchild [n Hn]].
  split; [done|]. exists n. by apply Hkeep.
Qed.

Lemma category_images_keeps (P : path -> Prop) (w w' : world) (d p : path) :
  keeps P w w' -> P p ->
  p ∈ category_images (fs w) d -> p ∈ category_images (fs w') d.
Proof.
  intros Hkeep HP. unfold category_images.
  rewrite !elem_of_app, !list_elem_of_filter.
  pose proof (iterdir_keeps P w w' d p Hkeep HP). tauto.
Qed.

Lemma keeps_is_directory (P : path -> Prop) (w w' : world) (d : path) :
  keeps P w w' -> P d -> is_directory (fs w) d -> is_directory (fs w') d.
Proof.
  unfold is_directory. intros Hkeep HP Hdir. destruct d as [|c d]; [done|].
  simpl in *.
  match type of Hdir with
  | node_is_dir ?o = true => destruct o as [[|content]|] eqn:Hd; try done
  end.
  by rewrite (Hkeep _ _ HP Hd).
Qed.

Lemma images_apart (project_root : path) (k : list string) :
  ~ processed_dir project_root `prefix_of` images_dir project_root ++ k.
Proof.
  unfold processed_dir, images_dir. rewrite <- app_assoc. intros Hpre.
  apply prefix_app_inv in Hpre. destruct Hpre as [k' Hk'].
  simpl in Hk'. discriminate.
Qed.

Lemma copy_split_keeps_copy (project_root : path) (dataset_type : string)
    (category_dir : path) (dataset_type' category_name' : string)
    (split : string * list path) :
  dataset_type' <> dataset_type \/ category_name' <> name category_dir ->
  respects (keeps (category_copy project_root dataset_type category_dir))
           (copy_split project_root dataset_type' category_name' split).
Proof.
  intros Hother. destruct split as [split_name file_list].
  apply copy_split_keeps_target. intros q (s & x & ->) Hpre.
  apply prefix_app_inv in Hpre. destruct Hpre as [k Hk].
  simpl in Hk. injection Hk as _ Ht Hc _. destruct Hother; congruence.
Qed.

(** X10: When [split_dataset] returns, and no directory sat where a copy goes,
    every image of every category directory of the two classes has been
    copied, with its content, to the directory of its class and category in
    one of the three splits, whatever the ratios are. *)
Theorem split_dataset_copies (E : oracle) (project_root : path)
    (train_ratio val_ratio test_ratio : PyFloat.float) (w w' : world)
    (summary : split_summary) (dataset_type : string)
    (category_dir img_file : path) :
  split_dataset E project_root train_ratio val_ratio test_ratio w
  = (Ok summary, w') ->
  copies_unobstructed project_root (fs w) ->
  dataset_type ∈ dataset_types ->
  missing (fs w) (images_dir project_root ++ [dataset_type]) = false ->
  category_dir ∈ category_dirs (fs w) (images_dir project_root ++ [dataset_type]) ->
  img_file ∈ category_images (fs w) category_dir ->
  exists split content,
    split ∈ split_names
    /\ fs w !! img_file = Some (File content)
    /\ fs w' !! split_target project_root split dataset_type category_dir
                              img_file
       = Some (File content).
Proof.
  intros Hrun Hfree Htype Hexists Hcategory Himg.
  set (type_dir := images_dir project_root ++ [dataset_type]) in *.
  set (P := category_copy project_root dataset_type category_dir).
  unfold category_dirs in Hcategory.
  apply list_elem_of_filter in Hcategory as [Hdir Hcategory].
  fold (is_directory (fs w) category_dir) in Hdir.
  destruct (iterdir_elem _ _ _ Hcategory) as [Hcategory_eq _].
  destruct (iterdir_elem _ _ _ (category_images_iterdir _ _ _ Himg))
    as [Himg_eq [n Hn]].
  assert (outside (processed_dir project_root) type_dir) as Hout_type
    by apply images_apart.
  assert (outside (processed_dir project_root) category_dir) as Hout_category.
  { rewrite Hcategory_eq. unfold type_dir. rewrite <- app_assoc.
    apply images_apart. }
  assert (forall x, outside (processed_dir project_root) (category_dir ++ [x]))
    as Hout_entries.
  { intros x. rewrite Hcategory_eq. unfold type_dir. rewrite <- !app_assoc.
    apply images_apart. }
  assert (outside (processed_dir project_root) img_file) as Hout_img
    by (rewrite Himg_eq; apply Hout_entries).
  (* the steps before the loop over the classes *)
  unfold split_dataset, validate_ratios in Hrun.
  destruct (ratios_off _ _ _); [discriminate|].
  change (split_dataset_body E project_root train_ratio val_ratio test_ratio w
          = (Ok summary, w')) in Hrun.
  unfold split_dataset_body in Hrun.
  rewrite (bind_ok _ _ _ _ _ (log_spec _ _ _)) in Hrun.
  unfold bind at 1 in Hrun.
  match type of Hrun with
  | context [for_each ["train"; "val"; "test"] ?body ?w0] =>
      assert (splitting project_root w
                (for_each ["train"; "val"; "test"] body w0).2) as Hmk;
      [|destruct (for_each ["train"; "val"; "test"] body w0)
          as [[[]|e] w_a]; [|discriminate]]
  end.
  { match goal with |- splitting _ _ (for_each _ ?body ?w0).2 =>
      assert (respects (splitting project_root)
                       (for_each ["train"; "val"; "test"] body)) as Hloop;
      [|transitivity w0; [|apply Hloop]]
    end.
    - apply respects_for_each; [apply _|]. intros split.
      apply respects_for_each; [apply _|]. intros t w0.
      split; [apply mkdir_from_keeps|].
      apply mkdir_from_new_dirs. simpl. rewrite length_app. simpl. lia.
    - split; [by intros q n0 _ Hq|by left]. }
  simpl in Hmk. unfold bind at 1 in Hrun.
  destruct (for_each dataset_types
              (split_type E project_root train_ratio val_ratio) w_a)
    as [[[]|e] w_b] eqn:Htypes; [|discriminate].
  (* the end: the counts, the summary *)
  assert (keeps P w_b w') as Hend.
  { assert (respects (keeps P)
              (counts <- count_splits project_root ["train"; "val"; "test"] ;;
               write_file (processed_dir project_root ++ ["dataset_splits.json"])
                 (json_dumps_summary E
                    (SplitSummary (train_ratio, val_ratio, test_ratio) counts)) ;;
               log INFO "Dataset splitting completed" ;;
               ret (SplitSummary (train_ratio, val_ratio, test_ratio) counts)))
      as Hrest.
    { respects_bind; [apply same_fs_keeps, count_splits_same_fs|].
      respects_bind.
      - apply write_file_keeps. intros (s & x & Heq).
        apply app_inv_head in Heq. discriminate.
      - respects_bind; [apply same_fs_keeps, log_same_fs|]. respects_done. }
    specialize (Hrest w_b). pose proof (f_equal snd Hrun) as Heq.
    simpl in Heq. rewrite <- Heq. exact Hrest. }
  (* the class *)
  destruct (for_each_visit (splitting project_root) (keeps P) dataset_types
              (split_type E project_root train_ratio val_ratio) dataset_type
              w_a w_b Htypes)
    as (wa & wb & Htype_run & Hbefore_type & Hafter_type); [| done | | |].
  { apply (bool_decide_unpack _). vm_compute. exact I. }
  { intros t _. apply split_type_splitting. }
  { intros t _ Hne.
    apply split_type_respects; [apply _|intros A m; apply same_fs_keeps|].
    intros c.
    apply split_category_respects; [apply _|intros A m; apply same_fs_keeps|].
    intros split. apply copy_split_keeps_copy. by left. }
  assert (splitting project_root w wa) as [Kwa Nwa]
    by (transitivity w_a; done).
  unfold split_type in Htype_run. fold type_dir in Htype_run.
  rewrite (bind_ok _ _ _ _ _ (path_exists_spec _ _)) in Htype_run.
  assert (missing (fs wa) type_dir = false) as Hexists_wa.
  { unfold missing in *. apply negb_false_iff in Hexists.
    apply bool_decide_eq_true_1 in Hexists as [d Hd].
    apply negb_false_iff, bool_decide_eq_true_2. exists d.
    unfold type_dir in *. rewrite lookup_node_snoc in *. by apply Kwa. }
  rewrite Hexists_wa in Htype_run. cbn [negb] in Htype_run.
  rewrite (bind_ok _ _ _ _ _ (glob_all_spec _ _)) in Htype_run.
  (* the category *)
  destruct (for_each_visit (splitting project_root) (keeps P)
              (iterdir (fs wa) type_dir)
              (split_category E project_root train_ratio val_ratio dataset_type)
              category_dir wa wb Htype_run)
    as (wc & wd & Hcategory_run & Hbefore & Hafter).
  { apply iterdir_NoDup. }
  { by apply (iterdir_keeps _ w wa _ _ Kwa). }
  { intros c _.
    apply split_category_respects; [apply _|intros A m; apply same_fs_splitting|].
    intros split. apply copy_split_splitting. }
  { intros c Hc Hne.
    apply split_category_respects; [apply _|intros A m; apply same_fs_keeps|].
    intros split. apply copy_split_keeps_copy. right. intros Hname.
    apply Hne. destruct (iterdir_elem _ _ _ Hc) as [-> _].
    by rewrite Hcategory_eq, Hname. }
  assert (splitting project_root w wc) as [Kwc Nwc]
    by (transitivity wa; [by split|done]).
  destruct (split_category_copies E project_root train_ratio val_ratio
              dataset_type category_dir wc wd Hcategory_run)
    with (img_file := img_file) as (split & content & Hsplit & Hsrc & Hdst).
  { by apply (keeps_is_directory _ w wc _ Kwc). }
  { exact Hout_entries. }
  { by apply (unobstructed_later project_root w wc). }
  { by apply (category_images_keeps _ w wc _ _ Kwc). }
  exists split, content. split_and!; [done| |].
  - rewrite (Kwc _ _ Hout_img Hn) in Hsrc. injection Hsrc as <-. exact Hn.
  - apply Hend, Hafter_type, Hafter; [by exists split, (name img_file)..|done].
Qed.

Lemma split_dataset_copies_witness :
  exists split content,
    split ∈ split_names
    /\ fs gallery_world !! (paracetamol_dir ++ ["a.jpg"]) = Some (File content)
    /\ fs (split_dataset demo_oracle project PyFloat.lit_0_7 PyFloat.lit_0_2
             PyFloat.lit_0_1 gallery_world).2
       !! split_target project split "authentic" paracetamol_dir
                       (paracetamol_dir ++ ["a.jpg"])
       = Some (File content).
Proof.
  eapply (split_dataset_copies demo_oracle project PyFloat.lit_0_7
            PyFloat.lit_0_2 PyFloat.lit_0_1 gallery_world _ _ "authentic").
  - apply (run_ok _ _ (SplitSummary (PyFloat.lit_0_7, PyFloat.lit_0_2,
                                     PyFloat.lit_0_1) [])).
    vm_compute. reflexivity.
  - intros split dataset_type category x Hdir. unfold is_directory in Hdir.
    change (processed_dir project ++ [split; dataset_type; category; x])
      with ["srv"; "shield-drug"; "data"; "processed";
            split; dataset_type; category; x] in Hdir.
    cbn [lookup_node fs gallery_world] in Hdir.
    destruct (gallery_fs !! _) as [n|] eqn:Hq; [|discriminate].
    apply elem_of_list_to_map_2 in Hq.
    repeat (apply elem_of_cons in Hq as [Hq|Hq];
            [vm_compute in Hq; discriminate|]).
    by apply elem_of_nil in Hq.
  - apply (bool_decide_unpack _). vm_compute. exact I.
  - vm_compute. reflexivity.
  - apply (bool_decide_unpack _). vm_compute. exact I.
  - apply (bool_decide_unpack _). vm_compute. exact I.
Defined.
(** ** [main]: nothing is trained without the prerequisites *)

Lemma check_prerequisites_stops (project_root : path) (w : world)
    (item : string * path) :
  first_missing (fs w) (required_items project_root) = Some item ->
  (check_prerequisites project_root w).1 = Ok false.
Proof.
  intros Hmiss. unfold required_items, first_missing in Hmiss.
  rewrite !find_app_first in Hmiss.
  pose proof (find_tagged (fs w) "Required directory missing: "
                (required_dirs project_root)) as H1.
  pose proof (find_tagged (fs w) "Required training script missing: "
                (script_paths project_root)) as H2.
  pose proof (find_tagged (fs w) "Required config file missing: "
                (config_paths project_root)) as H3.
  unfold first_missing in H1, H2, H3. rewrite H1, H2, H3 in Hmiss.
  unfold check_prerequisites.
  rewrite (bind_ok _ _ _ _ _ (log_spec _ _ _)).
  unfold bind at 1. rewrite require_all_spec. simpl (fs _).
  destruct (List.find (missing (fs w)) (required_dirs project_root)) as [p|];
    [done|].
  cbn [negb]. unfold bind at 1. rewrite require_all_spec. simpl (fs _).
  destruct (List.find (missing (fs w)) (script_paths project_root)) as [p|];
    [done|].
  cbn [negb]. unfold bind at 1. rewrite require_all_spec. simpl (fs _).
  destruct (List.find (missing (fs w)) (config_paths project_root)) as [p|];
    [done|].
  discriminate.
Qed.

Lemma prepare_stops (E : oracle) (a : args) (w : world) (item : string * path) :
  first_missing (fs w) (required_items (arg_project_root a)) = Some item ->
  exists records,
    prepare E a w
    = (Ok false,
       World (fs w) (ticks w) (draws w) (spawned w) (logged w ++ records)
             initial_training_status []).
Proof.
  intros Hmiss. unfold prepare.
  rewrite (bind_ok _ _ _ _ _ (log_spec _ _ _)).
  rewrite (bind_ok _ _ _ _ _ (log_spec _ _ _)).
  unfold bind at 1. simpl.
  unfold bind at 1.
  match goal with |- context [check_prerequisites ?r ?w0] =>
    pose proof (check_prerequisites_stops r w0 item Hmiss) as Hstop;
    destruct (check_prerequisites_run r w0) as (ok & records & Hrun)
  end.
  rewrite Hrun in *. simpl in Hstop. injection Hstop as ->.
  cbn [negb]. rewrite (bind_ok _ _ _ _ _ (log_spec _ _ _)).
  unfold ret, add_log. simpl. rewrite <- !app_assoc. by eexists.
Qed.

(** X11: When a required directory, training script or configuration file is
    missing, [main] (with arguments that [argparse] accepts) ends with exit
    status 1: no process has been started, every job is still as [__init__]
    made it, and no file or directory has been touched other than
    [training.log], to which the logger appends its records. *)
Theorem main_needs_prerequisites (E : oracle) (a : args) (w : world)
    (item : string * path) :
  args_ok a = true ->
  first_missing (fs w) (required_items (arg_project_root a)) = Some item ->
  (main E a w).1 = 1
  /\ (forall q, not_handler_log q -> fs (main E a w).2 !! q = fs w !! q)
  /\ spawned (main E a w).2 = spawned w
  /\ training_status (main E a w).2 = initial_training_status.
Proof.
  intros Hargs Hmiss. unfold main, main_body. rewrite Hargs. cbn [negb].
  destruct (prepare_stops E a w item Hmiss) as (records & Hprepare).
  rewrite (bind_ok _ _ _ _ _ Hprepare). cbn [negb]. unfold ret.
  by split_and!.
Qed.

Lemma main_needs_prerequisites_witness :
  (main demo_oracle (Args None false project) empty_world).1 = 1
  /\ fs (main demo_oracle (Args None false project) empty_world).2
     !! scripts_dir project = None
  /\ spawned (main demo_oracle (Args None false project) empty_world).2
     = spawned empty_world
  /\ training_status (main demo_oracle (Args None false project) empty_world).2
     = initial_training_status.
Proof.
  destruct (main_needs_prerequisites demo_oracle (Args None false project)
              empty_world
              ("Required directory missing: ", scripts_dir project))
    as (Hexit & Hfs & Hspawned & Hjobs).
  - reflexivity.
  - vm_compute. reflexivity.
  - split_and!; [exact Hexit| |exact Hspawned|exact Hjobs].
    rewrite Hfs; [reflexivity|discriminate].
Defined.
(** ** [train_all_models]: what a session leaves alone *)

#[global] Instance unrequested_kept_preorder (ms : list string) :
  PreOrder (unrequested_kept ms).
Proof.
  split; [by intros w other _|].
  intros w1 w2 w3 H12 H23 other Hother. by rewrite H23, H12.
Qed.

Lemma keeps_weaken (P Q : path -> Prop) {A} (m : M A) :
  (forall q, P q -> Q q) -> respects (keeps Q) m -> respects (keeps P) m.
Proof. intros HPQ Hm w q n Hq. apply Hm. by apply HPQ. Qed.

Lemma train_model_session (E : oracle) (project_root : path) (ms : list string)
    (model_name script_name config_name : string) :
  model_name ∈ ms ->
  respects (keeps (not_a_log project_root ms))
           (train_model E project_root model_name script_name config_name)
  /\ respects (unrequested_kept ms)
              (train_model E project_root model_name script_name config_name)
  /\ respects (started_within 1)
              (train_model E project_root model_name script_name config_name).
Proof.
  intros Hin. split_and!.
  - apply (keeps_weaken _ (apart_from (log_file_path project_root model_name)));
      [|apply train_model_keeps].
    intros q Hq. by apply Hq.
  - intros w other Hother.
    apply (train_model_job_step E project_root model_name script_name
             config_name w).
    by intros ->.
  - intros w.
    destruct (train_model_job_step E project_root model_name script_name
                config_name w) as ([Hsame|Hone] & _).
    + unfold started_within. rewrite Hsame. lia.
    + unfold started_within. rewrite Hone, length_app. simpl. lia.
Qed.

Lemma train_loop_session (E : oracle) (project_root : path) (ms : list string)
    (models_to_train successful_models failed_models : list string) :
  models_to_train ⊆ ms ->
  respects (keeps (not_a_log project_root ms))
           (train_loop E project_root models_to_train successful_models
                       failed_models)
  /\ respects (unrequested_kept ms)
              (train_loop E project_root models_to_train successful_models
                          failed_models)
  /\ respects (started_within (length models_to_train))
              (train_loop E project_root models_to_train successful_models
                          failed_models).
Proof.
  revert successful_models failed_models.
  induction models_to_train as [|model_name rest IH];
    intros successful_models failed_models Hsub.
  - split_and!; [respects_done..|]. intros w. unfold started_within. simpl. lia.
  - assert (model_name ∈ ms) as Hin by (apply Hsub; by left).
    assert (rest ⊆ ms) as Hrest by (intros m Hm; apply Hsub; by right).
    simpl. destruct (model_configs !! model_name) as [[script_name config_name]|].
    + destruct (train_model_session E project_root ms model_name script_name
                  config_name Hin) as (Hk & Hu & Hs).
      split_and!.
      * respects_bind; [done|]. case_match.
        -- by apply IH.
        -- respects_bind; [apply same_fs_keeps, log_same_fs|]. by apply IH.
      * respects_bind; [done|]. case_match.
        -- by apply IH.
        -- respects_bind; [by intros w other _|]. by apply IH.
      * intros w. unfold bind at 1. specialize (Hs w).
        destruct (train_model _ _ _ _ _ w) as [[b|e] w1];
          [|unfold started_within in *; simpl in *; lia].
        assert (started_within (length rest) w1
                  ((if b
                    then train_loop E project_root rest
                           (successful_models ++ [model_name]) failed_models
                    else
                      log ERROR ("Training failed for " +:+ model_name
                                 +:+ ", continuing with next model...") ;;
                      train_loop E project_root rest successful_models
                                 (failed_models ++ [model_name])) w1).2) as Hrest'.
        { destruct b; [by apply IH|].
          rewrite (bind_ok _ _ _ _ _ (log_spec _ _ _)).
          match goal with |- started_within _ _ (train_loop _ _ _ ?s ?f ?w0).2 =>
            destruct (IH s f Hrest) as (_ & _ & Hc); specialize (Hc w0) end.
          exact Hc. }
        unfold started_within in *. simpl in *. lia.
    + split_and!.
      * respects_bind; [apply same_fs_keeps, log_same_fs|]. by apply IH.
      * respects_bind; [by intros w other _|]. by apply IH.
      * intros w. rewrite (bind_ok _ _ _ _ _ (log_spec _ _ _)).
        match goal with |- started_within _ _ (train_loop _ _ _ ?s ?f ?w0).2 =>
          destruct (IH s f Hrest) as (_ & _ & Hc); specialize (Hc w0) end.
        unfold started_within in *. simpl in *. lia.
Qed.

(** X12: Whatever happens in [train_all_models], the orchestrator itself
    changes no existing file or directory other than the log files of the
    requested models and [training.log], to which its logger appends,
    leaves the entries of the models that were not requested as they were,
    and starts at most one process for each requested name. *)
Theorem train_all_models_frame (E : oracle) (project_root : path)
    (models_to_train : option (list string)) (w : world) :
  let ms := default default_models models_to_train in
  let w' := (train_all_models E project_root models_to_train w).2 in
  (forall q n, (forall m, m ∈ ms -> q <> log_file_path project_root m) ->
               not_handler_log q ->
               fs w !! q = Some n -> fs w' !! q = Some n)
  /\ (forall other, other ∉ ms ->
                    training_status w' !! other = training_status w !! other)
  /\ (length (spawned w') <= length (spawned w) + length ms)%nat.
Proof.
  intros ms w'. unfold train_all_models in w'.
  destruct (train_loop_session E project_root ms ms [] [] ltac:(done))
    as (Hk & Hu & Hs).
  split_and!; [|apply (Hu w)|apply (Hs w)].
  intros q n Hq _. by apply (Hk w).
Qed.

Lemma train_all_models_frame_witness :
  let w' := (train_all_models demo_oracle project (Some ["pill_detector"])
               ready_world).2 in
  fs w' !! (scripts_dir project ++ ["train_pill_detector.py"]) = Some (File "")
  /\ training_status w' !! "drug_classifier"
     = training_status ready_world !! "drug_classifier".
Proof.
  intros w'.
  pose proof (train_all_models_frame demo_oracle project
                (Some ["pill_detector"]) ready_world) as H.
  cbv zeta in H. destruct H as (Hfs & Hjobs & _). split.
  - apply Hfs; [|discriminate|vm_compute; reflexivity].
    intros m Hm. apply list_elem_of_singleton in Hm as ->. discriminate.
  - apply Hjobs. intros Hm. apply list_elem_of_singleton in Hm. discriminate.
Defined.
(** ** The set-up script, and [check_prerequisites] after it *)

#[global] Instance dirs_kept_preorder : PreOrder dirs_kept.
Proof.
  split; [by intros w d|]. intros w1 w2 w3 H12 H23 d Hd. by apply H23, H12.
Qed.

Lemma same_fs_dirs_kept {A} (m : M A) :
  respects same_fs m -> respects dirs_kept m.
Proof. intros Hm w d Hd. by rewrite (Hm w). Qed.

Lemma write_file_dirs_kept (p : path) (content : string) :
  respects dirs_kept (write_file p content).
Proof.
  intros w d Hd. unfold write_file.
  destruct (node_is_dir (lookup_node (fs w) p)) eqn:Hp; [done|].
  destruct (node_is_dir (lookup_node (fs w) (parent p))); [|done].
  simpl. unfold is_directory in *. destruct d as [|c d]; [done|]. simpl in *.
  destruct (decide (p = c :: d)) as [->|Hne].
  - simpl in Hp. congruence.
  - by rewrite lookup_insert_ne.
Qed.

Lemma install_dependencies_same_fs (pip_run : string -> option exn) :
  respects same_fs (install_dependencies pip_run).
Proof.
  unfold install_dependencies.
  respects_bind; [apply log_same_fs|].
  apply respects_for_each; [apply _|]. intros requirement.
  destruct (pip_run requirement) as [e|]; [|apply log_same_fs].
  destruct (exn_cls e); first [apply log_same_fs|respects_done].
Qed.

Lemma find_all_false {A} (f : A -> bool) (l : list A) :
  (forall x, In x l -> f x = false) -> List.find f l = None.
Proof.
  induction l as [|x l IH]; intros Hl; [done|]. simpl.
  rewrite (Hl x) by (by left). apply IH. intros y Hy. apply Hl. by right.
Qed.

Lemma create_training_configs_writes (json_dump : string -> string)
    (project_root : path) (w w' : world) :
  create_training_configs json_dump project_root w = (Ok tt, w') ->
  dirs_kept w w'
  /\ forall filename, filename ∈ config_files ->
       fs w' !! (configs_dir project_root ++ [filename])
       = Some (File (json_dump filename)).
Proof.
  intros Hrun. unfold create_training_configs in Hrun.
  assert (forall filename,
             respects dirs_kept
               (write_file (training_dir project_root ++ ["configs"; filename])
                           (json_dump filename) ;;
                log INFO ("Created config: "
                          +:+ str_path (training_dir project_root
                                        ++ ["configs"; filename]))))
    as Hdirs.
  { intros filename. respects_bind; [apply write_file_dirs_kept|].
    apply same_fs_dirs_kept, log_same_fs. }
  split.
  - pose proof (respects_for_each dirs_kept config_files _ Hdirs w) as Hkept.
    pose proof (f_equal snd Hrun) as Heq. simpl in Heq. by rewrite <- Heq.
  - intros filename Hin.
    set (p := configs_dir project_root ++ [filename]).
    destruct (for_each_visit dirs_kept (keeps (fun q => q = p)) config_files _
                filename w w' Hrun)
      as (wa & wb & Hstep & _ & Hafter); [|done| | |].
    + apply (bool_decide_unpack _). vm_compute. exact I.
    + intros y _. apply Hdirs.
    + intros y _ Hne. respects_bind; [|apply same_fs_keeps, log_same_fs].
      apply write_file_keeps. intros Heq. apply Hne. unfold p, configs_dir in Heq.
      rewrite <- app_assoc in Heq. apply app_inv_head in Heq.
      by injection Heq.
    + apply Hafter; [done|]. cbv beta in Hstep. unfold bind in Hstep.
      unfold write_file in Hstep.
      destruct (node_is_dir (lookup_node (fs wa) _)); [discriminate|].
      destruct (node_is_dir (lookup_node (fs wa) (parent _))); [|discriminate].
      rewrite log_spec in Hstep. injection Hstep as <-. simpl.
      unfold p, configs_dir. rewrite <- app_assoc. by rewrite lookup_insert_eq.
Qed.

(** X13: When the set-up script returns, the sixteen directories exist and the
    three configuration files hold what was dumped for them.  For
    [check_prerequisites] this means: the first missing item, if any, is a
    training script, and no warning about the data directories is logged. *)
Theorem setup_main_then_check (pip_run : string -> option exn)
    (json_dump : string -> string) (project_root : path) (w : world) :
  (setup_main pip_run json_dump project_root w).1 = Ok tt ->
  let w' := (setup_main pip_run json_dump project_root w).2 in
  Forall (is_directory (fs w')) (setup_directories_list project_root)
  /\ (forall filename, filename ∈ config_files ->
        fs w' !! (configs_dir project_root ++ [filename])
        = Some (File (json_dump filename)))
  /\ (forall what p,
         first_missing (fs w') (required_items project_root) = Some (what, p) ->
         p ∈ script_paths project_root)
  /\ data_warnings (fs w') project_root = [].
Proof.
  intros Hok w'. subst w'.
  destruct (setup_main pip_run json_dump project_root w) as [r w'] eqn:Hrun.
  simpl in Hok. subst r. cbn [snd].
  unfold setup_main in Hrun.
  rewrite (bind_ok _ _ _ _ _ (log_spec _ _ _)) in Hrun.
  unfold bind at 1 in Hrun.
  match type of Hrun with
  | context [setup_directories ?r ?w0] =>
      pose proof (setup_loop_makes_dirs (setup_directories_list r) w0) as Hdirs;
      fold (setup_directories r) in Hdirs; cbv zeta in Hdirs;
      destruct (setup_directories r w0) as [[[]|e] w1]; [|discriminate]
  end.
  specialize (Hdirs eq_refl). simpl in Hdirs.
  pose proof (install_dependencies_same_fs pip_run w1) as Hsame.
  unfold bind at 1 in Hrun.
  destruct (install_dependencies pip_run w1) as [[[]|e] w2]; [|discriminate].
  simpl in Hsame.
  unfold bind at 1 in Hrun.
  destruct (create_training_configs json_dump project_root w2)
    as [[[]|e] w3] eqn:Hconfigs; [|discriminate].
  apply create_training_configs_writes in Hconfigs as [Hkept Hfiles].
  do 4 rewrite (bind_ok _ _ _ _ _ (log_spec _ _ _)) in Hrun.
  rewrite log_spec in Hrun. injection Hrun as <-.
  rewrite !add_log_add_log. cbn [fs add_log].
  assert (Forall (is_directory (fs w3)) (setup_directories_list project_root))
    as Hdirs3.
  { eapply Forall_impl; [exact Hdirs|]. intros d Hd. apply Hkept.
    by rewrite Hsame. }
  assert (forall d, d ∈ setup_directories_list project_root ->
                    missing (fs w3) d = false) as Hthere.
  { intros d Hd. rewrite Forall_forall in Hdirs3. specialize (Hdirs3 d Hd).
    unfold missing, is_directory in *.
    destruct (lookup_node (fs w3) d) as [n|]; [|done].
    rewrite bool_decide_eq_true_2; [done|by eexists]. }
  assert (forall p, p ∈ config_paths project_root -> missing (fs w3) p = false)
    as Hconfig_there.
  { intros p Hp. unfold config_paths in Hp.
    apply list_elem_of_fmap in Hp as (filename & -> & Hin).
    unfold missing. rewrite lookup_node_snoc, (Hfiles filename Hin).
    rewrite bool_decide_eq_true_2; [done|by eexists]. }
  split_and!; [done|done| |].
  - intros what p Hfind. unfold first_missing, required_items in Hfind.
    rewrite !find_app_first in Hfind.
    pose proof (find_tagged (fs w3) "Required directory missing: "
                  (required_dirs project_root)) as H1.
    pose proof (find_tagged (fs w3) "Required config file missing: "
                  (config_paths project_root)) as H3.
    unfold first_missing in H1, H3. rewrite H1, H3 in Hfind.
    assert (List.find (missing (fs w3)) (required_dirs project_root) = None)
      as Hd.
    { unfold required_dirs. cbn [List.find].
      by rewrite !Hthere
        by (unfold setup_directories_list, scripts_dir, configs_dir;
            set_solver). }
    assert (List.find (missing (fs w3)) (config_paths project_root) = None)
      as Hc.
    { apply find_all_false. intros p' Hp'. apply Hconfig_there.
      by apply list_elem_of_In. }
    rewrite Hd, Hc in Hfind. cbn [option_map] in Hfind.
    destruct (List.find _ _) as [[what' p']|] eqn:Hscript; [|discriminate].
    injection Hfind as -> ->. apply find_some in Hscript as [Hin _].
    apply in_map_iff in Hin as (x & [= _ <-] & Hx). by apply list_elem_of_In.
  - unfold data_warnings, data_dirs. cbn [flat_map].
    by rewrite !Hthere by (unfold setup_directories_list; set_solver).
Qed.

Lemma setup_main_then_check_witness :
  let w' := (setup_main (fun _ => None) (fun filename => "{}") project
                        empty_world).2 in
  Forall (is_directory (fs w')) (setup_directories_list project)
  /\ (forall filename, filename ∈ config_files ->
        fs w' !! (configs_dir project ++ [filename]) = Some (File "{}"))
  /\ (forall what p,
         first_missing (fs w') (required_items project) = Some (what, p) ->
         p ∈ script_paths project)
  /\ data_warnings (fs w') project = [].
Proof.
  apply (setup_main_then_check (fun _ => None) (fun filename => "{}") project
           empty_world).
  vm_compute. reflexivity.
Defined.
(** ** [load_image_pairs]: which images are loaded *)

Lemma load_class_spec (class_dir : path) (w : world) :
  exists images,
    load_class class_dir w = (Ok images, w)
    /\ forall img_file,
        img_file ∈ images <->
        exists category_dir,
          category_dir ∈ category_dirs (fs w) class_dir
          /\ img_file ∈ iterdir (fs w) category_dir
          /\ (ends_with (name img_file) ".jpg" = true
              \/ ends_with (name img_file) ".png" = true).
Proof.
  unfold load_class. rewrite (bind_ok _ _ _ _ _ (glob_all_spec _ _)).
  unfold category_dirs.
  assert (forall dirs acc,
             exists images,
               for_fold (fun images drug_dir =>
                           d <- is_dir drug_dir ;;
                           if d : bool then
                             jpg <- glob_ext drug_dir ".jpg" ;;
                             png <- glob_ext drug_dir ".png" ;;
                             ret (images ++ (jpg ++ png))
                           else ret images) dirs acc w
               = (Ok images, w)
               /\ forall img_file,
                   img_file ∈ images <->
                   img_file ∈ acc
                   \/ exists category_dir,
                       category_dir
                       ∈ filter (fun d => node_is_dir (lookup_node (fs w) d) = true)
                                dirs
                       /\ img_file ∈ iterdir (fs w) category_dir
                       /\ (ends_with (name img_file) ".jpg" = true
                           \/ ends_with (name img_file) ".png" = true))
    as Hloop.
  { intros dirs. induction dirs as [|d dirs IH]; intros acc.
    - exists acc. split; [done|]. intros img_file. split; [by left|].
      intros [Hacc|(c & Hc & _)]; [done|]. by apply elem_of_nil in Hc.
    - cbn [for_fold]. unfold bind at 1. unfold bind at 1, is_dir at 1.
      rewrite filter_cons.
      destruct (node_is_dir (lookup_node (fs w) d)) eqn:Hd.
      + rewrite (bind_ok _ _ _ _ _ (glob_ext_spec _ _ _)),
          (bind_ok _ _ _ _ _ (glob_ext_spec _ _ _)).
        unfold ret at 1.
        destruct (IH (acc ++ filter (fun p => ends_with (name p) ".jpg" = true)
                                    (iterdir (fs w) d)
                          ++ filter (fun p => ends_with (name p) ".png" = true)
                                    (iterdir (fs w) d)))
          as (images & Hrun & Himages).
        exists images. split; [done|]. intros img_file.
        rewrite Himages, !elem_of_app, !list_elem_of_filter.
        rewrite decide_True by done. split.
        * intros [[Hacc|[[Hext Hin]|[Hext Hin]]]|(c & Hc & Hin & Hext)].
          -- by left.
          -- right. exists d. split_and!; [by left|done|by left].
          -- right. exists d. split_and!; [by left|done|by right].
          -- right. exists c. split_and!; [by right|done|done].
        * intros [Hacc|(c & Hc & Hin & Hext)]; [by left; left|].
          apply elem_of_cons in Hc as [->|Hc].
          -- left; right. destruct Hext; [by left|by right].
          -- right. by exists c.
      + unfold ret at 1. destruct (IH acc) as (images & Hrun & Himages).
        exists images. split; [done|]. intros img_file.
        rewrite Himages. rewrite decide_False by (simpl; congruence). done. }
  destruct (Hloop (iterdir (fs w) class_dir) []) as (images & Hrun & Himages).
  exists images. split; [done|]. intros img_file. rewrite Himages. split.
  - intros [Hnil|H]; [by apply elem_of_nil in Hnil|done].
  - intros H. by right.
Qed.

Lemma loadable_iff (f : gmap path node) (project_root : path)
    (dataset_type : string) (img_file : path) :
  loadable f project_root dataset_type img_file <->
  exists category_dir,
    category_dir ∈ category_dirs f (images_dir project_root ++ [dataset_type])
    /\ img_file ∈ iterdir f category_dir
    /\ (ends_with (name img_file) ".jpg" = true
        \/ ends_with (name img_file) ".png" = true).
Proof.
  unfold loadable. split; intros (c & Hc & Hin & Hext); exists c;
    (split_and!; [done| |done]).
  - by apply category_images_iterdir.
  - unfold category_images. rewrite !elem_of_app, !list_elem_of_filter.
    destruct Hext; [by left|by right; right; left].
Qed.

(** X14: [load_image_pairs] always returns and changes no file.  The images it
    returns for a class are exactly the [.jpg] and [.png] images of the
    category directories of the class: the same directories and entries that
    [validate_dataset_structure] counts and [split_dataset] copies, without
    the [.jpeg] and [.bmp] ones. *)
Theorem load_image_pairs_loads (project_root : path) (w : world) :
  exists authentic_images counterfeit_images w',
    load_image_pairs (data_dir project_root) w
    = (Ok (authentic_images, counterfeit_images), w')
    /\ fs w' = fs w
    /\ (forall img_file,
          img_file ∈ authentic_images
          <-> loadable (fs w) project_root "authentic" img_file)
    /\ (forall img_file,
          img_file ∈ counterfeit_images
          <-> loadable (fs w) project_root "counterfeit" img_file).
Proof.
  unfold load_image_pairs.
  destruct (load_class_spec
              (data_dir project_root ++ ["pharmaceutical_images"; "authentic"]) w)
    as (a & Ha & Hauthentic).
  destruct (load_class_spec
              (data_dir project_root ++ ["pharmaceutical_images"; "counterfeit"])
              w)
    as (c & Hc & Hcounterfeit).
  rewrite (bind_ok _ _ _ _ _ Ha), (bind_ok _ _ _ _ _ Hc).
  do 2 rewrite (bind_ok _ _ _ _ _ (log_spec _ _ _)).
  eexists a, c, _. split; [reflexivity|]. split; [done|].
  split; intros img_file; rewrite loadable_iff; unfold images_dir;
    rewrite <- app_assoc; [apply Hauthentic|apply Hcounterfeit].
Qed.
(** ** [split_dataset]: the summary *)

Lemma mkdir_from_dirs_kept (above : path) (below : list string) :
  respects dirs_kept (mkdir_from above below).
Proof.
  intros w d Hd. eapply keeps_directory; [|exact Hd].
  apply (mkdir_from_keeps anywhere).
Qed.

Lemma copy_split_dirs_kept (project_root : path)
    (dataset_type category_name : string) (split : string * list path) :
  respects dirs_kept (copy_split project_root dataset_type category_name split).
Proof.
  destruct split as [split_name file_list]. unfold copy_split.
  respects_bind; [apply mkdir_from_dirs_kept|].
  apply respects_for_each; [apply _|]. intros img_file w. unfold copy2.
  destruct (lookup_node (fs w) img_file) as [[|content]|]; try reflexivity.
  case_bool_decide; [reflexivity|]. apply write_file_dirs_kept.
Qed.

Lemma split_type_dirs_kept (E : oracle) (project_root : path)
    (train_ratio val_ratio : PyFloat.float) (dataset_type : string) :
  respects dirs_kept
           (split_type E project_root train_ratio val_ratio dataset_type).
Proof.
  apply split_type_respects; [apply _|intros A m; apply same_fs_dirs_kept|].
  intros category_dir.
  apply split_category_respects; [apply _|intros A m; apply same_fs_dirs_kept|].
  intros split. apply copy_split_dirs_kept.
Qed.

(** The two nested loops that make the directories of the splits. *)
Lemma split_dirs_made (project_root : path) (w w' : world) :
  for_each ["train"; "val"; "test"]
    (fun split =>
       for_each dataset_types
         (fun dataset_type =>
            mkdir_parents (processed_dir project_root ++ [split; dataset_type])))
    w = (Ok tt, w') ->
  forall split dataset_type,
    split ∈ split_names -> dataset_type ∈ dataset_types ->
    is_directory (fs w') (processed_dir project_root ++ [split; dataset_type]).
Proof.
  intros Hrun split dataset_type Hsplit Htype.
  assert (forall s,
             respects dirs_kept
               (for_each dataset_types
                  (fun t => mkdir_parents (processed_dir project_root ++ [s; t]))))
    as Hinner.
  { intros s. apply respects_for_each; [apply _|]. intros t.
    apply mkdir_from_dirs_kept. }
  destruct (for_each_visit dirs_kept dirs_kept ["train"; "val"; "test"] _ split
              w w' Hrun)
    as (wa & wb & Hvisit & _ & Hafter); [|done|by intros s _..|].
  { apply (bool_decide_unpack _). vm_compute. exact I. }
  cbv beta in Hvisit.
  destruct (for_each_visit dirs_kept dirs_kept dataset_types _ dataset_type
              wa wb Hvisit)
    as (wc & wd & Hmk & _ & Hafter');
    [|done|intros t _; apply (mkdir_from_dirs_kept [])
     |intros t _ _; apply (mkdir_from_dirs_kept [])|].
  { apply (bool_decide_unpack _). vm_compute. exact I. }
  cbv beta in Hmk. apply Hafter, Hafter'.
  pose proof (mkdir_from_makes_dir []
                (processed_dir project_root ++ [split; dataset_type]) wc) as Hdir.
  unfold mkdir_parents in Hmk. rewrite Hmk in Hdir. by apply Hdir.
Qed.

Lemma count_splits_spec (project_root : path) (w : world) :
  (forall split dataset_type,
      split ∈ split_names -> dataset_type ∈ dataset_types ->
      is_directory (fs w) (processed_dir project_root ++ [split; dataset_type])) ->
  count_splits project_root ["train"; "val"; "test"] w
  = (Ok (summary_of (fs w) project_root), w).
Proof.
  intros Hdirs.
  assert (forall split dataset_type,
             split ∈ split_names -> dataset_type ∈ dataset_types ->
             count_split_type project_root split dataset_type w
             = (Ok [(dataset_type,
                     split_count (fs w) project_root split dataset_type)], w))
    as Htype.
  { intros split dataset_type Hsplit Ht. unfold count_split_type.
    unfold bind at 1, path_exists at 1.
    specialize (Hdirs split dataset_type Hsplit Ht). unfold is_directory in Hdirs.
    destruct (lookup_node (fs w) _) as [n|] eqn:Hn; [|discriminate].
    rewrite bool_decide_eq_true_2 by (by eexists). done. }
  assert (forall split types,
             split ∈ split_names -> types ⊆ dataset_types ->
             count_split project_root split types w
             = (Ok (map (fun t => (t, split_count (fs w) project_root split t))
                        types), w)) as Hsplit.
  { intros split types Hs. induction types as [|t types IH]; intros Hsub; [done|].
    cbn [count_split].
    rewrite (bind_ok _ _ _ _ _ (Htype split t Hs ltac:(apply Hsub; by left))).
    rewrite (bind_ok _ _ _ _ _ (IH ltac:(intros x Hx; apply Hsub; by right))).
    done. }
  assert (forall l,
             l ⊆ split_names ->
             count_splits project_root l w
             = (Ok (map (fun split =>
                           (split,
                            map (fun t => (t, split_count (fs w) project_root
                                                          split t))
                                dataset_types)) l), w)) as Hall.
  { intros l. induction l as [|split l IH]; intros Hsub; [done|].
    cbn [count_splits].
    rewrite (bind_ok _ _ _ _ _
               (Hsplit split dataset_types ltac:(apply Hsub; by left)
                       ltac:(done))).
    rewrite (bind_ok _ _ _ _ _ (IH ltac:(intros x Hx; apply Hsub; by right))).
    done. }
  by apply (Hall split_names).
Qed.

Lemma keys_insert_filter (Q : path -> Prop) `{!forall p, Decision (Q p)}
    (f : gmap path node) (p : path) (n : node) :
  ~ Q p ->
  length (filter Q (map fst (map_to_list (<[p := n]> f))))
  = length (filter Q (map fst (map_to_list f))).
Proof.
  intros HQ. destruct (f !! p) as [n0|] eqn:Hp.
  - pose proof (map_to_list_insert (delete p f) p n (lookup_delete_eq f p)) as H1.
    pose proof (map_to_list_insert (delete p f) p n0 (lookup_delete_eq f p)) as H2.
    rewrite insert_delete_eq in H1. rewrite (insert_delete_id f p n0 Hp) in H2.
    change (map fst) with (fmap (M := list) (@fst path node)).
    by rewrite H1, H2.
  - pose proof (map_to_list_insert f p n Hp) as H1.
    change (map fst) with (fmap (M := list) (@fst path node)).
    rewrite H1. simpl. by rewrite filter_cons_False.
Qed.

(** X16: The summary that [split_dataset] returns has an entry for each of the
    three splits and in it an entry for each of the two classes, with the
    ratios it was called with; the number is the number of entries with
    suffix [.jpg] or [.png] at any depth below the directory of the split
    and class in the file system the call leaves. *)
Theorem split_dataset_summary (E : oracle) (project_root : path)
    (train_ratio val_ratio test_ratio : PyFloat.float) (w w' : world)
    (summary : split_summary) :
  split_dataset E project_root train_ratio val_ratio test_ratio w
  = (Ok summary, w') ->
  summary = SplitSummary (train_ratio, val_ratio, test_ratio)
                         (summary_of (fs w') project_root).
Proof.
  intros Hrun. unfold split_dataset, validate_ratios in Hrun.
  destruct (ratios_off _ _ _); [discriminate|].
  change (split_dataset_body E project_root train_ratio val_ratio test_ratio w
          = (Ok summary, w')) in Hrun.
  unfold split_dataset_body in Hrun.
  rewrite (bind_ok _ _ _ _ _ (log_spec _ _ _)) in Hrun.
  unfold bind at 1 in Hrun.
  match type of Hrun with
  | context [for_each ["train"; "val"; "test"] ?body ?w0] =>
      pose proof (split_dirs_made project_root w0) as Hdirs;
      destruct (for_each ["train"; "val"; "test"] body w0)
        as [[[]|e] w_a]; [|discriminate]
  end.
  specialize (Hdirs w_a eq_refl).
  unfold bind at 1 in Hrun.
  pose proof (respects_for_each dirs_kept dataset_types _
                (split_type_dirs_kept E project_root train_ratio val_ratio) w_a)
    as Hkept.
  destruct (for_each dataset_types
              (split_type E project_root train_ratio val_ratio) w_a)
    as [[[]|e] w_b]; [|discriminate].
  simpl in Hkept.
  rewrite (bind_ok _ _ _ _ _ (count_splits_spec project_root w_b
                                ltac:(intros s t Hs Ht; by apply Hkept, Hdirs)))
    in Hrun.
  unfold bind at 1, write_file at 1 in Hrun.
  destruct (node_is_dir (lookup_node (fs w_b) _)); [discriminate|].
  destruct (node_is_dir (lookup_node (fs w_b) (parent _))); [|discriminate].
  rewrite (bind_ok _ _ _ _ _ (log_spec _ _ _)) in Hrun.
  injection Hrun as <- <-. f_equal. cbn [fs add_log set_fs].
  unfold summary_of. apply map_ext. intros split. f_equal.
  apply map_ext. intros dataset_type. f_equal.
  unfold split_count, rglob_count.
  rewrite !keys_insert_filter; [done|..];
    (intros Hbelow; apply andb_prop in Hbelow as [Hbelow _];
     unfold is_below in Hbelow; apply bool_decide_eq_true_1 in Hbelow as [Hlen _];
     rewrite !length_app in Hlen; simpl in Hlen; lia).
Qed.

Lemma split_dataset_summary_witness :
  match (split_dataset demo_oracle project PyFloat.lit_0_7 PyFloat.lit_0_2
                       PyFloat.lit_0_1 gallery_world).1 with
  | Ok summary => summary
  | Err _ => SplitSummary (PyFloat.lit_0_7, PyFloat.lit_0_2, PyFloat.lit_0_1) []
  end
  = SplitSummary (PyFloat.lit_0_7, PyFloat.lit_0_2, PyFloat.lit_0_1)
      (summary_of
         (fs (split_dataset demo_oracle project PyFloat.lit_0_7 PyFloat.lit_0_2
                            PyFloat.lit_0_1 gallery_world).2) project).
Proof.
  apply (split_dataset_summary demo_oracle project PyFloat.lit_0_7
           PyFloat.lit_0_2 PyFloat.lit_0_1 gallery_world
           (split_dataset demo_oracle project PyFloat.lit_0_7 PyFloat.lit_0_2
                          PyFloat.lit_0_1 gallery_world).2).
  apply run_ok. vm_compute. reflexivity.
Defined.
(** ** [download_sample_pharmaceutical_dataset]: the placeholders *)

Lemma mkdir_exist_ok_keeps (P : path -> Prop) (p : path) :
  respects (keeps P) (mkdir_exist_ok p).
Proof.
  intros w q n HP Hq. unfold mkdir_exist_ok.
  destruct (lookup_node (fs w) p) as [[|content]|] eqn:Hp; [done..|].
  destruct (node_is_dir _); [|done]. simpl.
  rewrite lookup_insert_ne; [done|]. intros <-.
  destruct p; [discriminate|]. simpl in Hp. congruence.
Qed.

Lemma mkdir_exist_ok_dirs_kept (p : path) : respects dirs_kept (mkdir_exist_ok p).
Proof.
  intros w d Hd. eapply keeps_directory; [|exact Hd].
  apply (mkdir_exist_ok_keeps anywhere).
Qed.

Lemma placeholder_keeps (P : path -> Prop) (info : string -> string -> string)
    (project_root : path) (dataset_type category : string) :
  ~ P (info_file project_root dataset_type category) ->
  respects (keeps P) (placeholder info project_root dataset_type category).
Proof.
  intros HP. unfold placeholder.
  respects_bind; [apply mkdir_exist_ok_keeps|].
  apply write_file_keeps. unfold info_file in HP. by rewrite <- !app_assoc.
Qed.

Lemma placeholder_dirs_kept (info : string -> string -> string)
    (project_root : path) (dataset_type category : string) :
  respects dirs_kept (placeholder info project_root dataset_type category).
Proof.
  unfold placeholder.
  respects_bind; [apply mkdir_exist_ok_dirs_kept|apply write_file_dirs_kept].
Qed.

Lemma placeholder_made (info : string -> string -> string)
    (project_root : path) (dataset_type category : string) (w w' : world) :
  placeholder info project_root dataset_type category w = (Ok tt, w') ->
  fs w' !! (images_dir project_root ++ [dataset_type] ++ [category]) = Some Dir
  /\ fs w' !! info_file project_root dataset_type category
     = Some (File (info dataset_type category)).
Proof.
  unfold placeholder, info_file.
  set (category_dir := images_dir project_root ++ [dataset_type] ++ [category]).
  replace (images_dir project_root ++ [dataset_type] ++ [category]
           ++ ["dataset_info.json"])
    with (category_dir ++ ["dataset_info.json"])
    by (unfold category_dir; by rewrite <- !app_assoc).
  assert (forall f, lookup_node f category_dir = f !! category_dir) as Hnode.
  { intros f. unfold category_dir. rewrite app_assoc. apply lookup_node_snoc. }
  intros Hrun. unfold bind in Hrun.
  assert (forall w1, mkdir_exist_ok category_dir w = (Ok tt, w1) ->
                     fs w1 !! category_dir = Some Dir) as Hmk.
  { intros w1. unfold mkdir_exist_ok. rewrite Hnode.
    destruct (fs w !! category_dir) as [[|content]|] eqn:Hc.
    - by intros [= <-].
    - discriminate.
    - destruct (node_is_dir _); [|discriminate]. intros [= <-]. simpl.
      by rewrite lookup_insert_eq. }
  destruct (mkdir_exist_ok category_dir w) as [[[]|e] w1]; [|discriminate].
  specialize (Hmk w1 eq_refl). unfold write_file in Hrun.
  destruct (node_is_dir (lookup_node (fs w1) (category_dir ++ _)));
    [discriminate|].
  destruct (node_is_dir (lookup_node (fs w1) (parent _))); [|discriminate].
  injection Hrun as <-. simpl. split.
  - rewrite lookup_insert_ne; [done|]. intros Heq.
    apply (f_equal length) in Heq. rewrite length_app in Heq. simpl in Heq. lia.
  - by rewrite lookup_insert_eq.
Qed.

Lemma placeholder_apart (project_root : path)
    (dataset_type category dataset_type' category' : string) :
  dataset_type' <> dataset_type \/ category' <> category ->
  ~ placeholder_of project_root dataset_type category
      (info_file project_root dataset_type' category').
Proof.
  intros Hother [Heq|Heq]; unfold info_file in Heq.
  - apply (f_equal length) in Heq. rewrite !length_app in Heq. simpl in Heq. lia.
  - apply app_inv_head in Heq. injection Heq as Ht Hc.
    destruct Hother; congruence.
Qed.

(** X17: When [download_sample_pharmaceutical_dataset] returns, each of the
    eight categories of both classes is a directory that holds its
    information file, both class directories exist, and nothing that was
    there before has changed, except information files of placeholders. *)
Theorem download_sample_placeholders (info : string -> string -> string)
    (project_root : path) (w : world) :
  (download_sample_pharmaceutical_dataset info project_root w).1 = Ok tt ->
  let w' := (download_sample_pharmaceutical_dataset info project_root w).2 in
  (forall dataset_type category,
      dataset_type ∈ dataset_types -> category ∈ drug_categories ->
      is_directory (fs w')
                   (images_dir project_root ++ [dataset_type] ++ [category])
      /\ fs w' !! info_file project_root dataset_type category
         = Some (File (info dataset_type category)))
  /\ (forall dataset_type,
         dataset_type ∈ dataset_types ->
         is_directory (fs w') (images_dir project_root ++ [dataset_type]))
  /\ (forall q n, not_an_info_file project_root q ->
                  fs w !! q = Some n -> fs w' !! q = Some n).
Proof.
  intros Hok w'.
  assert (forall t, respects (keeps (not_an_info_file project_root))
                      (for_each drug_categories
                                (placeholder info project_root t))) as Hloop_keeps.
  { intros t. apply respects_for_each; [apply _|]. intros c.
    apply placeholder_keeps. intros Hnot. by apply (Hnot t c). }
  assert (forall t, respects dirs_kept
                      (for_each drug_categories
                                (placeholder info project_root t))) as Hloop_dirs.
  { intros t. apply respects_for_each; [apply _|]. intros c.
    apply placeholder_dirs_kept. }
  assert (NoDup drug_categories) as Hnodup
    by (apply (bool_decide_unpack _); vm_compute; exact I).
  split_and!; [| |].
  3:{ apply (respects_bind (keeps (not_an_info_file project_root)));
        [apply same_fs_keeps, log_same_fs|intros _].
      respects_bind; [apply mkdir_from_keeps|].
      do 5 (respects_bind; [apply same_fs_keeps, log_same_fs|]).
      respects_bind; [apply Hloop_keeps|].
      respects_bind; [apply mkdir_from_keeps|]. apply Hloop_keeps. }
  all: subst w';
    destruct (download_sample_pharmaceutical_dataset info project_root w)
      as [r w'] eqn:Hrun; simpl in Hok; subst r; cbn [snd];
    unfold download_sample_pharmaceutical_dataset in Hrun;
    rewrite (bind_ok _ _ _ _ _ (log_spec _ _ _)) in Hrun;
    unfold bind at 1 in Hrun;
    match type of Hrun with
    | context [mkdir_parents ?p ?w0] =>
        pose proof (mkdir_from_makes_dir [] p w0 eq_refl) as Hauthentic;
        unfold mkdir_parents in Hrun;
        destruct (mkdir_from [] p w0) as [[[]|e] w1]; [|discriminate]
    end;
    specialize (Hauthentic eq_refl); cbn [fst snd app] in Hauthentic;
    do 5 rewrite (bind_ok _ _ _ _ _ (log_spec _ _ _)) in Hrun;
    rewrite !add_log_add_log in Hrun;
    unfold bind at 1 in Hrun;
    match type of Hrun with
    | context [for_each drug_categories ?body ?w2] =>
        pose proof (Hloop_dirs "authentic" w2) as Hdirs_a;
        destruct (for_each drug_categories body w2) as [[[]|e] w3] eqn:Hloop_a;
          [|discriminate]
    end;
    cbn [snd] in Hdirs_a; unfold bind at 1 in Hrun;
    pose proof (mkdir_from_makes_dir []
                  (images_dir project_root ++ ["counterfeit"]) w3 eq_refl)
      as Hcounterfeit;
    pose proof (mkdir_from_keeps anywhere []
                  (images_dir project_root ++ ["counterfeit"]) w3) as Hkeep_c;
    unfold mkdir_parents in Hrun;
    destruct (mkdir_from [] (images_dir project_root ++ ["counterfeit"]) w3)
      as [[[]|e] w4]; [|discriminate];
    specialize (Hcounterfeit eq_refl); cbn [fst snd app] in Hcounterfeit, Hkeep_c;
    pose proof (Hloop_dirs "counterfeit" w4) as Hdirs_c;
    rewrite Hrun in Hdirs_c; cbn [snd] in Hdirs_c.
  - intros dataset_type category Ht Hc.
    assert (fs w' !! (images_dir project_root ++ [dataset_type] ++ [category])
            = Some Dir
            /\ fs w' !! info_file project_root dataset_type category
               = Some (File (info dataset_type category))) as [Hdir Hinfo].
    { assert (forall t wa wb,
                 for_each drug_categories (placeholder info project_root t) wa
                 = (Ok tt, wb) ->
                 exists wv,
                   (fs wv !! (images_dir project_root ++ [t] ++ [category])
                    = Some Dir
                    /\ fs wv !! info_file project_root t category
                       = Some (File (info t category)))
                   /\ keeps (placeholder_of project_root t category) wv wb)
        as Hvisit.
      { intros t wa wb Hloop.
        destruct (for_each_visit dirs_kept
                    (keeps (placeholder_of project_root t category))
                    drug_categories (placeholder info project_root t) category
                    wa wb Hloop Hnodup Hc)
          as (wu & wv & Hstep & _ & Hafter).
        - intros y _. apply placeholder_dirs_kept.
        - intros y _ Hne. apply placeholder_keeps, placeholder_apart. by right.
        - exists wv. split; [|done]. by apply placeholder_made in Hstep. }
      unfold dataset_types in Ht. rewrite !elem_of_cons in Ht.
      destruct Ht as [->|[->|Ht]]; [| |by apply elem_of_nil in Ht].
      - destruct (Hvisit "authentic" _ _ Hloop_a) as (wv & [Hd Hi] & Hkeep).
        assert (keeps (placeholder_of project_root "authentic" category) w3 w')
          as Hrest.
        { transitivity w4.
          - intros q n _ Hq. by apply Hkeep_c.
          - pose proof (respects_for_each
                          (keeps (placeholder_of project_root "authentic"
                                                 category))
                          drug_categories
                          (placeholder info project_root "counterfeit")) as Hl.
            pose proof (f_equal snd Hrun) as Heq. simpl in Heq.
            rewrite <- Heq. apply Hl. intros y.
            apply placeholder_keeps, placeholder_apart. by left. }
        split; apply Hrest, Hkeep; first [by left|by right|done].
      - destruct (Hvisit "counterfeit" _ _ Hrun) as (wv & [Hd Hi] & Hkeep).
        split; apply Hkeep; first [by left|by right|done]. }
    split; [|done]. unfold is_directory.
    rewrite app_assoc, lookup_node_snoc, <- app_assoc. by rewrite Hdir.
  - intros dataset_type Ht. unfold dataset_types in Ht.
    rewrite !elem_of_cons in Ht.
    destruct Ht as [->|[->|Ht]]; [| |by apply elem_of_nil in Ht].
    + apply Hdirs_c. eapply keeps_directory; [exact Hkeep_c|].
      apply Hdirs_a. exact Hauthentic.
    + apply Hdirs_c. exact Hcounterfeit.
Qed.

Lemma download_sample_placeholders_witness :
  let w' := (download_sample_pharmaceutical_dataset
               (fun dataset_type category => "{}") project empty_world).2 in
  (forall dataset_type category,
      dataset_type ∈ dataset_types -> category ∈ drug_categories ->
      is_directory (fs w') (images_dir project ++ [dataset_type] ++ [category])
      /\ fs w' !! info_file project dataset_type category = Some (File "{}"))
  /\ (forall dataset_type,
         dataset_type ∈ dataset_types ->
         is_directory (fs w') (images_dir project ++ [dataset_type]))
  /\ (forall q n, not_an_info_file project q ->
                  fs empty_world !! q = Some n -> fs w' !! q = Some n).
Proof.
  apply (download_sample_placeholders (fun dataset_type category => "{}")
           project empty_world).
  vm_compute. reflexivity.
Defined.
